(** * Emotional Journal: analyzer, entry store and statistics engine

    Shallow embedding of [utils/sentiment_analyzer_lite.py],
    [utils/sentiment_analyzer.py], [utils/data_manager.py] and of the
    submission handler of [app.py].

    Conventions of the embedding
    - a Python [int] is a [Z];
    - a [datetime] is a [Z] counting seconds on the naive local time line,
      a [date] is the day number [ts / 86400], and the [.days] of a
      difference of two dates is the difference of their day numbers;
    - a finite Python [float] is the rational it denotes ([Q]);
    - a [str] is a [string], one character per code point below 256;
    - a raised exception is the [Raise] case of the result type [res];
    - what the program takes from outside is an argument: the clock
      ([now]), the polarity scorer and the transformer pipelines (functions
      that return or raise), and whether the sqlite3 calls of a method
      succeed ([db_ok]); the database file is a value of type [db].

    Of the dictionary of [get_stats] the streak keys and the number of
    entries are embedded; the averages, which round, are not. *)

From Stdlib Require Import String Ascii QArith Qabs Lqa.
From Stdlib Require Import ZArith List Bool Lia Permutation Sorted.
Import ListNotations.
Open Scope Z_scope.

(** ** Python built-ins used by the sources *)

Module Py.

(** [sorted(l, key=key, reverse=True)]: a stable sort into descending key
    order; elements with equal keys keep their original relative order. *)
Fixpoint insert_rev {A : Type} (key : A -> Z) (x : A) (l : list A) : list A :=
  match l with
  | [] => [x]
  | y :: l' => if key x <? key y then y :: insert_rev key x l' else x :: l
  end.

Definition sorted_rev {A : Type} (key : A -> Z) (l : list A) : list A :=
  fold_right (insert_rev key) [] l.

(** [occurs_before l a b]: some occurrence of [a] in [l] comes before some
    occurrence of [b]. *)
Definition occurs_before {A : Type} (l : list A) (a b : A) : Prop :=
  exists l1 l2 l3, l = l1 ++ a :: l2 ++ b :: l3.

(** The order in which [sorted_rev key l] leaves two elements: the larger key
    first, and for equal keys the original order. *)
Definition ranks_before {A : Type} (key : A -> Z) (l : list A) (a b : A) : Prop :=
  key a > key b \/ (key a = key b /\ occurs_before l a b).

(** [Series.unique()]: the distinct values in order of first appearance. *)
Fixpoint unique_from (seen : list Z) (l : list Z) : list Z :=
  match l with
  | [] => []
  | x :: l' =>
      if existsb (Z.eqb x) seen then unique_from seen l'
      else x :: unique_from (x :: seen) l'
  end.

Definition unique (l : list Z) : list Z := unique_from [] l.

End Py.


(** ** Python strings, the [re] pattern of the keyword extractor, [Counter] *)

Module PyStr.

(** Code point of a character, and back. *)
Definition ord (c : ascii) : Z := Z.of_N (N_of_ascii c).
Definition chr (n : Z) : ascii := ascii_of_N (Z.to_N n).

(** [len(s)] *)
Definition len (s : string) : Z := Z.of_nat (String.length s).

Definition in_range (lo hi n : Z) : bool := (lo <=? n) && (n <=? hi).

(** [str.lower()] on one code point: A-Z, and the upper-case letters of the
    range 0xC0-0xDE except the multiplication sign 0xD7. *)
Definition lower_char (c : ascii) : ascii :=
  let n := ord c in
  if in_range 65 90 n || (in_range 192 222 n && negb (n =? 215))
  then chr (n + 32) else c.

Fixpoint lower (s : string) : string :=
  match s with
  | EmptyString => EmptyString
  | String c s' => String (lower_char c) (lower s')
  end.

(** [c.isspace()]: tab to carriage return, the four separators 0x1C-0x1F,
    space, NEL and the no-break space. *)
Definition isspace (c : ascii) : bool :=
  let n := ord c in
  in_range 9 13 n || in_range 28 32 n || (n =? 133) || (n =? 160).

Fixpoint lstrip (s : string) : string :=
  match s with
  | EmptyString => EmptyString
  | String c s' => if isspace c then lstrip s' else s
  end.

Fixpoint rstrip (s : string) : string :=
  match s with
  | EmptyString => EmptyString
  | String c s' =>
      match rstrip s' with
      | EmptyString => if isspace c then EmptyString else String c EmptyString
      | r => String c r
      end
  end.

(** [s.strip()] *)
Definition strip (s : string) : string := rstrip (lstrip s).

(** [len(s.split())]: the number of maximal runs of non-space characters. *)
Fixpoint count_words (in_word : bool) (s : string) : Z :=
  match s with
  | EmptyString => 0
  | String c s' =>
      if isspace c then count_words false s'
      else (if in_word then 0 else 1) + count_words true s'
  end.

Definition split_len (s : string) : Z := count_words false s.

(** [needle in hay] *)
Fixpoint contains (needle hay : string) : bool :=
  if String.prefix needle hay then true
  else match hay with
       | EmptyString => false
       | String _ hay' => contains needle hay'
       end.

(** [s[:n]] for a non-negative [n] *)
Definition take (n : nat) (s : string) : string := String.substring 0 n s.

(** [l[:n]] on a list, for any integer [n >= 0] *)
Definition list_take {A : Type} (n : Z) (l : list A) : list A :=
  firstn (Z.to_nat n) l.

(** *** The pattern [\b[a-z]{3,}\b] *)

(** The class [[a-z]]. *)
Definition is_az (c : ascii) : bool := in_range 97 122 (ord c).

(** The class [\w] of a [str] pattern: [c.isalnum()] or the underscore. *)
Definition isalnum (c : ascii) : bool :=
  let n := ord c in
  in_range 48 57 n || in_range 65 90 n || in_range 97 122 n ||
  (n =? 170) || (n =? 178) || (n =? 179) || (n =? 181) ||
  (n =? 185) || (n =? 186) || in_range 188 190 n ||
  in_range 192 214 n || in_range 216 246 n || in_range 248 255 n.

Definition is_word (c : ascii) : bool := isalnum c || (ord c =? 95).

Definition is_word_opt (c : option ascii) : bool :=
  match c with Some c => is_word c | None => false end.

(** [\b] between two neighbouring positions; outside the string counts as a
    non-word character. *)
Definition boundary (prev next : option ascii) : bool :=
  xorb (is_word_opt prev) (is_word_opt next).

(** Length of the longest prefix in [[a-z]]: what the greedy [[a-z]{3,}]
    takes first. *)
Fixpoint az_run (s : string) : nat :=
  match s with
  | EmptyString => O
  | String c s' => if is_az c then S (az_run s') else O
  end.

(** Backtracking of [[a-z]{3,}\b]: from [m] characters downward, the first
    length of at least 3 that ends at a word boundary. *)
Fixpoint backtrack (s : string) (m : nat) : option string :=
  if (m <? 3)%nat then None
  else
    let before := match m with O => None | S k => String.get k s end in
    if boundary before (String.get m s) then Some (take m s)
    else match m with
         | O => None
         | S m' => backtrack s m'
         end.

(** A match of the whole pattern that starts at the head of [s], the
    character before it being [prev]. *)
Definition match_at (prev : option ascii) (s : string) : option string :=
  if boundary prev (String.get 0 s) then backtrack s (az_run s) else None.

(** [re.findall]: scan left to right; after a match resume behind it
    ([skip] counts the characters of the match still to pass). *)
Fixpoint findall_from (prev : option ascii) (skip : nat) (s : string)
  : list string :=
  match s with
  | EmptyString => []
  | String c s' =>
      match skip with
      | S k => findall_from (Some c) k s'
      | O =>
          match match_at prev s with
          | Some tok => tok :: findall_from (Some c) (String.length tok - 1) s'
          | None => findall_from (Some c) 0 s'
          end
      end
  end.

Definition findall (s : string) : list string := findall_from None 0 s.

(** *** [collections.Counter] as an insertion-ordered table *)

Definition counter := list (string * Z).

Fixpoint counter_incr (w : string) (c : counter) : counter :=
  match c with
  | [] => [(w, 1)]
  | (k, n) :: c' =>
      if String.eqb k w then (k, n + 1) :: c' else (k, n) :: counter_incr w c'
  end.

(** [Counter(words)] *)
Definition Counter (words : list string) : counter :=
  fold_left (fun c w => counter_incr w c) words [].

(** [c.most_common(n)], that is [sorted(c.items(), key=itemgetter(1),
    reverse=True)[:n]]. *)
Definition most_common (n : Z) (c : counter) : list (string * Z) :=
  list_take n (Py.sorted_rev snd c).

(** *** Ranking by count *)

(** [[k for k, _ in sorted(items, key=itemgetter(1), reverse=True)[:n]]] *)
Definition top {A : Type} (items : list (A * Z)) (n : Z) : list A :=
  map fst (list_take n (Py.sorted_rev snd items)).

(** [outranks cnt pos a b]: [a] has the larger count, or the same count and
    the earlier position. *)
Definition outranks {A : Type} (cnt : A -> Z) (pos : A -> nat) (a b : A)
  : Prop :=
  cnt a > cnt b \/ (cnt a = cnt b /\ (pos a < pos b)%nat).

(** Number of occurrences of [w] in [l]. *)
Definition count_of (l : list string) (w : string) : Z :=
  Z.of_nat (count_occ string_dec l w).

(** Position of the first occurrence of [w] in [l] (the length of [l] when
    there is none). *)
Fixpoint first_pos (l : list string) (w : string) : nat :=
  match l with
  | [] => O
  | x :: l' => if String.eqb x w then O else S (first_pos l' w)
  end.

(** All characters are in [[a-z]]. *)
Fixpoint all_az (s : string) : bool :=
  match s with
  | EmptyString => true
  | String c s' => is_az c && all_az s'
  end.

(** The shape of a match of [[a-z]{3,}]: letters a-z only, at least three
    of them. *)
Definition token_shape (w : string) : Prop :=
  all_az w = true /\ (3 <= String.length w)%nat.

(** The last character of a string. *)
Fixpoint last_char (s : string) : option ascii :=
  match s with
  | EmptyString => None
  | String c s' =>
      match s' with
      | EmptyString => Some c
      | _ => last_char s'
      end
  end.

(** [delimited pre post]: a substring between [pre] and [post] is bounded
    by non-word characters or by the ends of the string. *)
Definition delimited (pre post : string) : Prop :=
  is_word_opt (last_char pre) = false /\
  is_word_opt (String.get 0 post) = false.

(** *** The tokens, described without the matching automaton *)

(** Length of the longest prefix of word characters. *)
Fixpoint word_len (s : string) : nat :=
  match s with
  | EmptyString => O
  | String c s' => if is_word c then S (word_len s') else O
  end.

(** The maximal runs of word characters of a string, from left to right;
    [in_run] tells that the character before [s] is a word character, so
    that a run is under way. *)
Fixpoint word_runs (in_run : bool) (s : string) : list string :=
  match s with
  | EmptyString => []
  | String c s' =>
      if is_word c then
        if in_run then word_runs true s'
        else take (word_len s) s :: word_runs true s'
      else word_runs false s'
  end.

(** An alphabetic token of length at least 3. *)
Definition is_token (w : string) : bool :=
  all_az w && (3 <=? String.length w)%nat.

(** The alphabetic tokens of length at least 3 of a string, in the order of
    the text and with their repetitions: the maximal runs of word characters
    that consist of letters a-z only and have at least three of them. *)
Definition spec_tokens (s : string) : list string :=
  filter is_token (word_runs false s).

End PyStr.
(** ** Statistics engine: [DataManager._calculate_streaks] *)

Module Streaks.

Definition timestamp := Z.

(** [ts.date()] as a day number. *)
Definition date_of (ts : timestamp) : Z := ts / 86400.

(** The loop [for i in range(len(dates) - 1)] of the current streak: it
    stops at the first gap that is not one day. *)
Fixpoint current_loop (dates : list Z) (current_streak : Z) : Z :=
  match dates with
  | d :: ((d' :: _) as rest) =>
      if d - d' =? 1 then current_loop rest (current_streak + 1)
      else current_streak
  | _ => current_streak
  end.

(** The loop of the longest streak, with its two counters. *)
Fixpoint longest_loop (dates : list Z) (longest_streak temp_streak : Z) : Z :=
  match dates with
  | d :: ((d' :: _) as rest) =>
      if d - d' =? 1
      then longest_loop rest (Z.max longest_streak (temp_streak + 1))
                        (temp_streak + 1)
      else longest_loop rest longest_streak 1
  | _ => longest_streak
  end.

(** [dates = sorted(df['timestamp'].dt.date.unique(), reverse=True)] *)
Definition dates_of (df : list timestamp) : list Z :=
  Py.sorted_rev (fun d => d) (Py.unique (map date_of df)).

(** [_calculate_streaks(df)], with [datetime.now()] passed as [now]; [df] is
    the timestamp column of the frame. *)
Definition _calculate_streaks (now : timestamp) (df : list timestamp) : Z * Z :=
  match df with
  | [] => (0, 0)
  | _ =>
      let dates := dates_of df in
      match dates with
      | [] => (0, 0)
      | d0 :: _ =>
          let today := date_of now in
          let yesterday := today - 1 in
          let current_streak :=
            if (d0 =? today) || (d0 =? yesterday)
            then current_loop dates 1
            else 0 in
          let longest_streak := longest_loop dates 1 1 in
          (current_streak, longest_streak)
      end
  end.

Definition current_streak (now : timestamp) (df : list timestamp) : Z :=
  fst (_calculate_streaks now df).

Definition longest_streak (now : timestamp) (df : list timestamp) : Z :=
  snd (_calculate_streaks now df).

(** On a descending list of dates, the longest of the runs that start at
    each of its dates. *)
Fixpoint best_run (dates : list Z) : Z :=
  match dates with
  | [] => 0
  | _ :: rest => Z.max (current_loop dates 1) (best_run rest)
  end.

(** The calendar dates that carry at least one entry. *)
Definition entry_dates (df : list timestamp) : list Z := map date_of df.

(** [run D d k]: the [k] consecutive days [d, d-1, ..., d-k+1] all carry an
    entry. *)
Definition run (D : list Z) (d k : Z) : Prop :=
  forall i, 0 <= i < k -> In (d - i) D.

End Streaks.


(** ** Exceptions *)

Module Exn.

Inductive exn : Type :=
  | ImportError      (* a module could not be imported *)
  | DatabaseError    (* raised by sqlite3 *)
  | ValueError       (* raised by json *)
  | RuntimeError.    (* any other exception *)

(** Result of a call that may raise. *)
Inductive res (A : Type) : Type :=
  | Ok (a : A)
  | Raise (e : exn).

Arguments Ok {A} a.
Arguments Raise {A} e.

Definition bind {A B : Type} (m : res A) (k : A -> res B) : res B :=
  match m with
  | Ok a => k a
  | Raise e => Raise e
  end.

(** [try: body / except ...: handler] *)
Definition try_except {A : Type} (body : res A) (handler : exn -> res A)
  : res A :=
  match body with
  | Ok a => Ok a
  | Raise e => handler e
  end.

End Exn.

Notation "x <- m ;; k" := (Exn.bind m (fun x => k))
  (at level 61, m at next level, right associativity).

(** ** The analyzer *)

Module Analyzer.
Import Exn PyStr.
Local Open Scope string_scope.
Local Open Scope Z_scope.

(** The float literals of the sources, as the rationals they denote. *)
Definition f_0_1 : Q := 3602879701896397 # 36028797018963968.
Definition f_0_3 : Q := 5404319552844595 # 18014398509481984.
Definition f_0_5 : Q := 1 # 2.
Definition f_0_0 : Q := 0 # 1.

(** [a > b] and [a < b] on floats. *)
Definition Qgtb (a b : Q) : bool := negb (Qle_bool a b).
Definition Qltb (a b : Q) : bool := negb (Qle_bool b a).

(** [-x] and [abs(x)] on floats. *)
Definition fneg (x : Q) : Q := Qopp x.
Definition fabs (x : Q) : Q := Qabs x.

(** The dictionary returned by [analyze_sentiment]. *)
Record analysis : Type := {
  label : string;
  score : Q;
  confidence : Q;
  emotions : list string;
  keywords : list string
}.

(** The set [stop_words] of [_extract_keywords]. *)
Definition stop_words : list string :=
  [ "the"; "a"; "an"; "and"; "or"; "but"; "in"; "on"; "at"; "to"; "for";
    "of"; "with"; "by"; "from"; "as"; "is"; "was"; "are"; "were"; "been";
    "be"; "have"; "has"; "had"; "do"; "does"; "did"; "will"; "would";
    "could"; "should"; "may"; "might"; "can"; "i"; "you"; "he"; "she";
    "it"; "we"; "they"; "my"; "your"; "his"; "her"; "its"; "our"; "their";
    "this"; "that"; "these"; "those"; "am"; "me"; "just"; "so"; "very";
    "really"; "too"; "much"; "more"; "most"; "some"; "any"; "all"; "both";
    "each"; "few"; "many"; "other"; "such"; "no"; "not"; "only"; "own";
    "same"; "than"; "then"; "there"; "when"; "where"; "why"; "how" ].

(** [w in stop_words] *)
Definition is_stop_word (w : string) : bool := existsb (String.eqb w) stop_words.

(** [words = re.findall(r'\b[a-z]{3,}\b', text.lower())] *)
Definition words_of (text : string) : list string := findall (lower text).

(** [filtered_words = [w for w in words if w not in stop_words]] *)
Definition filtered_words (text : string) : list string :=
  filter (fun w => negb (is_stop_word w)) (words_of text).

(** [_extract_keywords(text, top_n)]; the same in both analyzers. *)
Definition _extract_keywords (text : string) (top_n : Z) : list string :=
  let word_counts := Counter (filtered_words text) in
  map fst (most_common top_n word_counts).

(** [_extract_keywords(text)] with the default [top_n=5] *)
Definition extract_keywords (text : string) : list string :=
  _extract_keywords text 5.

(** [sum(1 for keyword in keywords if keyword in text_lower)] *)
Definition keyword_hits (text_lower : string) (kws : list string) : Z :=
  Z.of_nat (List.length (filter (fun kw => contains kw text_lower) kws)).

(** The count of one emotion of a keyword table: how many of its keyword
    phrases occur in the lower-cased text (0 for a tag not in the table). *)
Definition emotion_hits (table : list (string * list string))
  (text emotion : string) : Z :=
  match find (fun p => String.eqb (fst p) emotion) table with
  | Some p => keyword_hits (lower text) (snd p)
  | None => 0
  end.

(** The emotions of a table with at least one keyword phrase in the text, in
    declaration order. *)
Definition matched_emotions (table : list (string * list string))
  (text : string) : list string :=
  filter (fun e => 0 <? emotion_hits table text e) (map fst table).

(** The fallback of both emotion detectors, taken when nothing was
    detected. *)
Definition infer_from_sentiment (sentiment_label : string) : string :=
  if String.eqb sentiment_label "POSITIVE" then "joy"
  else if String.eqb sentiment_label "NEGATIVE" then "sadness"
  else "neutral".

(** The label the thresholds [t] and [-t] give a score: POSITIVE above [t],
    NEGATIVE below [-t], NEUTRAL otherwise. *)
Definition threshold_label (t : Q) (score : Q) : string :=
  if Qgtb score t then "POSITIVE"
  else if Qltb score (fneg t) then "NEGATIVE"
  else "NEUTRAL".

(** External polarity scorer: [None] when [textblob] cannot be imported,
    otherwise the function computing [TextBlob(text).sentiment.polarity],
    which may raise. *)
Definition textblob : Type := option (string -> res Q).

Definition polarity_of (tb : textblob) (text : string) : res Q :=
  match tb with
  | None => Raise ImportError
  | Some blob => blob text
  end.

End Analyzer.

(** *** [utils/sentiment_analyzer_lite.py], the analyzer [app.py] imports *)

Module Lite.
Import Exn PyStr Analyzer.
Local Open Scope string_scope.
Local Open Scope Z_scope.

(** The dictionary [emotion_keywords], in declaration order. *)
Definition emotion_keywords : list (string * list string) :=
  [ ("joy", ["happy"; "joy"; "excited"; "wonderful"; "amazing"; "great";
             "love"; "fantastic"; "delighted"; "thrilled"]);
    ("sadness", ["sad"; "depressed"; "unhappy"; "down"; "crying"; "tears";
                 "lonely"; "miss"; "disappointed"; "heartbroken"]);
    ("anger", ["angry"; "mad"; "furious"; "annoyed"; "frustrated";
               "irritated"; "hate"; "rage"; "outraged"]);
    ("fear", ["afraid"; "scared"; "anxious"; "worried"; "nervous"; "panic";
              "terrified"; "frightened"]);
    ("surprise", ["surprised"; "shocked"; "amazed"; "unexpected"; "sudden";
                  "wow"; "astonished"]);
    ("gratitude", ["grateful"; "thankful"; "appreciate"; "blessed"; "lucky";
                   "fortunate"; "thanks"]);
    ("hope", ["hope"; "optimistic"; "looking forward"; "excited about";
              "can't wait"; "hopeful"]);
    ("stress", ["stressed"; "overwhelmed"; "pressure"; "burden"; "exhausted";
                "tired"; "burned out"]) ].

(** The loop that fills [emotion_scores]: one item per emotion with a
    positive count, in declaration order. *)
Fixpoint score_emotions (text_lower : string)
  (table : list (string * list string)) : list (string * Z) :=
  match table with
  | [] => []
  | (emotion, kws) :: table' =>
      let count := keyword_hits text_lower kws in
      if 0 <? count
      then (emotion, count) :: score_emotions text_lower table'
      else score_emotions text_lower table'
  end.

Definition emotion_scores (text : string) : list (string * Z) :=
  score_emotions (lower text) emotion_keywords.

Definition _detect_emotions_from_keywords (text sentiment_label : string)
  : list string :=
  let scores := emotion_scores text in
  let detected :=
    match scores with
    | [] => []
    | _ => map fst (list_take 3 (Py.sorted_rev snd scores))
    end in
  match detected with
  | [] => [infer_from_sentiment sentiment_label]
  | _ => detected
  end.

(** The dictionary both [except] clauses return. *)
Definition default_analysis (text : string) : analysis :=
  {| label := "NEUTRAL"; score := f_0_0; confidence := f_0_0;
     emotions := ["neutral"]; keywords := extract_keywords text |}.

Definition analyze_sentiment (tb : textblob) (text : string) : res analysis :=
  try_except
    (polarity <- polarity_of tb text ;;
     let label :=
       if Qgtb polarity f_0_1 then "POSITIVE"
       else if Qltb polarity (fneg f_0_1) then "NEGATIVE"
       else "NEUTRAL" in
     let emotions := _detect_emotions_from_keywords text label in
     let keywords := extract_keywords text in
     Ok {| label := label; score := polarity; confidence := fabs polarity;
           emotions := emotions; keywords := keywords |})
    (fun e =>
       match e with
       | ImportError => Ok (default_analysis text)
       | _ => Ok (default_analysis text)
       end).

(** The dictionary the [try] block returns for a polarity the scorer
    computed, its label written with [threshold_label]. *)
Definition scored_analysis (text : string) (polarity : Q) : analysis :=
  {| label := threshold_label f_0_1 polarity; score := polarity;
     confidence := fabs polarity;
     emotions :=
       _detect_emotions_from_keywords text (threshold_label f_0_1 polarity);
     keywords := extract_keywords text |}.

End Lite.

(** *** [utils/sentiment_analyzer.py], the transformer-based analyzer *)

Module Full.
Import Exn PyStr Analyzer.
Local Open Scope string_scope.
Local Open Scope Z_scope.

Definition emotion_keywords : list (string * list string) :=
  [ ("joy", ["happy"; "joy"; "excited"; "wonderful"; "amazing"; "great";
             "love"; "fantastic"]);
    ("sadness", ["sad"; "depressed"; "unhappy"; "down"; "crying"; "tears";
                 "lonely"; "miss"]);
    ("anger", ["angry"; "mad"; "furious"; "annoyed"; "frustrated";
               "irritated"; "hate"]);
    ("fear", ["afraid"; "scared"; "anxious"; "worried"; "nervous"; "panic";
              "terrified"]);
    ("surprise", ["surprised"; "shocked"; "amazed"; "unexpected"; "sudden";
                  "wow"]);
    ("gratitude", ["grateful"; "thankful"; "appreciate"; "blessed"; "lucky";
                   "fortunate"]);
    ("hope", ["hope"; "optimistic"; "looking forward"; "excited about";
              "can't wait"]);
    ("stress", ["stressed"; "overwhelmed"; "pressure"; "burden"; "exhausted";
                "tired"]) ].

(** The loop [if any(keyword in text_lower ...): detected.append(emotion)]. *)
Fixpoint detect (text_lower : string) (table : list (string * list string))
  : list string :=
  match table with
  | [] => []
  | (emotion, kws) :: table' =>
      if existsb (fun kw => contains kw text_lower) kws
      then emotion :: detect text_lower table'
      else detect text_lower table'
  end.

Definition _detect_emotions_from_keywords (text sentiment_label : string)
  : list string :=
  let detected := detect (lower text) emotion_keywords in
  let detected :=
    match detected with
    | [] => [infer_from_sentiment sentiment_label]
    | _ => detected
    end in
  list_take 3 detected.

(** What [_fallback_sentiment_textblob] returns: label, score, confidence. *)
Definition _fallback_sentiment_textblob (tb : textblob) (text : string)
  : string * Q * Q :=
  match polarity_of tb text with
  | Ok polarity =>
      let label :=
        if Qgtb polarity f_0_1 then "POSITIVE"
        else if Qltb polarity (fneg f_0_1) then "NEGATIVE"
        else "NEUTRAL" in
      (label, polarity, f_0_5)
  | Raise _ => ("NEUTRAL", f_0_0, f_0_0)
  end.

(** A loaded sentiment pipeline: on a text it returns its list of results,
    each a label and a score, or raises.  [None] stands for the cached value
    ["failed"] that [_load_sentiment_model] leaves after a failed load. *)
Definition sentiment_pipeline : Type :=
  option (string -> res (list (string * Q))).

(** A loaded emotion pipeline ([top_k=None]): a list of rankings. *)
Definition emotion_pipeline : Type :=
  option (string -> res (list (list (string * Q)))).

(** [sorted(results[0], key=lambda x: x['score'], reverse=True)] *)
Fixpoint insert_score (x : string * Q) (l : list (string * Q))
  : list (string * Q) :=
  match l with
  | [] => [x]
  | y :: l' => if Qltb (snd x) (snd y) then y :: insert_score x l' else x :: l
  end.

Definition sorted_by_score (l : list (string * Q)) : list (string * Q) :=
  fold_right insert_score [] l.

(** [_detect_emotions_with_model(text)] *)
Definition _detect_emotions_with_model (ep : emotion_pipeline)
  (text : string) : list string :=
  match ep with
  | None => []
  | Some run =>
      match run (take 512 text) with
      | Ok (first :: _) => map fst (list_take 3 (sorted_by_score first))
      | Ok [] => []
      | Raise _ => []
      end
  end.

(** The transformer branch of [analyze_sentiment]: label, score and
    confidence, or the exception the [try] block raised. *)
Definition transformer_sentiment (run : string -> res (list (string * Q)))
  (text : string) : res (string * Q * Q) :=
  results <- run (take 512 text) ;;
  match results with
  | [] => Raise RuntimeError            (* [results[0]]: IndexError *)
  | (result_label, result_score) :: _ =>
      let score :=
        if String.eqb result_label "POSITIVE" then result_score
        else fneg result_score in
      let label :=
        if Qgtb score f_0_3 then "POSITIVE"
        else if Qltb score (fneg f_0_3) then "NEGATIVE"
        else "NEUTRAL" in
      Ok (label, score, result_score)
  end.

(** [analyze_sentiment(text)]; the three external models are arguments. *)
Definition analyze_sentiment (sp : sentiment_pipeline) (ep : emotion_pipeline)
  (tb : textblob) (text : string) : analysis :=
  let sentiment_data :=
    match sp with
    | Some run =>
        match transformer_sentiment run text with
        | Ok data => data
        | Raise _ => _fallback_sentiment_textblob tb text
        end
    | None => _fallback_sentiment_textblob tb text
    end in
  let '(data_label, data_score, data_confidence) := sentiment_data in
  let emotions := _detect_emotions_with_model ep text in
  let emotions :=
    match emotions with
    | [] => _detect_emotions_from_keywords text data_label
    | _ => emotions
    end in
  let keywords := extract_keywords text in
  {| label := data_label; score := data_score; confidence := data_confidence;
     emotions := emotions; keywords := keywords |}.

End Full.

(** ** [json.dumps] and [json.loads] on lists of strings *)

Module Json.
Import Exn PyStr.
Local Open Scope Z_scope.

Definition dquote : ascii := Eval cbv in chr 34.
Definition backslash : ascii := Eval cbv in chr 92.

Definition str1 (c : ascii) : string := String c EmptyString.
Definition str2 (c d : ascii) : string := String c (str1 d).

(** One lower-case hexadecimal digit. *)
Definition hexdigit (n : Z) : ascii :=
  if n <? 10 then chr (48 + n) else chr (87 + n).

(** The escape of one character with [ensure_ascii=True]: the short escapes,
    the printable characters 0x20-0x7E as they are, and a four-digit
    [\u] escape for the rest. *)
Definition escape_char (c : ascii) : string :=
  let n := ord c in
  if n =? 34 then str2 backslash dquote
  else if n =? 92 then str2 backslash backslash
  else if n =? 10 then str2 backslash "n"
  else if n =? 13 then str2 backslash "r"
  else if n =? 9 then str2 backslash "t"
  else if n =? 8 then str2 backslash "b"
  else if n =? 12 then str2 backslash "f"
  else if in_range 32 126 n then str1 c
  else String backslash
         (String "u" (String "0" (String "0"
            (str2 (hexdigit (n / 16)) (hexdigit (n mod 16)))))).

Fixpoint escape (s : string) : string :=
  match s with
  | EmptyString => EmptyString
  | String c s' => String.append (escape_char c) (escape s')
  end.

(** A string between double quotes. *)
Definition encode_str (s : string) : string :=
  String dquote (String.append (escape s) (str1 dquote)).

(** The items of an array, separated by a comma and a space. *)
Fixpoint encode_items (l : list string) : string :=
  match l with
  | [] => EmptyString
  | [w] => encode_str w
  | w :: l' => String.append (encode_str w) (String "," (String " " (encode_items l')))
  end.

(** [json.dumps(l)] for a list of strings. *)
Definition dumps (l : list string) : string :=
  String "[" (String.append (encode_items l) (str1 "]")).

(** The decoder, on the arrays of strings: a scanner with one state per
    place of the grammar. *)
Inductive state : Type :=
  | Start                 (* before the opening bracket *)
  | Open                  (* behind the opening bracket *)
  | InStr (cur : string)  (* inside a string, [cur] decoded so far *)
  | After                 (* behind a string *)
  | Comma                 (* behind a comma *)
  | End_.                 (* behind the closing bracket *)

Definition is_ws (c : ascii) : bool :=
  let n := ord c in (n =? 32) || (n =? 9) || (n =? 10) || (n =? 13).

Definition hexval (c : ascii) : option Z :=
  let n := ord c in
  if in_range 48 57 n then Some (n - 48)
  else if in_range 97 102 n then Some (n - 87)
  else if in_range 65 70 n then Some (n - 55)
  else None.

Definition hex4 (a b c d : ascii) : option Z :=
  match hexval a, hexval b, hexval c, hexval d with
  | Some x, Some y, Some z, Some w => Some (((x * 16 + y) * 16 + z) * 16 + w)
  | _, _, _, _ => None
  end.

(** The character a short escape stands for. *)
Definition unescape (e : ascii) : option ascii :=
  let n := ord e in
  if (n =? 34) || (n =? 92) || (n =? 47) then Some e
  else if n =? 98 then Some (chr 8)
  else if n =? 102 then Some (chr 12)
  else if n =? 110 then Some (chr 10)
  else if n =? 114 then Some (chr 13)
  else if n =? 116 then Some (chr 9)
  else None.

Definition snoc (s : string) (c : ascii) : string := String.append s (str1 c).

Fixpoint loads_from (st : state) (acc : list string) (s : string)
  : option (list string) :=
  match s with
  | EmptyString => match st with End_ => Some acc | _ => None end
  | String c s' =>
      match st with
      | Start =>
          if is_ws c then loads_from Start acc s'
          else if ord c =? 91 then loads_from Open acc s'
          else None
      | Open =>
          if is_ws c then loads_from Open acc s'
          else if ord c =? 93 then loads_from End_ acc s'
          else if ord c =? 34 then loads_from (InStr EmptyString) acc s'
          else None
      | InStr cur =>
          if ord c =? 34 then loads_from After (acc ++ [cur]) s'
          else if ord c =? 92 then
            match s' with
            | EmptyString => None
            | String e s'' =>
                if ord e =? 117 then
                  match s'' with
                  | String h1 (String h2 (String h3 (String h4 s3))) =>
                      match hex4 h1 h2 h3 h4 with
                      | Some n =>
                          if n <? 256
                          then loads_from (InStr (snoc cur (chr n))) acc s3
                          else None
                      | None => None
                      end
                  | _ => None
                  end
                else
                  match unescape e with
                  | Some d => loads_from (InStr (snoc cur d)) acc s''
                  | None => None
                  end
            end
          else if ord c <? 32 then None
          else loads_from (InStr (snoc cur c)) acc s'
      | After =>
          if is_ws c then loads_from After acc s'
          else if ord c =? 44 then loads_from Comma acc s'
          else if ord c =? 93 then loads_from End_ acc s'
          else None
      | Comma =>
          if is_ws c then loads_from Comma acc s'
          else if ord c =? 34 then loads_from (InStr EmptyString) acc s'
          else None
      | End_ => if is_ws c then loads_from End_ acc s' else None
      end
  end.

(** [json.loads(s)] where an array of strings is expected. *)
Definition loads (s : string) : res (list string) :=
  match loads_from Start [] s with
  | Some l => Ok l
  | None => Raise ValueError
  end.

End Json.

(** ** The entry store: [utils/data_manager.py] *)

Module Store.
Import Exn PyStr.
Local Open Scope Z_scope.

(** A row of [journal_entries].  [L] is the type of the two list-valued
    columns: JSON text or NULL as stored, a list once parsed. *)
Record record (L : Type) : Type := {
  id : Z;
  timestamp : Z;
  entry_text : string;
  user_selected_mood : option string;
  ai_sentiment_label : option string;
  ai_sentiment_score : option Q;
  ai_confidence : option Q;
  word_count : Z;
  detected_emotions : L;
  keywords : L
}.

Arguments id {L} r.
Arguments timestamp {L} r.
Arguments entry_text {L} r.
Arguments user_selected_mood {L} r.
Arguments ai_sentiment_label {L} r.
Arguments ai_sentiment_score {L} r.
Arguments ai_confidence {L} r.
Arguments word_count {L} r.
Arguments detected_emotions {L} r.
Arguments keywords {L} r.

Definition row : Type := record (option string).
Definition entry : Type := record (list string).

(** The database file: the table in insertion order and the counter that
    AUTOINCREMENT keeps in [sqlite_sequence]. *)
Record db : Type := {
  journal_entries : list row;
  sqlite_sequence : Z
}.

Definition empty_db : db := {| journal_entries := []; sqlite_sequence := 0 |}.

Definition max_rowid (rows : list row) : Z :=
  fold_right (fun r m => Z.max (id r) m) 0 rows.

(** The id AUTOINCREMENT gives the next row: one more than every id that is
    or ever was in the table. *)
Definition next_rowid (s : db) : Z :=
  Z.max (sqlite_sequence s) (max_rowid (journal_entries s)) + 1.

(** [json.dumps(l) if l else None] *)
Definition to_json (l : option (list string)) : option string :=
  match l with
  | Some (w :: l') => Some (Json.dumps (w :: l'))
  | _ => None
  end.

(** [json.loads(x) if x else []] *)
Definition from_json (x : option string) : res (list string) :=
  match x with
  | None => Ok []
  | Some EmptyString => Ok []
  | Some text => Json.loads text
  end.

(** Every [sqlite3] call of one method either works or raises; [db_ok] says
    which. *)
Definition connect (db_ok : bool) : res unit :=
  if db_ok then Ok tt else Raise DatabaseError.

(** [save_entry]; [now] is the CURRENT_TIMESTAMP of the insertion. *)
Definition save_entry (db_ok : bool) (now : Z) (s : db)
  (entry_text : string)
  (user_selected_mood ai_sentiment_label : option string)
  (ai_sentiment_score ai_confidence : option Q)
  (detected_emotions keywords : option (list string)) : res (Z * db) :=
  _ <- connect db_ok ;;
  let word_count := split_len entry_text in
  let emotions_json := to_json detected_emotions in
  let keywords_json := to_json keywords in
  let entry_id := next_rowid s in
  let new_row : row :=
    {| id := entry_id; timestamp := now; entry_text := entry_text;
       user_selected_mood := user_selected_mood;
       ai_sentiment_label := ai_sentiment_label;
       ai_sentiment_score := ai_sentiment_score;
       ai_confidence := ai_confidence; word_count := word_count;
       detected_emotions := emotions_json; keywords := keywords_json |} in
  Ok (entry_id,
      {| journal_entries := journal_entries s ++ [new_row];
         sqlite_sequence := entry_id |}).

(** The parsing of the two JSON columns of one row. *)
Definition parse_row (r : row) : res entry :=
  emotions <- from_json (detected_emotions r) ;;
  kws <- from_json (keywords r) ;;
  Ok {| id := id r; timestamp := timestamp r; entry_text := entry_text r;
        user_selected_mood := user_selected_mood r;
        ai_sentiment_label := ai_sentiment_label r;
        ai_sentiment_score := ai_sentiment_score r;
        ai_confidence := ai_confidence r; word_count := word_count r;
        detected_emotions := emotions; keywords := kws |}.

(** [get_entry_by_id]: [None] when no row has the id. *)
Definition get_entry_by_id (db_ok : bool) (s : db) (entry_id : Z)
  : res (option entry) :=
  _ <- connect db_ok ;;
  match find (fun r => id r =? entry_id) (journal_entries s) with
  | None => Ok None
  | Some r => e <- parse_row r ;; Ok (Some e)
  end.

Fixpoint parse_rows (rows : list row) : res (list entry) :=
  match rows with
  | [] => Ok []
  | r :: rows' =>
      e <- parse_row r ;; es <- parse_rows rows' ;; Ok (e :: es)
  end.

(** The rows as [ORDER BY timestamp DESC] returns them.  SQLite answers the
    clause with a backward scan of the index [idx_timestamp], so the rows
    come newest first and rows of equal timestamp in descending order of
    id. *)
Definition by_timestamp_desc (rows : list row) : list row :=
  Py.sorted_rev timestamp (Py.sorted_rev id rows).

(** [get_all_entries] *)
Definition get_all_entries (db_ok : bool) (s : db) : res (list entry) :=
  _ <- connect db_ok ;;
  parse_rows (by_timestamp_desc (journal_entries s)).

(** [delete_entry]: the statement [DELETE ... WHERE id = ?] inside [try], and
    [return False] in the [except] clause. *)
Definition delete_entry (db_ok : bool) (s : db) (entry_id : Z)
  : res (bool * db) :=
  try_except
    (_ <- connect db_ok ;;
     Ok (true,
         {| journal_entries :=
              filter (fun r => negb (id r =? entry_id)) (journal_entries s);
            sqlite_sequence := sqlite_sequence s |}))
    (fun _ => Ok (false, s)).

(** The streak keys of the dictionary [get_stats] returns, with the number
    of entries. *)
Record stats : Type := {
  total_entries : Z;
  current_streak : Z;
  longest_streak : Z
}.

Definition get_stats (db_ok : bool) (now : Z) (s : db) : res stats :=
  df <- get_all_entries db_ok s ;;
  match df with
  | [] => Ok {| total_entries := 0; current_streak := 0; longest_streak := 0 |}
  | _ =>
      let '(current, longest) :=
        Streaks._calculate_streaks now (map timestamp df) in
      Ok {| total_entries := Z.of_nat (List.length df);
            current_streak := current; longest_streak := longest |}
  end.

(** An optional list argument read as a list: [None] is the empty list. *)
Definition or_empty (l : option (list string)) : list string :=
  match l with
  | Some l => l
  | None => []
  end.

(** [id] identifies a stored entry. *)
Definition stored (s : db) (entry_id : Z) : Prop :=
  exists r, In r (journal_entries s) /\ id r = entry_id.

End Store.

(** ** The submission handler of [render_new_entry_page] in [app.py] *)

Module App.
Import Exn PyStr Analyzer Store.
Local Open Scope Z_scope.

(** What the handler shows after the button was pressed. *)
Inductive submission : Type :=
  | NothingWritten                     (* "Please write something ..." *)
  | TooShort (n : Z)                   (* "Entry too short. ..." *)
  | TooLong (n : Z)                    (* "Entry too long. ..." *)
  | Saved (entry_id : Z) (a : analysis)
  | NotSaved (e : exn).                (* "Error saving entry ..." *)

(** A submission the validation turned down. *)
Definition rejected (r : submission) : bool :=
  match r with
  | NothingWritten | TooShort _ | TooLong _ => true
  | _ => false
  end.

Definition submit (tb : textblob) (db_ok : bool) (now : Z)
  (selected_mood : option string) (s : db) (entry_text : string)
  : submission * db :=
  if String.eqb entry_text EmptyString || (len (strip entry_text) =? 0)
  then (NothingWritten, s)
  else if len entry_text <? 20 then (TooShort (len entry_text), s)
  else if len entry_text >? 5000 then (TooLong (len entry_text), s)
  else
    match
      analysis_result <- Lite.analyze_sentiment tb entry_text ;;
      saved <- save_entry db_ok now s entry_text selected_mood
                 (Some (label analysis_result))
                 (Some (score analysis_result))
                 (Some (confidence analysis_result))
                 (Some (emotions analysis_result))
                 (Some (Analyzer.keywords analysis_result)) ;;
      Ok (saved, analysis_result)
    with
    | Ok ((entry_id, s'), analysis_result) => (Saved entry_id analysis_result, s')
    | Raise e => (NotSaved e, s)
    end.

End App.

(** ** Blank texts *)

Module Blank.
Import PyStr.

(** Every character is white space. *)
Fixpoint all_space (s : string) : bool :=
  match s with
  | EmptyString => true
  | String c s' => isspace c && all_space s'
  end.

End Blank.

(** ** More of the entry store *)

Module StoreQueries.
Import Exn PyStr Store.
Local Open Scope Z_scope.



(** [LOWER(x)] of SQLite: the letters A-Z only. *)
Definition sql_lower_char (c : ascii) : ascii :=
  if in_range 65 90 (ord c) then chr (ord c + 32) else c.

Fixpoint sql_lower (s : string) : string :=
  match s with
  | EmptyString => EmptyString
  | String c s' => String (sql_lower_char c) (sql_lower s')
  end.

(** The text a C function of SQLite reads from a value: the characters
    before the first NUL character. *)
Fixpoint c_str (s : string) : string :=
  match s with
  | EmptyString => EmptyString
  | String c s' => if ord c =? 0 then EmptyString else String c (c_str s')
  end.

(** The pattern matching of LIKE on two such texts: the percent sign stands
    for any run of characters, the underscore for one character, any other
    character for itself, letters A-Z without regard to case. *)
Fixpoint like (pattern text : string) : bool :=
  match pattern with
  | EmptyString =>
      match text with EmptyString => true | _ => false end
  | String p pattern' =>
      if ord p =? 37 then
        (fix any_run (t : string) : bool :=
           like pattern' t ||
           match t with
           | EmptyString => false
           | String _ t' => any_run t'
           end) text
      else
        match text with
        | EmptyString => false
        | String c text' =>
            ((ord p =? 95) || Ascii.eqb (sql_lower_char p) (sql_lower_char c))
            && like pattern' text'
        end
  end.

(** Number of bytes of the UTF-8 encoding. *)
Fixpoint utf8_len (s : string) : Z :=
  match s with
  | EmptyString => 0
  | String c s' => (if ord c <? 128 then 1 else 2) + utf8_len s'
  end.

(** SQLITE_MAX_LIKE_PATTERN_LENGTH: a longer pattern makes LIKE fail with
    "LIKE or GLOB pattern too complex". *)
Definition like_pattern_limit : Z := 50000.

(** The parameter [f'%{keyword}%'] of [search_entries]. *)
Definition search_pattern (keyword : string) : string :=
  String "%" (String.append keyword (String "%" EmptyString)).

(** The WHERE clause [LOWER(entry_text) LIKE LOWER(?)] on one row.  LOWER
    keeps the whole value; LIKE reads both operands up to their first NUL
    character. *)
Definition search_hit (keyword : string) (r : row) : bool :=
  like (c_str (sql_lower (search_pattern keyword)))
       (c_str (sql_lower (entry_text r))).

(** [search_entries(keyword)].  LIKE checks the length of its pattern each
    time it is evaluated, that is, as soon as the table has a row. *)
Definition search_entries (db_ok : bool) (s : db) (keyword : string)
  : res (list entry) :=
  _ <- connect db_ok ;;
  match by_timestamp_desc (journal_entries s) with
  | [] => parse_rows []
  | rows =>
      if like_pattern_limit <? utf8_len (sql_lower (search_pattern keyword))
      then Raise DatabaseError
      else parse_rows (filter (search_hit keyword) rows)
  end.

(** A keyword without the two wildcard characters of LIKE and without the
    NUL character. *)
Fixpoint plain (keyword : string) : bool :=
  match keyword with
  | EmptyString => true
  | String c k =>
      negb (ord c =? 37) && negb (ord c =? 95) && negb (ord c =? 0) && plain k
  end.

(** One call of a method that writes. *)
Inductive op : Type :=
  | OpSave (db_ok : bool) (now : Z) (entry_text : string)
           (user_selected_mood ai_sentiment_label : option string)
           (ai_sentiment_score ai_confidence : option Q)
           (detected_emotions keywords : option (list string))
  | OpDelete (db_ok : bool) (entry_id : Z).

(** The store after the call, with the id a successful [save_entry]
    returned. *)
Definition step (s : db) (o : op) : db * option Z :=
  match o with
  | OpSave db_ok now text mood lbl sc conf emos kws =>
      match save_entry db_ok now s text mood lbl sc conf emos kws with
      | Ok (entry_id, s') => (s', Some entry_id)
      | Raise _ => (s, None)
      end
  | OpDelete db_ok entry_id =>
      match delete_entry db_ok s entry_id with
      | Ok (_, s') => (s', None)
      | Raise _ => (s, None)
      end
  end.

(** A sequence of calls: the final store and the ids returned, in order. *)
Fixpoint run (s : db) (ops : list op) : db * list Z :=
  match ops with
  | [] => (s, [])
  | o :: ops' =>
      let '(s1, r) := step s o in
      let '(s2, ids) := run s1 ops' in
      (s2, match r with Some i => i :: ids | None => ids end)
  end.

End StoreQueries.

(** ** [get_mood_emoji] and [get_mood_color] (the same in both analyzers) *)

Module Mood.
Import PyStr Analyzer.
Local Open Scope string_scope.
Local Open Scope Z_scope.

Definition f_minus_0_3 : Q := fneg f_0_3.
Definition f_minus_0_5 : Q := fneg f_0_5.

(** The five one-character strings returned, by code point. *)
Definition grinning_face : Z := 128516.
Definition smiling_face : Z := 128522.
Definition neutral_face : Z := 128528.
Definition crying_face : Z := 128546.
Definition sobbing_face : Z := 128557.

Definition get_mood_emoji (sentiment_score : Q) : Z :=
  if Qgtb sentiment_score f_0_5 then grinning_face
  else if Qgtb sentiment_score f_0_3 then smiling_face
  else if Qgtb sentiment_score f_minus_0_3 then neutral_face
  else if Qgtb sentiment_score f_minus_0_5 then crying_face
  else sobbing_face.

Definition get_mood_color (sentiment_score : Q) : string :=
  if Qgtb sentiment_score f_0_3 then "#4CAF50"
  else if Qltb sentiment_score f_minus_0_3 then "#F44336"
  else "#FFC107".

End Mood.

(** ** The dashboard figures of [utils/visualizations.py] *)

Module Dashboard.
Import Exn PyStr Streaks.
Local Open Scope string_scope.
Local Open Scope Z_scope.

(** [calculate_current_streak(df)]; [df] is the timestamp column. *)
Definition calculate_current_streak (now : timestamp) (df : list timestamp)
  : Z :=
  match df with
  | [] => 0
  | _ =>
      let dates := dates_of df in
      match dates with
      | [] => 0
      | d0 :: _ =>
          let today := date_of now in
          let yesterday := today - 1 in
          if negb (d0 =? today) && negb (d0 =? yesterday) then 0
          else current_loop dates 1
      end
  end.

(** The list [all_emotions] of [get_summary_stats]; [df] is the column
    [detected_emotions]. *)
Definition all_emotions (df : list (list string)) : list string := concat df.

(** [Counter(all_emotions).most_common(1)[0][0] if all_emotions else 'None'] *)
Definition top_emotion (df : list (list string)) : res string :=
  match all_emotions df with
  | [] => Ok "None"
  | _ =>
      match most_common 1 (Counter (all_emotions df)) with
      | (emotion, _) :: _ => Ok emotion
      | [] => Raise RuntimeError          (* [...[0]]: IndexError *)
      end
  end.

End Dashboard.

(** ** Pagination of [render_all_entries_page] in [app.py] *)

Module Pages.
Local Open Scope Z_scope.

Definition entries_per_page : Z := 20.

(** [total_pages = (len(filtered_df) - 1) // entries_per_page + 1] *)
Definition total_pages (n : Z) : Z := (n - 1) / entries_per_page + 1.

(** [df.iloc[start:stop]] for [0 <= start]. *)
Definition iloc {A : Type} (start stop : Z) (l : list A) : list A :=
  firstn (Z.to_nat (stop - start)) (skipn (Z.to_nat start) l).

(** [page_df], the rows of page [page]. *)
Definition page_df {A : Type} (page : Z) (filtered_df : list A) : list A :=
  let start_idx := (page - 1) * entries_per_page in
  let end_idx := start_idx + entries_per_page in
  iloc start_idx end_idx filtered_df.

(** The pages the number input offers: 1 to [total_pages]. *)
Definition pages (n : Z) : list Z :=
  map Z.of_nat (seq 1 (Z.to_nat (total_pages n))).

End Pages.

(** ** The model cache of [utils/sentiment_analyzer.py] *)

Module ModelCache.
Import Exn.

(** The global [_sentiment_pipeline]: [None], the string ["failed"], or a
    loaded pipeline. *)
Inductive cache (P : Type) : Type :=
  | NotLoaded
  | Failed
  | Loaded (p : P).

Arguments NotLoaded {P}.
Arguments Failed {P}.
Arguments Loaded {P} p.

(** The process state: the global, the number of times the statement
    [from transformers import pipeline] was run and the number of times the
    constructor [pipeline(...)] was called. *)
Record state (P : Type) : Type := {
  global : cache P;
  imports : nat;
  constructions : nat
}.

Arguments global {P} s.
Arguments imports {P} s.
Arguments constructions {P} s.

Definition initial {P : Type} : state P :=
  {| global := NotLoaded; imports := 0; constructions := 0 |}.

(** [_load_sentiment_model()]; [import_] is what the import statement does
    when it is run and [construct] what the call [pipeline(...)] does when it
    is made.  Both stand in the same [try]: after a failed import the
    constructor is not called.  Returns the value of the global and the new
    state. *)
Definition _load_sentiment_model {P : Type} (import_ : res unit)
  (construct : res P) (s : state P) : cache P * state P :=
  match global s with
  | NotLoaded =>
      match import_ with
      | Raise _ =>
          (Failed, {| global := Failed; imports := S (imports s);
                      constructions := constructions s |})
      | Ok _ =>
          let g :=
            match construct with
            | Ok p => Loaded p
            | Raise _ => Failed
            end in
          (g, {| global := g; imports := S (imports s);
                 constructions := S (constructions s) |})
      end
  | g => (g, s)
  end.

(** What the global holds after the first call. *)
Definition cached {P : Type} (import_ : res unit) (construct : res P)
  : cache P :=
  match import_, construct with
  | Ok _, Ok p => Loaded p
  | _, _ => Failed
  end.

(** [n] calls in a row: the values returned and the final state. *)
Fixpoint load_times {P : Type} (import_ : res unit) (construct : res P)
  (n : nat) (s : state P) : list (cache P) * state P :=
  match n with
  | O => ([], s)
  | S n' =>
      let '(g, s1) := _load_sentiment_model import_ construct s in
      let '(gs, s2) := load_times import_ construct n' s1 in
      (g :: gs, s2)
  end.

End ModelCache.

(** ** A small store, for examples *)

Module Samples.
Import Exn Store StoreQueries.
Local Open Scope string_scope.
Local Open Scope Z_scope.

Definition note (i ts : Z) (text : string) (emos : list string) : row :=
  {| id := i; timestamp := ts; entry_text := text;
     user_selected_mood := None; ai_sentiment_label := Some "NEUTRAL";
     ai_sentiment_score := Some (0 # 1); ai_confidence := Some (0 # 1);
     word_count := PyStr.split_len text;
     detected_emotions := to_json (Some emos); keywords := None |}.

(** Three entries, written on day 98, day 100 and day 99. *)
Definition sample_db : db :=
  {| journal_entries :=
       [ note 1 8467200 "Walked home in the RAIN, tired" ["stress"];
         note 2 8640000 "A quiet day in the garden" ["neutral"];
         note 4 8553600 "Rain again; happy at home" ["joy"] ];
     sqlite_sequence := 4 |}.

Definition sample_entries : list entry :=
  Eval cbv in
    match get_all_entries true sample_db with
    | Ok es => es
    | Raise _ => []
    end.

Definition sample_hits : list entry :=
  Eval cbv in
    match search_entries true sample_db "rain" with
    | Ok es => es
    | Raise _ => []
    end.

(** A store whose first text has a NUL character before the word rain. *)
Definition nul_db : db :=
  {| journal_entries :=
       [ note 1 8467200 (String.append "abc" (String Ascii.zero "rain later"))
           ["neutral"];
         note 2 8553600 "ends with a" ["neutral"] ];
     sqlite_sequence := 2 |}.

Definition nul_hits : list entry :=
  Eval cbv in
    match search_entries true nul_db "rain" with
    | Ok es => es
    | Raise _ => []
    end.

End Samples.
(** * Properties *)

(** ** Facts about the Python built-ins *)

Module PyFacts.
Import Py.

Section SortedRev.
Context {A : Type} (key : A -> Z).

Lemma insert_rev_perm (x : A) (l : list A) :
  Permutation (insert_rev key x l) (x :: l).
Proof.
  induction l as [|y l IH]; simpl; [reflexivity|].
  destruct (key x <? key y); [|reflexivity].
  rewrite IH. apply perm_swap.
Qed.

Lemma sorted_rev_perm (l : list A) : Permutation (sorted_rev key l) l.
Proof.
  induction l as [|x l IH]; simpl; [constructor|].
  rewrite insert_rev_perm. now constructor.
Qed.

Lemma sorted_rev_In (l : list A) (x : A) : In x (sorted_rev key l) <-> In x l.
Proof.
  split; apply Permutation_in; [|symmetry]; apply sorted_rev_perm.
Qed.

Lemma sorted_rev_length (l : list A) : length (sorted_rev key l) = length l.
Proof. apply Permutation_length, sorted_rev_perm. Qed.

Lemma occurs_before_cons (l : list A) (x a b : A) :
  occurs_before l a b -> occurs_before (x :: l) a b.
Proof.
  intros (l1 & l2 & l3 & ->). now exists (x :: l1), l2, l3.
Qed.

Lemma occurs_before_head (l : list A) (x b : A) :
  In b l -> occurs_before (x :: l) x b.
Proof.
  intros Hb. apply in_split in Hb as (l2 & l3 & ->). now exists [], l2, l3.
Qed.

Lemma insert_rev_sorted (l0 s : list A) (x : A) :
  (forall z, In z s -> In z l0) ->
  StronglySorted (ranks_before key (x :: l0)) s ->
  StronglySorted (ranks_before key (x :: l0)) (insert_rev key x s).
Proof.
  intros Hsub Hs. induction Hs as [|y s Hs IH Hy]; simpl.
  - repeat constructor.
  - destruct (key x <? key y) eqn:E.
    + apply Z.ltb_lt in E. constructor.
      * apply IH. intros z Hz. apply Hsub. now right.
      * apply Forall_forall. intros z Hz.
        apply (Permutation_in _ (insert_rev_perm x s)) in Hz.
        destruct Hz as [<-|Hz]; [left; lia|].
        rewrite Forall_forall in Hy. now apply Hy.
    + apply Z.ltb_ge in E. constructor; [now constructor|].
      assert (Hx : forall z, In z (y :: s) -> key z <= key x).
      { intros z [<-|Hz]; [exact E|]. rewrite Forall_forall in Hy.
        destruct (Hy z Hz) as [H|[H _]]; lia. }
      apply Forall_forall. intros z Hz.
      destruct (Z_lt_le_dec (key z) (key x)) as [Hlt|Hge]; [left; lia|].
      right. split; [specialize (Hx z Hz); lia|].
      apply occurs_before_head. now apply Hsub.
Qed.

Lemma sorted_rev_sorted (l : list A) :
  StronglySorted (ranks_before key l) (sorted_rev key l).
Proof.
  induction l as [|x l IH]; simpl; [constructor|].
  apply insert_rev_sorted.
  - intros z. apply sorted_rev_In.
  - eapply StronglySorted_ind with (P := StronglySorted (ranks_before key (x :: l)))
      in IH; [exact IH|constructor|].
    intros a s _ Hs Ha. constructor; [exact Hs|].
    eapply Forall_impl; [|exact Ha].
    intros b [H|[H1 H2]]; [now left|right; split; [exact H1|]].
    now apply occurs_before_cons.
Qed.

End SortedRev.

Lemma unique_from_In (seen l : list Z) (x : Z) :
  In x (unique_from seen l) <-> In x l /\ ~ In x seen.
Proof.
  revert seen. induction l as [|y l IH]; intros seen; simpl; [tauto|].
  destruct (existsb (Z.eqb y) seen) eqn:E.
  - apply existsb_exists in E as (z & Hz & Hyz). apply Z.eqb_eq in Hyz. subst z.
    rewrite IH. split; [tauto|]. intros [[->|H] Hn]; tauto.
  - assert (Hy : ~ In y seen).
    { intros Hy. apply not_true_iff_false in E. apply E, existsb_exists.
      exists y. split; [exact Hy|apply Z.eqb_refl]. }
    simpl. rewrite IH. simpl. split.
    + intros [->|[H Hn]]; [tauto|]. split; [tauto|]. intros Hx. apply Hn. now right.
    + intros [[->|H] Hn]; [now left|].
      destruct (Z.eq_dec y x) as [->|Hne]; [now left|right].
      split; [exact H|]. intros [Heq|Hx]; [now apply Hne|now apply Hn].
Qed.

Lemma unique_from_NoDup (seen l : list Z) : NoDup (unique_from seen l).
Proof.
  revert seen. induction l as [|y l IH]; intros seen; simpl; [constructor|].
  destruct (existsb (Z.eqb y) seen); [apply IH|].
  constructor; [|apply IH].
  rewrite unique_from_In. intros [_ H]. apply H. now left.
Qed.

Lemma unique_In (l : list Z) (x : Z) : In x (unique l) <-> In x l.
Proof. unfold unique. rewrite unique_from_In. simpl. tauto. Qed.

Lemma unique_NoDup (l : list Z) : NoDup (unique l).
Proof. apply unique_from_NoDup. Qed.

End PyFacts.


(** ** The first [n] items of a stable descending sort *)

Module TopFacts.
Import Py PyFacts PyStr.

Lemma sorted_weaken {A : Type} (R R' : A -> A -> Prop) (l : list A) :
  (forall a b, In a l -> In b l -> R a b -> R' a b) ->
  StronglySorted R l -> StronglySorted R' l.
Proof.
  intros H Hs. induction Hs as [|a l Hs IH Ha]; constructor.
  - apply IH. intros x y Hx Hy. apply H; now right.
  - rewrite Forall_forall in *. intros b Hb.
    apply H; [now left|now right|now apply Ha].
Qed.

Lemma sorted_map {A B : Type} (f : A -> B) (R : B -> B -> Prop) (l : list A) :
  StronglySorted (fun a b => R (f a) (f b)) l -> StronglySorted R (map f l).
Proof.
  intros Hs. induction Hs as [|a l Hs IH Ha]; simpl; constructor; [exact IH|].
  rewrite Forall_forall in *. intros b Hb.
  apply in_map_iff in Hb as (x & <- & Hx). now apply Ha.
Qed.

Lemma sorted_map_inv {A B : Type} (f : A -> B) (R : B -> B -> Prop)
  (l : list A) :
  StronglySorted R (map f l) -> StronglySorted (fun a b => R (f a) (f b)) l.
Proof.
  induction l as [|a l IH]; simpl; intros Hs; [constructor|].
  apply StronglySorted_inv in Hs as [Hs Ha]. constructor; [now apply IH|].
  rewrite Forall_forall in *. intros b Hb. apply Ha. now apply in_map.
Qed.

Lemma sorted_occurs_before {A : Type} (R : A -> A -> Prop) (l : list A)
  (a b : A) :
  StronglySorted R l -> occurs_before l a b -> R a b.
Proof.
  intros Hs (l1 & l2 & l3 & ->). induction l1 as [|x l1 IH]; simpl in Hs.
  - apply StronglySorted_inv in Hs as [_ Ha]. rewrite Forall_forall in Ha.
    apply Ha. apply in_or_app. right. now left.
  - apply IH. now apply StronglySorted_inv in Hs.
Qed.

Lemma sorted_app {A : Type} (R : A -> A -> Prop) (l1 l2 : list A) :
  StronglySorted R (l1 ++ l2) ->
  StronglySorted R l1 /\ StronglySorted R l2 /\
  forall a b, In a l1 -> In b l2 -> R a b.
Proof.
  induction l1 as [|x l1 IH]; simpl; intros Hs.
  - split; [constructor|]. split; [exact Hs|]. intros a b [].
  - apply StronglySorted_inv in Hs as [Hs Hx].
    destruct (IH Hs) as (H1 & H2 & H3). rewrite Forall_forall in Hx.
    split; [|split; [exact H2|]].
    + constructor; [exact H1|]. apply Forall_forall. intros b Hb.
      apply Hx. apply in_or_app. now left.
    + intros a b [<-|Ha] Hb; [|now apply H3].
      apply Hx. apply in_or_app. now right.
Qed.

Lemma sorted_snoc {A : Type} (R : A -> A -> Prop) (l : list A) (x : A) :
  StronglySorted R l -> (forall a, In a l -> R a x) ->
  StronglySorted R (l ++ [x]).
Proof.
  intros Hs Hx. induction Hs as [|a l Hs IH Ha]; simpl.
  - repeat constructor.
  - constructor.
    + apply IH. intros b Hb. apply Hx. now right.
    + apply Forall_forall. intros b Hb. apply in_app_or in Hb as [Hb|[<-|[]]].
      * rewrite Forall_forall in Ha. now apply Ha.
      * apply Hx. now left.
Qed.

Lemma sorted_NoDup {A : Type} (R : A -> A -> Prop) (l : list A) :
  (forall a, ~ R a a) -> StronglySorted R l -> NoDup l.
Proof.
  intros Hirr Hs. induction Hs as [|a l Hs IH Ha]; constructor; [|exact IH].
  intros Hin. rewrite Forall_forall in Ha. exact (Hirr a (Ha a Hin)).
Qed.

Lemma In_firstn {A : Type} (n : nat) (l : list A) (x : A) :
  In x (firstn n l) -> In x l.
Proof.
  intros H. rewrite <- (firstn_skipn n l). apply in_or_app. now left.
Qed.

Lemma outranks_irrefl {A : Type} (cnt : A -> Z) (pos : A -> nat) (a : A) :
  ~ outranks cnt pos a a.
Proof. intros [H|[_ H]]; lia. Qed.

Section TopN.
Context {A : Type} (items : list (A * Z)) (cnt : A -> Z) (pos : A -> nat).
Hypothesis items_cnt : forall a, In a items -> snd a = cnt (fst a).
Hypothesis items_pos :
  StronglySorted (fun a b => (pos (fst a) < pos (fst b))%nat) items.

Lemma ranked_sorted :
  StronglySorted (fun a b => outranks cnt pos (fst a) (fst b))
                 (sorted_rev snd items).
Proof.
  eapply sorted_weaken; [|apply sorted_rev_sorted].
  intros a b Ha Hb [H|[H1 H2]].
  - left. apply sorted_rev_In in Ha, Hb.
    now rewrite <- !items_cnt.
  - right. apply sorted_rev_In in Ha, Hb. split.
    + now rewrite <- !items_cnt.
    + exact (sorted_occurs_before _ _ _ _ items_pos H2).
Qed.

Lemma top_sorted (n : Z) : StronglySorted (outranks cnt pos) (top items n).
Proof.
  unfold top, list_take. apply sorted_map.
  pose proof ranked_sorted as Hs.
  rewrite <- (firstn_skipn (Z.to_nat n) (sorted_rev snd items)) in Hs.
  now apply sorted_app in Hs.
Qed.

Lemma top_NoDup (n : Z) : NoDup (top items n).
Proof.
  eapply sorted_NoDup; [|apply top_sorted]. apply outranks_irrefl.
Qed.

Lemma top_In (n : Z) (a : A) : In a (top items n) -> In a (map fst items).
Proof.
  unfold top, list_take. intros H. apply in_map_iff in H as (x & <- & Hx).
  apply in_map. apply (sorted_rev_In snd). eapply In_firstn. exact Hx.
Qed.

Lemma top_length (n : Z) :
  List.length (top items n) = Nat.min (Z.to_nat n) (List.length items).
Proof.
  unfold top, list_take.
  now rewrite length_map, length_firstn, sorted_rev_length.
Qed.

(** An item left out of the top is outranked by every item of the top. *)
Lemma top_outranks_rest (n : Z) (a b : A) :
  In a (top items n) -> In b (map fst items) -> ~ In b (top items n) ->
  outranks cnt pos a b.
Proof.
  unfold top, list_take. intros Ha Hb Hnb.
  apply in_map_iff in Ha as (x & <- & Hx).
  apply in_map_iff in Hb as (y & <- & Hy).
  pose proof ranked_sorted as Hs.
  rewrite <- (firstn_skipn (Z.to_nat n) (sorted_rev snd items)) in Hs.
  apply sorted_app in Hs as (_ & _ & H). apply H; [exact Hx|].
  apply (sorted_rev_In snd) in Hy.
  rewrite <- (firstn_skipn (Z.to_nat n) (sorted_rev snd items)) in Hy.
  apply in_app_or in Hy as [Hy|Hy]; [|exact Hy].
  exfalso. apply Hnb. now apply in_map.
Qed.

End TopN.

End TopFacts.

(** ** [json.loads] inverts [json.dumps] *)

Module JsonFacts.
Import Exn PyStr Json.

Lemma append_assoc (a b c : string) :
  String.append (String.append a b) c = String.append a (String.append b c).
Proof. induction a as [|x a IH]; simpl; [reflexivity|now rewrite IH]. Qed.

Lemma append_nil_r (a : string) : String.append a EmptyString = a.
Proof. induction a as [|x a IH]; simpl; [reflexivity|now rewrite IH]. Qed.

Lemma snoc_append (cur w : string) (c : ascii) :
  String.append (snoc cur c) w = String.append cur (String c w).
Proof. unfold snoc, str1. now rewrite append_assoc. Qed.

(** Reading back the escape of one character appends that character. *)
Lemma loads_escape_char (c : ascii) (cur : string) (acc : list string)
  (rest : string) :
  loads_from (InStr cur) acc (String.append (escape_char c) rest) =
  loads_from (InStr (snoc cur c)) acc rest.
Proof.
  destruct c as [[] [] [] [] [] [] [] []]; reflexivity.
Qed.

Lemma loads_escape (w cur : string) (acc : list string) (rest : string) :
  loads_from (InStr cur) acc (String.append (escape w) rest) =
  loads_from (InStr (String.append cur w)) acc rest.
Proof.
  revert cur. induction w as [|c w IH]; intros cur.
  - simpl. now rewrite append_nil_r.
  - cbn [escape]. rewrite append_assoc, loads_escape_char, IH.
    now rewrite snoc_append.
Qed.

(** A quoted string, read where a string may start. *)
Lemma loads_encode_str (st : state) (w : string) (acc : list string)
  (rest : string) :
  st = Open \/ st = Comma ->
  loads_from st acc (String.append (encode_str w) rest) =
  loads_from After (acc ++ [w]) rest.
Proof.
  intros Hst. unfold encode_str.
  assert (E : loads_from st acc
                (String.append
                   (String dquote (String.append (escape w) (str1 dquote)))
                   rest) =
              loads_from (InStr EmptyString) acc
                (String.append (escape w) (String dquote rest))).
  { destruct Hst as [-> | ->]; cbn [String.append];
      rewrite append_assoc; reflexivity. }
  rewrite E, loads_escape. reflexivity.
Qed.

Lemma loads_encode_items (l : list string) :
  forall (st : state) (acc : list string),
    l <> [] -> st = Open \/ st = Comma ->
    loads_from st acc (String.append (encode_items l) (str1 "]")) =
    Some (acc ++ l).
Proof.
  induction l as [|w l IH]; intros st acc Hne Hst; [congruence|].
  destruct l as [|w' l].
  - cbn [encode_items]. rewrite (loads_encode_str st w acc _ Hst). reflexivity.
  - change (encode_items (w :: w' :: l))
      with (String.append (encode_str w)
              (String "," (String " " (encode_items (w' :: l))))).
    rewrite append_assoc, (loads_encode_str st w acc _ Hst).
    cbn [String.append].
    change (loads_from After (acc ++ [w])
              (String "," (String " "
                 (String.append (encode_items (w' :: l)) (str1 "]")))))
      with (loads_from Comma (acc ++ [w])
              (String.append (encode_items (w' :: l)) (str1 "]"))).
    rewrite IH; [|discriminate|now right].
    now rewrite <- app_assoc.
Qed.

Lemma loads_dumps (l : list string) : loads (dumps l) = Ok l.
Proof.
  unfold loads, dumps. destruct l as [|w l]; [reflexivity|].
  change (loads_from Start []
            (String "[" (String.append (encode_items (w :: l)) (str1 "]"))))
    with (loads_from Open []
            (String.append (encode_items (w :: l)) (str1 "]"))).
  rewrite loads_encode_items; [reflexivity|discriminate|now left].
Qed.

End JsonFacts.

(** ** Strings and floats *)

Module StringFacts.
Import PyStr.

Lemma prefix_nil (t : string) : String.prefix EmptyString t = true.
Proof. now destruct t. Qed.

Lemma contains_eq (needle hay : string) :
  contains needle hay =
  if String.prefix needle hay then true
  else match hay with
       | EmptyString => false
       | String _ hay' => contains needle hay'
       end.
Proof. destruct hay; reflexivity. Qed.

Lemma lower_append (a b : string) :
  lower (String.append a b) = String.append (lower a) (lower b).
Proof. induction a as [|c a IH]; simpl; [reflexivity|now rewrite IH]. Qed.

Lemma prefix_append (k post : string) :
  String.prefix k (String.append k post) = true.
Proof.
  induction k as [|c k IH]; [apply prefix_nil|].
  cbn [String.append String.prefix].
  destruct (ascii_dec c c); [exact IH|congruence].
Qed.

Lemma contains_inside (k pre post : string) :
  contains k (String.append pre (String.append k post)) = true.
Proof.
  induction pre as [|c pre IH].
  - cbn [String.append]. rewrite contains_eq.
    now rewrite prefix_append.
  - cbn [String.append]. rewrite contains_eq.
    destruct (String.prefix k _); [reflexivity|exact IH].
Qed.

Lemma prefix_split (k t : string) :
  String.prefix k t = true -> exists post, t = String.append k post.
Proof.
  revert t. induction k as [|c k IH]; intros t H.
  - now exists t.
  - destruct t as [|d t]; [discriminate|]. cbn [String.prefix] in H.
    destruct (ascii_dec c d) as [<-|]; [|discriminate].
    destruct (IH t H) as [post ->]. now exists post.
Qed.

Lemma contains_split (k t : string) :
  contains k t = true ->
  exists pre post, t = String.append pre (String.append k post).
Proof.
  induction t as [|d t IH]; rewrite contains_eq; intros H.
  - destruct (String.prefix k EmptyString) eqn:E; [|discriminate].
    destruct (prefix_split _ _ E) as [post ->]. now exists EmptyString, post.
  - destruct (String.prefix k (String d t)) eqn:E.
    + destruct (prefix_split _ _ E) as [post ->]. now exists EmptyString, post.
    + destruct (IH H) as (pre & post & ->). now exists (String d pre), post.
Qed.

(** [needle in hay]: the needle stands somewhere inside the string. *)
Lemma contains_iff (k t : string) :
  contains k t = true <->
  exists pre post, t = String.append pre (String.append k post).
Proof.
  split; [apply contains_split|].
  intros (pre & post & ->). apply contains_inside.
Qed.

(** [str.lower()] acts on each character. *)
Lemma lower_get (s : string) (i : nat) :
  String.get i (lower s) = option_map lower_char (String.get i s).
Proof.
  revert i. induction s as [|c s IH]; intros i; [reflexivity|].
  destruct i as [|i]; [reflexivity|]. cbn [lower String.get]. apply IH.
Qed.

Lemma in_range_iff (lo hi n : Z) :
  in_range lo hi n = true <-> lo <= n <= hi.
Proof. unfold in_range. rewrite andb_true_iff, !Z.leb_le. tauto. Qed.

Lemma ord_range (c : ascii) : 0 <= ord c < 256.
Proof. destruct c as [[] [] [] [] [] [] [] []]; cbv; split; congruence. Qed.

Lemma lower_char_ord (c : ascii) :
  ord (lower_char c) =
  if in_range 65 90 (ord c) ||
     (in_range 192 222 (ord c) && negb (ord c =? 215))
  then ord c + 32 else ord c.
Proof. destruct c as [[] [] [] [] [] [] [] []]; reflexivity. Qed.

(** The capital letters A-Z and those of the range 192-222, the
    multiplication sign 215 apart, go to the letter 32 code points higher. *)
Lemma lower_char_upper (c : ascii) :
  65 <= ord c <= 90 \/ (192 <= ord c <= 222 /\ ord c <> 215) ->
  ord (lower_char c) = ord c + 32.
Proof.
  intros H. rewrite lower_char_ord.
  replace (in_range 65 90 (ord c) ||
           (in_range 192 222 (ord c) && negb (ord c =? 215))) with true;
    [reflexivity|].
  symmetry. apply orb_true_iff. destruct H as [H|[H N]].
  - left. now apply in_range_iff.
  - right. apply andb_true_iff. split; [now apply in_range_iff|].
    apply negb_true_iff. now apply Z.eqb_neq.
Qed.

(** Every other character is left as it is. *)
Lemma lower_char_other (c : ascii) :
  ~ (65 <= ord c <= 90 \/ (192 <= ord c <= 222 /\ ord c <> 215)) ->
  lower_char c = c.
Proof.
  intros H. unfold lower_char.
  replace (in_range 65 90 (ord c) ||
           (in_range 192 222 (ord c) && negb (ord c =? 215))) with false;
    [reflexivity|].
  symmetry. apply not_true_iff_false. intros E. apply H.
  apply orb_true_iff in E as [E|E].
  - left. now apply in_range_iff.
  - right. apply andb_true_iff in E as [E N]. split; [now apply in_range_iff|].
    apply negb_true_iff in N. now apply Z.eqb_neq.
Qed.

End StringFacts.

Module FloatFacts.
Import Analyzer.

Lemma Qgtb_lt (a b : Q) : Qgtb a b = true <-> (b < a)%Q.
Proof.
  unfold Qgtb. rewrite negb_true_iff. split.
  - intros H. apply Qnot_le_lt. intros Hle.
    apply Qle_bool_iff in Hle. congruence.
  - intros H. apply not_true_iff_false. intros Hle.
    apply Qle_bool_iff in Hle. exact (Qlt_not_le _ _ H Hle).
Qed.

Lemma Qgtb_le (a b : Q) : Qgtb a b = false <-> (a <= b)%Q.
Proof.
  unfold Qgtb. rewrite negb_false_iff. apply Qle_bool_iff.
Qed.

Lemma Qltb_lt (a b : Q) : Qltb a b = true <-> (a < b)%Q.
Proof. apply Qgtb_lt. Qed.

Lemma Qltb_le (a b : Q) : Qltb a b = false <-> (b <= a)%Q.
Proof. apply Qgtb_le. Qed.

(** The label an [if score > t / elif score < -t / else] chain gives, for a
    positive threshold. *)
Lemma label_chain (t s : Q) :
  (0 < t)%Q ->
  let l := (if Qgtb s t then "POSITIVE"
            else if Qltb s (fneg t) then "NEGATIVE"
            else "NEUTRAL")%string in
  ((t < s)%Q -> l = "POSITIVE"%string) /\
  ((s < - t)%Q -> l = "NEGATIVE"%string) /\
  (~ (t < s)%Q -> ~ (s < - t)%Q -> l = "NEUTRAL"%string).
Proof.
  intros Ht l. subst l. unfold fneg.
  destruct (Qgtb s t) eqn:E1.
  - apply Qgtb_lt in E1. repeat split; try reflexivity.
    + intros H. exfalso. lra.
    + intros H. contradiction.
  - apply Qgtb_le in E1. destruct (Qltb s (- t)) eqn:E2.
    + apply Qltb_lt in E2. repeat split; try reflexivity.
      * intros H. exfalso. lra.
      * intros _ H. contradiction.
    + apply Qltb_le in E2. repeat split; try reflexivity.
      * intros H. exfalso. lra.
      * intros H. exfalso. lra.
Qed.

End FloatFacts.
(** ** Streaks *)

Module StreakFacts.
Import Py PyFacts Streaks.

Lemma occurs_before_NoDup {A : Type} (l : list A) (a : A) :
  NoDup l -> ~ occurs_before l a a.
Proof.
  intros Hnd (l1 & l2 & l3 & ->).
  apply NoDup_remove_2 in Hnd. apply Hnd.
  apply in_or_app. right. apply in_or_app. right. now left.
Qed.

Lemma dates_of_In (df : list timestamp) (d : Z) :
  In d (dates_of df) <-> In d (entry_dates df).
Proof.
  unfold dates_of, entry_dates. now rewrite sorted_rev_In, unique_In.
Qed.

Lemma dates_of_desc (df : list timestamp) :
  StronglySorted Z.gt (dates_of df).
Proof.
  unfold dates_of.
  pose proof (unique_NoDup (map date_of df)) as Hnd.
  pose proof (sorted_rev_sorted (fun d => d) (unique (map date_of df))) as Hs.
  induction Hs as [|a s Hs IH Ha]; constructor; [exact IH|].
  eapply Forall_impl; [|exact Ha].
  intros b [H|[-> H]]; [exact H|]. now apply occurs_before_NoDup in H.
Qed.

Lemma desc_head_gt (d : Z) (l : list Z) (x : Z) :
  StronglySorted Z.gt (d :: l) -> In x l -> x < d.
Proof.
  intros Hs Hx. apply StronglySorted_inv in Hs as [_ Hd].
  rewrite Forall_forall in Hd. specialize (Hd x Hx). lia.
Qed.

Lemma desc_tail (d : Z) (l : list Z) :
  StronglySorted Z.gt (d :: l) -> StronglySorted Z.gt l.
Proof. intros Hs. now apply StronglySorted_inv in Hs. Qed.

Lemma current_loop_shift (l : list Z) (a b : Z) :
  current_loop l (a + b) = current_loop l a + b.
Proof.
  revert a. induction l as [|d l IH]; intros a; [reflexivity|].
  destruct l as [|d' l]; [reflexivity|].
  change (current_loop (d :: d' :: l) (a + b))
    with (if d - d' =? 1 then current_loop (d' :: l) (a + b + 1) else a + b).
  change (current_loop (d :: d' :: l) a)
    with (if d - d' =? 1 then current_loop (d' :: l) (a + 1) else a).
  destruct (d - d' =? 1); [|reflexivity].
  replace (a + b + 1) with (a + 1 + b) by lia. apply IH.
Qed.

Lemma current_loop_step (d d' : Z) (l : list Z) :
  current_loop (d :: d' :: l) 1 =
  if d - d' =? 1 then current_loop (d' :: l) 1 + 1 else 1.
Proof.
  change (current_loop (d :: d' :: l) 1)
    with (if d - d' =? 1 then current_loop (d' :: l) (1 + 1) else 1).
  now rewrite current_loop_shift.
Qed.

(** The current-streak loop counts the run that starts at the head of a
    descending list and stops exactly where the run ends. *)
Lemma current_loop_run (d : Z) (l : list Z) :
  StronglySorted Z.gt (d :: l) ->
  1 <= current_loop (d :: l) 1 /\
  run (d :: l) d (current_loop (d :: l) 1) /\
  ~ In (d - current_loop (d :: l) 1) (d :: l).
Proof.
  revert d. induction l as [|d' l IH]; intros d Hs.
  - simpl. split; [lia|]. split.
    + intros i Hi. left. lia.
    + intros [H|[]]. lia.
  - rewrite current_loop_step. destruct (d - d' =? 1) eqn:E.
    + apply Z.eqb_eq in E.
      destruct (IH d' (desc_tail _ _ Hs)) as (H1 & H2 & H3).
      split; [lia|]. split.
      * intros i Hi. destruct (Z.eq_dec i 0) as [->|Hne]; [left; lia|].
        right. replace (d - i) with (d' - (i - 1)) by lia. apply H2. lia.
      * intros [H|H]; [lia|]. apply H3.
        now replace (d' - current_loop (d' :: l) 1)
          with (d - (current_loop (d' :: l) 1 + 1)) by lia.
    + apply Z.eqb_neq in E. split; [lia|]. split.
      * intros i Hi. left. lia.
      * intros [H|[H|H]]; [lia| |].
        -- pose proof (desc_head_gt _ _ d' Hs (or_introl eq_refl)). lia.
        -- pose proof (desc_head_gt _ _ d' Hs (or_introl eq_refl)).
           pose proof (desc_head_gt _ _ _ (desc_tail _ _ Hs) H). lia.
Qed.

Lemma current_loop_pos (l : list Z) : 1 <= current_loop l 1.
Proof.
  induction l as [|d l IH]; [simpl; lia|].
  destruct l as [|d' l]; [simpl; lia|].
  rewrite current_loop_step. destruct (d - d' =? 1); lia.
Qed.

Lemma best_run_ge_head (l : list Z) : l <> [] -> current_loop l 1 <= best_run l.
Proof. destruct l; [congruence|]. intros _. cbn [best_run]. lia. Qed.

(** The longest-streak loop, for any admissible value of its counters. *)
Lemma longest_loop_best (d : Z) (l : list Z) (m t : Z) :
  1 <= t <= m ->
  longest_loop (d :: l) m t =
  Z.max m (Z.max (t - 1 + current_loop (d :: l) 1) (best_run l)).
Proof.
  revert d m t. induction l as [|d' l IH]; intros d m t Ht.
  - simpl. lia.
  - change (longest_loop (d :: d' :: l) m t)
      with (if d - d' =? 1
            then longest_loop (d' :: l) (Z.max m (t + 1)) (t + 1)
            else longest_loop (d' :: l) m 1).
    rewrite current_loop_step.
    change (best_run (d' :: l))
      with (Z.max (current_loop (d' :: l) 1) (best_run l)).
    pose proof (current_loop_pos (d' :: l)).
    destruct (d - d' =? 1); rewrite IH by lia; lia.
Qed.

Lemma longest_loop_start (l : list Z) :
  l <> [] -> longest_loop l 1 1 = best_run l.
Proof.
  destruct l as [|d l]; [congruence|]. intros _.
  rewrite longest_loop_best by lia. cbn [best_run].
  pose proof (current_loop_pos (d :: l)). lia.
Qed.

(** Some date of the list starts a run as long as [best_run]. *)
Lemma best_run_attained (l : list Z) :
  StronglySorted Z.gt l -> l <> [] ->
  exists d, In d l /\ run l d (best_run l).
Proof.
  induction l as [|d l IH]; [congruence|]. intros Hs _.
  cbn [best_run].
  destruct (Z.max_spec (current_loop (d :: l) 1) (best_run l)) as [[Hlt ->]|[Hge ->]].
  - destruct l as [|d' l]; [simpl in Hlt; pose proof (current_loop_pos [d]); simpl in *; lia|].
    destruct (IH (desc_tail _ _ Hs)) as (x & Hx & Hr); [congruence|].
    exists x. split; [now right|]. intros i Hi. right. now apply Hr.
  - exists d. split; [now left|]. now apply current_loop_run.
Qed.

(** No run of dates of the list is longer than [best_run]. *)
Lemma best_run_bound (l : list Z) (d k : Z) :
  StronglySorted Z.gt l -> 0 < k -> run l d k -> k <= best_run l.
Proof.
  induction l as [|x l IH]; intros Hs Hk Hr.
  - destruct (Hr 0); lia.
  - cbn [best_run].
    destruct (Z.eq_dec d x) as [->|Hne].
    + destruct (current_loop_run x l Hs) as (_ & _ & Hout).
      destruct (Z_lt_le_dec (current_loop (x :: l) 1) k) as [Hlt|Hge]; [|lia].
      exfalso. apply Hout. apply Hr. pose proof (current_loop_pos (x :: l)). lia.
    + assert (Hd : In d l).
      { destruct (Hr 0) as [H|H]; [lia|lia|]. now rewrite Z.sub_0_r in H. }
      pose proof (desc_head_gt _ _ _ Hs Hd) as Hlt.
      enough (k <= best_run l) by lia.
      apply IH; [now apply desc_tail in Hs|exact Hk|].
      intros i Hi. destruct (Hr i Hi) as [H|H]; [lia|exact H].
Qed.

End StreakFacts.

(** ** Streaks: what [_calculate_streaks] returns *)

Module StreakSpec.
Import Py PyFacts Streaks StreakFacts.

Lemma dates_of_nonempty (df : list timestamp) : df <> [] -> dates_of df <> [].
Proof.
  destruct df as [|ts df]; [congruence|]. intros _ H.
  assert (Hin : In (date_of ts) (dates_of (ts :: df))).
  { apply dates_of_In. now left. }
  rewrite H in Hin. destruct Hin.
Qed.

(** The result of [_calculate_streaks] in terms of the sorted dates. *)
Lemma calculate_streaks_unfold (now : timestamp) (df : list timestamp) :
  df <> [] ->
  exists d0 rest,
    dates_of df = d0 :: rest /\
    _calculate_streaks now df =
      ((if (d0 =? date_of now) || (d0 =? date_of now - 1)
        then current_loop (d0 :: rest) 1 else 0),
       best_run (d0 :: rest)).
Proof.
  intros Hne. pose proof (dates_of_nonempty df Hne) as Hd.
  destruct (dates_of df) as [|d0 rest] eqn:E; [congruence|].
  exists d0, rest. split; [reflexivity|].
  unfold _calculate_streaks. destruct df as [|ts df]; [congruence|].
  rewrite E. now rewrite longest_loop_start.
Qed.

Lemma latest_date (df : list timestamp) (d0 : Z) (rest : list Z) :
  dates_of df = d0 :: rest ->
  In d0 (entry_dates df) /\ forall d, In d (entry_dates df) -> d <= d0.
Proof.
  intros E. pose proof (dates_of_desc df) as Hs. rewrite E in Hs. split.
  - apply dates_of_In. rewrite E. now left.
  - intros d Hd. apply dates_of_In in Hd. rewrite E in Hd.
    destruct Hd as [->|Hd]; [lia|].
    pose proof (desc_head_gt _ _ _ Hs Hd). lia.
Qed.

Lemma run_ext (D D' : list Z) (d k : Z) :
  (forall x, In x D -> In x D') -> run D d k -> run D' d k.
Proof. intros H Hr i Hi. apply H, Hr, Hi. Qed.

Lemma current_le_longest (now : timestamp) (df : list timestamp) :
  current_streak now df <= longest_streak now df.
Proof.
  unfold current_streak, longest_streak.
  destruct df as [|ts df]; [simpl; lia|].
  destruct (calculate_streaks_unfold now (ts :: df)) as (d0 & rest & E & ->);
    [congruence|].
  cbn [fst snd].
  pose proof (best_run_ge_head (d0 :: rest)) as H1.
  pose proof (current_loop_pos (d0 :: rest)) as H2.
  destruct ((d0 =? date_of now) || (d0 =? date_of now - 1)).
  - apply H1. congruence.
  - specialize (H1 ltac:(congruence)). lia.
Qed.

(** The current streak, read at the most recent entry date [d0]. *)
Lemma current_streak_at_latest (now : timestamp) (df : list timestamp) :
  df <> [] ->
  exists d0,
    In d0 (entry_dates df) /\
    (forall d, In d (entry_dates df) -> d <= d0) /\
    (d0 = date_of now \/ d0 = date_of now - 1 ->
     1 <= current_streak now df /\
     run (entry_dates df) d0 (current_streak now df) /\
     ~ In (d0 - current_streak now df) (entry_dates df)) /\
    (~ (d0 = date_of now \/ d0 = date_of now - 1) ->
     current_streak now df = 0).
Proof.
  intros Hne.
  destruct (calculate_streaks_unfold now df Hne)
    as (d0 & rest & E & Hc).
  destruct (latest_date df d0 rest E) as [Hin Hmax].
  exists d0. split; [exact Hin|]. split; [exact Hmax|].
  unfold current_streak. rewrite Hc. cbn [fst].
  pose proof (dates_of_desc df) as Hs. rewrite E in Hs.
  destruct (current_loop_run d0 rest Hs) as (H1 & H2 & H3).
  split.
  - intros Hd.
    replace ((d0 =? date_of now) || (d0 =? date_of now - 1)) with true
      by (symmetry; apply orb_true_iff; rewrite !Z.eqb_eq; exact Hd).
    split; [exact H1|]. split.
    + eapply run_ext; [|exact H2].
      intros x Hx. apply dates_of_In. now rewrite E.
    + intros Hx. apply H3. apply dates_of_In in Hx.
      now rewrite E in Hx.
  - intros Hd.
    replace ((d0 =? date_of now) || (d0 =? date_of now - 1)) with false;
      [reflexivity|].
    symmetry. apply not_true_iff_false. intros Ht. apply Hd.
    apply orb_true_iff in Ht. now rewrite !Z.eqb_eq in Ht. 
Qed.

End StreakSpec.

Import Streaks.

(** C4. For a non-empty history, let [d0] be the most recent entry date.
    When [d0] is today or yesterday, the current streak [c] is the number of
    consecutive calendar days with an entry counted backward from [d0]: the
    days [d0, d0-1, ..., d0-c+1] all have an entry and [d0-c] has none.
    Otherwise the current streak is 0.  In particular, entries on exactly the
    dates today, today-1, today-2 and today-5 give a current streak of 3. *)
Theorem current_streak_counts_back :
  (forall (now : timestamp) (df : list timestamp),
      df <> [] ->
      exists d0,
        In d0 (entry_dates df) /\
        (forall d, In d (entry_dates df) -> d <= d0) /\
        (d0 = date_of now \/ d0 = date_of now - 1 ->
         1 <= current_streak now df /\
         run (entry_dates df) d0 (current_streak now df) /\
         ~ In (d0 - current_streak now df) (entry_dates df)) /\
        (~ (d0 = date_of now \/ d0 = date_of now - 1) ->
         current_streak now df = 0)) /\
  (forall (now : timestamp) (df : list timestamp),
      let today := date_of now in
      (forall d, In d (entry_dates df) <->
                 In d [today; today - 1; today - 2; today - 5]) ->
      current_streak now df = 3).
Proof.
  pose proof StreakSpec.current_streak_at_latest as General.
  split; [exact General|].
  intros now df today HD.
  assert (Hne : df <> []).
  { intros ->. apply (proj2 (HD today)). now left. }
  destruct (General now df Hne) as (d0 & Hin & Hmax & Hrun & _).
  assert (Hd0 : d0 = today).
  { specialize (Hmax today (proj2 (HD today) (or_introl eq_refl))).
    apply HD in Hin. simpl in Hin. lia. }
  subst d0. destruct (Hrun (or_introl eq_refl)) as (H1 & H2 & H3).
  set (c := current_streak now df) in *.
  assert (Hc3 : c <= 3).
  { destruct (Z_le_gt_dec c 3) as [H|H]; [exact H|].
    specialize (H2 3 ltac:(lia)). apply HD in H2. simpl in H2. lia. }
  destruct (Z.eq_dec c 3) as [H|H]; [exact H|]. exfalso. apply H3, HD.
  simpl. lia.
Qed.

(** C4, at a concrete history: four entries on day 100, 99, 98 and 95, read
    on day 100. *)
Lemma current_streak_counts_back_witness :
  (exists d0 : Z,
      In d0 (entry_dates [8640000; 8553600; 8467200; 8208000]) /\
      (d0 = 100 \/ d0 = 99 ->
       1 <= current_streak 8640000 [8640000; 8553600; 8467200; 8208000])) /\
  current_streak 8640000 [8640000; 8553600; 8467200; 8208000] = 3.
Proof.
  split.
  - destruct (proj1 current_streak_counts_back 8640000
                [8640000; 8553600; 8467200; 8208000] ltac:(discriminate))
      as (d0 & H1 & _ & H3 & _).
    exists d0. split; [exact H1|]. intros Hd. apply H3.
    change (date_of 8640000) with 100. exact Hd.
  - apply (proj2 current_streak_counts_back 8640000).
    intros d. reflexivity.
Defined.

(** C5. For a non-empty history the longest streak [L] is the maximum run
    length of consecutive calendar dates that each have an entry: some run of
    [L] consecutive entry dates exists and no run is longer.  In particular,
    entries on exactly the dates today-5, today-6 and today-7 give a current
    streak of 0 and a longest streak of 3. *)
Theorem longest_streak_is_max_run :
  (forall (now : timestamp) (df : list timestamp),
      df <> [] ->
      1 <= longest_streak now df /\
      (exists d, In d (entry_dates df) /\
                 run (entry_dates df) d (longest_streak now df)) /\
      (forall d k, 0 < k -> run (entry_dates df) d k ->
                   k <= longest_streak now df)) /\
  (forall (now : timestamp) (df : list timestamp),
      let today := date_of now in
      (forall d, In d (entry_dates df) <->
                 In d [today - 5; today - 6; today - 7]) ->
      current_streak now df = 0 /\ longest_streak now df = 3).
Proof.
  assert (General : forall (now : timestamp) (df : list timestamp),
      df <> [] ->
      1 <= longest_streak now df /\
      (exists d, In d (entry_dates df) /\
                 run (entry_dates df) d (longest_streak now df)) /\
      (forall d k, 0 < k -> run (entry_dates df) d k ->
                   k <= longest_streak now df)).
  { intros now df Hne.
    destruct (StreakSpec.calculate_streaks_unfold now df Hne)
      as (d0 & rest & E & Hc).
    unfold longest_streak. rewrite Hc. cbn [snd]. rewrite <- E.
    pose proof (StreakFacts.dates_of_desc df) as Hs.
    assert (Hne' : dates_of df <> []) by (rewrite E; discriminate).
    split; [|split].
    - pose proof (StreakFacts.best_run_ge_head _ Hne').
      pose proof (StreakFacts.current_loop_pos (dates_of df)). lia.
    - destruct (StreakFacts.best_run_attained _ Hs Hne') as (d & Hd & Hr).
      exists d. split; [now apply StreakFacts.dates_of_In|].
      eapply StreakSpec.run_ext; [|exact Hr].
      intros x. apply StreakFacts.dates_of_In.
    - intros d k Hk Hr. apply (StreakFacts.best_run_bound _ d k Hs Hk).
      eapply StreakSpec.run_ext; [|exact Hr].
      intros x. apply StreakFacts.dates_of_In. }
  split; [exact General|].
  intros now df today HD.
  assert (Hne : df <> []).
  { intros ->. apply (proj2 (HD (today - 5))). now left. }
  split.
  - destruct (StreakSpec.current_streak_at_latest now df Hne)
      as (d0 & Hin & _ & _ & H0).
    apply H0. apply HD in Hin. simpl in Hin. fold today. lia.
  - destruct (General now df Hne) as (H1 & (d & Hd & Hr) & Hmax).
    set (L := longest_streak now df) in *.
    assert (H3 : 3 <= L).
    { apply (Hmax (today - 5) 3); [lia|]. intros i Hi. apply HD. simpl.
      assert (Hi3 : i = 0 \/ i = 1 \/ i = 2) by lia.
      destruct Hi3 as [Hi3 | [Hi3 | Hi3]]; subst i; lia. }
    specialize (Hr (L - 1) ltac:(lia)).
    apply HD in Hd, Hr. simpl in Hd, Hr. lia.
Qed.

(** C5, at a concrete history: entries on days 95, 94 and 93, read on day
    100. *)
Lemma longest_streak_is_max_run_witness :
  1 <= longest_streak 8640000 [8208000; 8121600; 8035200] /\
  current_streak 8640000 [8208000; 8121600; 8035200] = 0 /\
  longest_streak 8640000 [8208000; 8121600; 8035200] = 3.
Proof.
  split.
  - apply (proj1 longest_streak_is_max_run 8640000
             [8208000; 8121600; 8035200]). discriminate.
  - apply (proj2 longest_streak_is_max_run 8640000).
    intros d. reflexivity.
Defined.

(** ** The store: deletion *)

Module StoreFacts.
Import Exn PyStr Store.

Lemma filter_other_ids (rows : list row) (entry_id : Z) :
  (forall r, In r rows -> id r <> entry_id) ->
  filter (fun r => negb (id r =? entry_id)) rows = rows.
Proof.
  induction rows as [|r rows IH]; intros H; [reflexivity|].
  simpl. destruct (id r =? entry_id) eqn:E.
  - apply Z.eqb_eq in E. exfalso. apply (H r); [now left|exact E].
  - simpl. apply f_equal. apply IH. intros r0 Hr0. apply H. now right.
Qed.

Lemma max_rowid_ge (rows : list row) (r : row) :
  In r rows -> id r <= max_rowid rows.
Proof.
  induction rows as [|r' rows IH]; [intros []|].
  intros [->|H]; simpl; [lia|]. specialize (IH H). lia.
Qed.

Lemma find_fresh (rows : list row) (r : row) :
  (forall r', In r' rows -> id r' <> id r) ->
  find (fun r' => id r' =? id r) (rows ++ [r]) = Some r.
Proof.
  induction rows as [|r' rows IH]; intros H; simpl.
  - now rewrite Z.eqb_refl.
  - destruct (id r' =? id r) eqn:E.
    + apply Z.eqb_eq in E. exfalso. apply (H r'); [now left|exact E].
    + apply IH. intros r'' Hr. apply H. now right.
Qed.

Lemma from_json_to_json (l : option (list string)) :
  from_json (to_json l) = Ok (or_empty l).
Proof.
  destruct l as [[|w l]|]; [reflexivity| |reflexivity].
  unfold to_json, or_empty.
  change (from_json (Some (Json.dumps (w :: l))))
    with (Json.loads (Json.dumps (w :: l))).
  apply JsonFacts.loads_dumps.
Qed.

Lemma next_rowid_fresh (s : db) (r : row) :
  In r (journal_entries s) -> id r <> next_rowid s.
Proof.
  intros H. apply max_rowid_ge in H. unfold next_rowid. lia.
Qed.

End StoreFacts.

Import Exn Store.

(** C1, as stated, fails: on the empty store, whose id 7 identifies no entry,
    [delete_entry] returns [True], not a failure. *)
Lemma delete_missing_reports_success :
  ~ (~ stored empty_db 7 ->
     exists s', delete_entry true empty_db 7 = Ok (false, s')).
Proof.
  intros H. destruct H as (s' & H).
  - intros (r & [] & _).
  - discriminate H.
Qed.

(** C1, amended.  For every id that identifies no stored entry,
    [delete_entry] does not raise and leaves the store unchanged; it returns
    [True] when the database calls succeed and [False] only when they
    raise. *)
Theorem delete_missing_keeps_store (db_ok : bool) (s : db) (entry_id : Z) :
  ~ stored s entry_id ->
  delete_entry db_ok s entry_id = Ok (db_ok, s).
Proof.
  intros H. unfold delete_entry, connect. destruct db_ok; simpl; [|reflexivity].
  rewrite StoreFacts.filter_other_ids.
  - now destruct s.
  - intros r Hr Hid. apply H. now exists r.
Qed.

(** C1 on a store that holds entry 1: deleting id 2 reports success and
    changes nothing. *)
Lemma delete_missing_keeps_store_witness :
  let s := {| journal_entries :=
                [ {| id := 1; timestamp := 0; entry_text := "a quiet day";
                     user_selected_mood := None; ai_sentiment_label := None;
                     ai_sentiment_score := None; ai_confidence := None;
                     word_count := 3; detected_emotions := None;
                     keywords := None |} ];
              sqlite_sequence := 1 |} in
  delete_entry true s 2 = Ok (true, s).
Proof.
  intros s. apply (delete_missing_keeps_store true s 2).
  intros (r & [<- | []] & H). discriminate H.
Defined.

(** C9. An entry saved by [save_entry] is read back by [get_entry_by_id]
    under the returned id with the same text, sentiment label, sentiment
    score, emotions and keywords; an empty or absent emotion or keyword list
    is read back as the empty list. *)
Theorem save_then_get_by_id (db_ok : bool) (now : Z) (s s' : db)
  (text : string) (mood label : option string) (score conf : option Q)
  (emos kws : option (list string)) (entry_id : Z) :
  save_entry db_ok now s text mood label score conf emos kws
    = Ok (entry_id, s') ->
  exists e : entry,
    get_entry_by_id true s' entry_id = Ok (Some e) /\
    id e = entry_id /\
    entry_text e = text /\
    ai_sentiment_label e = label /\
    ai_sentiment_score e = score /\
    detected_emotions e = or_empty emos /\
    keywords e = or_empty kws.
Proof.
  unfold save_entry, connect. destruct db_ok; simpl; [|discriminate].
  intros H. injection H as <- <-.
  unfold get_entry_by_id, connect. cbn [bind journal_entries].
  match goal with
  | |- context [find _ (_ ++ [?r])] =>
      change (next_rowid s) with (id r) at 1;
      rewrite (StoreFacts.find_fresh (journal_entries s) r)
  end.
  - unfold parse_row. cbn [detected_emotions keywords].
    rewrite !StoreFacts.from_json_to_json. cbn [bind].
    eexists. split; [reflexivity|]. cbn. repeat split; reflexivity.
  - intros r' Hr'. cbn [id]. now apply StoreFacts.next_rowid_fresh.
Qed.

(** C9 on the empty store, with an empty keyword list. *)
Lemma save_then_get_by_id_witness :
  exists e : entry,
    get_entry_by_id true
      {| journal_entries :=
           [ {| id := 1; timestamp := 50;
                entry_text := "I am happy with the garden today";
                user_selected_mood := None;
                ai_sentiment_label := Some "POSITIVE"%string;
                ai_sentiment_score := Some (4 # 5);
                ai_confidence := Some (4 # 5); word_count := 7;
                detected_emotions := Some (Json.dumps ["joy"%string]);
                keywords := None |} ];
         sqlite_sequence := 1 |} 1 = Ok (Some e) /\
    id e = 1 /\
    entry_text e = "I am happy with the garden today"%string /\
    ai_sentiment_label e = Some "POSITIVE"%string /\
    ai_sentiment_score e = Some (4 # 5) /\
    detected_emotions e = ["joy"%string] /\
    keywords e = [].
Proof.
  apply (save_then_get_by_id true 50 empty_db _
           "I am happy with the garden today" None (Some "POSITIVE"%string)
           (Some (4 # 5)) (Some (4 # 5)) (Some ["joy"%string]) (Some []) 1).
  reflexivity.
Defined.

(** ** The lite analyzer never raises *)

Module LiteFacts.
Import Exn PyStr Analyzer Lite.

Lemma analyze_sentiment_cases (tb : textblob) (text : string) :
  analyze_sentiment tb text =
  match polarity_of tb text with
  | Ok polarity => Ok (scored_analysis text polarity)
  | Raise _ => Ok (default_analysis text)
  end.
Proof.
  unfold analyze_sentiment. destruct (polarity_of tb text) as [p|e].
  - reflexivity.
  - now destruct e.
Qed.

End LiteFacts.

Import Analyzer.

(** C3. The lite [analyze_sentiment] returns a complete result for every
    scorer and every text, never an exception; when the scorer is missing or
    raises, the result has label NEUTRAL, score 0.0 and confidence 0.0, with
    the emotion list [neutral] and the keywords of the text.  In particular
    the empty text and whitespace-only texts are analyzed without a raise. *)
Theorem analyze_sentiment_total :
  (forall (tb : textblob) (text : string),
      exists r, Lite.analyze_sentiment tb text = Ok r) /\
  (forall (tb : textblob) (text : string) (e : exn),
      polarity_of tb text = Raise e ->
      exists r,
        Lite.analyze_sentiment tb text = Ok r /\
        label r = "NEUTRAL"%string /\ score r = f_0_0 /\
        confidence r = f_0_0 /\ emotions r = ["neutral"%string] /\
        keywords r = extract_keywords text) /\
  (forall (tb : textblob) (text : string),
      PyStr.strip text = EmptyString ->
      exists r, Lite.analyze_sentiment tb text = Ok r).
Proof.
  assert (Total : forall tb text, exists r, Lite.analyze_sentiment tb text = Ok r).
  { intros tb text. rewrite LiteFacts.analyze_sentiment_cases.
    destruct (polarity_of tb text); eexists; reflexivity. }
  split; [exact Total|]. split; [|intros tb text _; apply Total].
  intros tb text e H. rewrite LiteFacts.analyze_sentiment_cases, H.
  eexists. split; [reflexivity|]. repeat split.
Qed.

(** C3 with no scorer installed, with a scorer that raises, and on a text of
    three spaces. *)
Lemma analyze_sentiment_total_witness :
  (exists r,
      Lite.analyze_sentiment None "so tired of the rain"%string = Ok r /\
      label r = "NEUTRAL"%string /\ score r = f_0_0 /\
      confidence r = f_0_0 /\ emotions r = ["neutral"%string] /\
      keywords r = extract_keywords "so tired of the rain"%string) /\
  (exists r,
      Lite.analyze_sentiment (Some (fun _ => Raise RuntimeError))
        "so tired of the rain"%string = Ok r /\
      label r = "NEUTRAL"%string /\ score r = f_0_0 /\
      confidence r = f_0_0 /\ emotions r = ["neutral"%string] /\
      keywords r = extract_keywords "so tired of the rain"%string) /\
  (exists r, Lite.analyze_sentiment (Some (fun _ => Ok (1 # 4)))
               "   "%string = Ok r).
Proof.
  split; [|split].
  - apply (proj1 (proj2 analyze_sentiment_total) None _ ImportError).
    reflexivity.
  - apply (proj1 (proj2 analyze_sentiment_total)
             (Some (fun _ => Raise RuntimeError)) _ RuntimeError).
    reflexivity.
  - apply (proj2 (proj2 analyze_sentiment_total)). reflexivity.
Defined.

(** C6. The label is derived from the score by the thresholds 0.1 and
    -0.1 (the floats nearest to them): POSITIVE for a score above 0.1, NEGATIVE for a score below -0.1,
    NEUTRAL for any other.  This holds for every result of the lite analyzer
    (the one the application imports), and for every result of the full
    analyzer whose pipeline, when it answers, gives its first label a score
    of at least 0.5, as the highest of two class probabilities is.  The
    transformer branch of the full analyzer itself compares with 0.3 and
    -0.3; a score of at least 0.5 in absolute value gets the same label from
    both pairs of thresholds. *)
Theorem label_follows_tenth_thresholds :
  ((Qabs (f_0_1 - (1 # 10)) <= 1 # 2 ^ 57)%Q /\
   (Qabs (f_0_3 - (3 # 10)) <= 1 # 2 ^ 56)%Q) /\
  (forall (tb : textblob) (text : string),
      exists r, Lite.analyze_sentiment tb text = Ok r /\
        ((f_0_1 < score r)%Q -> label r = "POSITIVE"%string) /\
        ((score r < - f_0_1)%Q -> label r = "NEGATIVE"%string) /\
        (~ (f_0_1 < score r)%Q -> ~ (score r < - f_0_1)%Q ->
         label r = "NEUTRAL"%string)) /\
  (forall (sp : Full.sentiment_pipeline) (ep : Full.emotion_pipeline)
          (tb : textblob) (text : string),
      (forall run result_label result_score rest,
          sp = Some run ->
          run (PyStr.take 512 text)
            = Ok ((result_label, result_score) :: rest) ->
          (1 # 2 <= result_score)%Q) ->
      let r := Full.analyze_sentiment sp ep tb text in
      ((f_0_1 < score r)%Q -> label r = "POSITIVE"%string) /\
      ((score r < - f_0_1)%Q -> label r = "NEGATIVE"%string) /\
      (~ (f_0_1 < score r)%Q -> ~ (score r < - f_0_1)%Q ->
       label r = "NEUTRAL"%string)) /\
  (forall (run : string -> res (list (string * Q)))
          (ep : Full.emotion_pipeline) (tb : textblob) (text : string)
          (result_label : string) (result_score : Q)
          (rest : list (string * Q)),
      run (PyStr.take 512 text) = Ok ((result_label, result_score) :: rest) ->
      let r := Full.analyze_sentiment (Some run) ep tb text in
      score r = (if String.eqb result_label "POSITIVE"
                 then result_score else (- result_score)%Q) /\
      ((f_0_3 < score r)%Q -> label r = "POSITIVE"%string) /\
      ((score r < - f_0_3)%Q -> label r = "NEGATIVE"%string) /\
      (~ (f_0_3 < score r)%Q -> ~ (score r < - f_0_3)%Q ->
       label r = "NEUTRAL"%string)).
Proof.
  assert (P1 : (0 < f_0_1)%Q) by reflexivity.
  assert (P3 : (0 < f_0_3)%Q) by reflexivity.
  assert (Fallback : forall tb text,
             let d := Full._fallback_sentiment_textblob tb text in
             ((f_0_1 < snd (fst d))%Q -> fst (fst d) = "POSITIVE"%string) /\
             ((snd (fst d) < - f_0_1)%Q -> fst (fst d) = "NEGATIVE"%string) /\
             (~ (f_0_1 < snd (fst d))%Q -> ~ (snd (fst d) < - f_0_1)%Q ->
              fst (fst d) = "NEUTRAL"%string)).
  { intros tb text. cbv zeta. unfold Full._fallback_sentiment_textblob.
    destruct (polarity_of tb text) as [p|e]; cbn [fst snd].
    - exact (FloatFacts.label_chain f_0_1 p P1).
    - split; [intros H; exfalso; revert H; now compute|].
      split; [intros H; exfalso; revert H; now compute|reflexivity]. }
  split; [split; vm_compute; discriminate|].
  split; [|split].
  - intros tb text. unfold Lite.analyze_sentiment, try_except, bind.
    destruct (polarity_of tb text) as [p|e].
    + eexists. split; [reflexivity|]. cbn [label score].
      exact (FloatFacts.label_chain f_0_1 p P1).
    + exists (Lite.default_analysis text).
      split; [now destruct e|]. cbn [Lite.default_analysis label score].
      split; [intros H; exfalso; revert H; now compute|].
      split; [intros H; exfalso; revert H; now compute|reflexivity].
  - intros sp ep tb text Hsp. cbv zeta. unfold Full.analyze_sentiment.
    destruct sp as [run|].
    + unfold Full.transformer_sentiment, bind.
      destruct (run (PyStr.take 512 text)) as [[|[rl rs] rest]|e] eqn:E.
      * specialize (Fallback tb text). cbv zeta in Fallback.
        destruct (Full._fallback_sentiment_textblob tb text) as [[l s] c].
        exact Fallback.
      * specialize (Hsp run rl rs rest eq_refl E).
        cbn [label score].
        pose proof (FloatFacts.label_chain f_0_3
                      (if String.eqb rl "POSITIVE" then rs else fneg rs) P3)
          as (A & B & C).
        assert (C13 : (f_0_1 < f_0_3)%Q) by reflexivity.
        assert (C35 : (f_0_3 < 1 # 2)%Q) by reflexivity.
        unfold fneg in *.
        destruct (String.eqb rl "POSITIVE").
        -- split; [intros _; apply A; lra|].
           split; [intros H; exfalso; lra|].
           intros H _. exfalso. apply H. lra.
        -- split; [intros H; exfalso; lra|].
           split; [intros _; apply B; lra|].
           intros _ H. exfalso. apply H. lra.
      * specialize (Fallback tb text). cbv zeta in Fallback.
        destruct (Full._fallback_sentiment_textblob tb text) as [[l s] c].
        exact Fallback.
    + specialize (Fallback tb text). cbv zeta in Fallback.
      destruct (Full._fallback_sentiment_textblob tb text) as [[l s] c].
      exact Fallback.
  - intros run ep tb text rl rs rest Hrun. cbv zeta.
    unfold Full.analyze_sentiment, Full.transformer_sentiment, bind.
    rewrite Hrun. cbn [label score]. split; [reflexivity|].
    exact (FloatFacts.label_chain f_0_3
             (if String.eqb rl "POSITIVE" then rs else fneg rs) P3).
Qed.

(** C6 on the pipeline answer NEGATIVE with score 0.98 and on the answer
    POSITIVE with score 0.75. *)
Lemma label_follows_tenth_thresholds_witness :
  let r := Full.analyze_sentiment
             (Some (fun _ => Ok [("NEGATIVE"%string, 49 # 50)]))
             None None "nothing went right today"%string in
  let r' := Full.analyze_sentiment
              (Some (fun _ => Ok [("POSITIVE"%string, 3 # 4)]))
              None None "a fine walk along the river"%string in
  (score r < - f_0_1)%Q /\ label r = "NEGATIVE"%string /\
  (f_0_1 < score r')%Q /\ label r' = "POSITIVE"%string.
Proof.
  cbv zeta.
  assert (H : forall (l : string) (q : Q) (text : string),
             (1 # 2 <= q)%Q ->
             forall run result_label result_score rest,
               Some (fun _ : string => Ok [(l, q)]) = Some run ->
               run (PyStr.take 512 text)
                 = Ok ((result_label, result_score) :: rest) ->
               (1 # 2 <= result_score)%Q).
  { intros l q text Hq run rl rs rest H1 H2. injection H1 as <-.
    injection H2 as _ <- _. exact Hq. }
  split; [reflexivity|]. split; [|split; [reflexivity|]].
  - apply (proj1 (proj2 (proj1 (proj2 (proj2 label_follows_tenth_thresholds))
             (Some (fun _ => Ok [("NEGATIVE"%string, 49 # 50)]))
             None None "nothing went right today"%string
             (H "NEGATIVE"%string (49 # 50) _ ltac:(discriminate))))).
    reflexivity.
  - apply (proj1 (proj1 (proj2 (proj2 label_follows_tenth_thresholds))
             (Some (fun _ => Ok [("POSITIVE"%string, 3 # 4)]))
             None None "a fine walk along the river"%string
             (H "POSITIVE"%string (3 # 4) _ ltac:(discriminate)))).
    reflexivity.
Defined.

(** ** The submission handler *)

Import Store App.

(** C2, as stated, fails: a text of one letter and nineteen spaces has one
    character after trimming, yet it is analyzed and saved. *)
Lemma short_after_trim_is_saved :
  let text := "a                   "%string in
  PyStr.len (PyStr.strip text) = 1 /\
  rejected (fst (submit None true 0 None empty_db text)) = false /\
  List.length (journal_entries (snd (submit None true 0 None empty_db text)))
    = 1%nat.
Proof. cbv zeta. split; [reflexivity|]. split; reflexivity. Qed.

(** C2, amended.  A submitted text whose length, counted without trimming,
    is below 20, and likewise a text with nothing left after trimming, is
    rejected: it is not analyzed and the store is unchanged. *)
Theorem short_text_rejected (tb : textblob) (db_ok : bool) (now : Z)
  (mood : option string) (s : db) (text : string) :
  PyStr.len text < 20 \/ PyStr.len (PyStr.strip text) = 0 ->
  rejected (fst (submit tb db_ok now mood s text)) = true /\
  snd (submit tb db_ok now mood s text) = s.
Proof.
  intros H. unfold submit.
  destruct (String.eqb text EmptyString
            || (PyStr.len (PyStr.strip text) =? 0)) eqn:E1;
    [split; reflexivity|].
  apply orb_false_iff in E1 as [_ E1]. apply Z.eqb_neq in E1.
  destruct H as [H|H]; [|contradiction].
  apply Z.ltb_lt in H. rewrite H. split; reflexivity.
Qed.

(** C2 on a text of nineteen characters. *)
Lemma short_text_rejected_witness :
  rejected (fst (submit None true 0 None empty_db "I feel fine today.."%string))
    = true /\
  snd (submit None true 0 None empty_db "I feel fine today.."%string)
    = empty_db.
Proof.
  apply short_text_rejected. left. reflexivity.
Defined.

(** C10. The current streak never exceeds the longest streak, for every
    history handed to [_calculate_streaks] and in every dictionary
    [get_stats] returns. *)
Theorem current_streak_le_longest :
  (forall (now : Z) (df : list Z),
      Streaks.current_streak now df <= Streaks.longest_streak now df) /\
  (forall (db_ok : bool) (now : Z) (s : db) (st : stats),
      get_stats db_ok now s = Ok st ->
      Store.current_streak st <= Store.longest_streak st).
Proof.
  split; [exact StreakSpec.current_le_longest|].
  intros db_ok now s st. unfold get_stats, bind.
  destruct (get_all_entries db_ok s) as [df|e]; [|discriminate].
  destruct df as [|e df].
  - intros H. injection H as <-. simpl. lia.
  - pose proof (StreakSpec.current_le_longest now (map timestamp (e :: df))) as Hle.
    unfold Streaks.current_streak, Streaks.longest_streak in Hle.
    destruct (Streaks._calculate_streaks now (map timestamp (e :: df)))
      as [c l].
    intros H. injection H as <-. exact Hle.
Qed.

(** C10 on a store with entries on day 100 and day 99, read on day 100. *)
Lemma current_streak_le_longest_witness :
  Store.current_streak
    {| total_entries := 2; Store.current_streak := 2;
       Store.longest_streak := 2 |} <=
  Store.longest_streak
    {| total_entries := 2; Store.current_streak := 2;
       Store.longest_streak := 2 |}.
Proof.
  apply (proj2 current_streak_le_longest true 8640000
           {| journal_entries :=
                [ {| id := 1; timestamp := 8553600;
                     entry_text := "a long walk in the rain";
                     user_selected_mood := None; ai_sentiment_label := None;
                     ai_sentiment_score := None; ai_confidence := None;
                     word_count := 6; detected_emotions := None;
                     keywords := None |};
                  {| id := 2; timestamp := 8640000;
                     entry_text := "slept well, worked in the garden";
                     user_selected_mood := None; ai_sentiment_label := None;
                     ai_sentiment_score := None; ai_confidence := None;
                     word_count := 6; detected_emotions := None;
                     keywords := None |} ];
              sqlite_sequence := 2 |}).
  reflexivity.
Defined.

(** ** Tokens and counts of the keyword extractor *)

Module KeywordFacts.
Import Py PyFacts PyStr TopFacts Analyzer.

(** *** Tokens *)

Lemma take_az_run (s : string) (m : nat) :
  (m <= az_run s)%nat ->
  all_az (take m s) = true /\ String.length (take m s) = m.
Proof.
  unfold take. revert m. induction s as [|c s IH]; intros m Hm.
  - simpl in Hm. assert (m = O) by lia. subst m. now split.
  - destruct m as [|m]; [now split|].
    simpl in Hm. destruct (is_az c) eqn:E; [|lia].
    destruct (IH m ltac:(lia)) as [H1 H2].
    simpl. rewrite E, H1, H2. now split.
Qed.

Lemma backtrack_eq (s : string) (m : nat) :
  backtrack s m =
  if (m <? 3)%nat then None
  else if boundary (match m with O => None | S k => String.get k s end)
                   (String.get m s)
       then Some (take m s)
       else match m with O => None | S m' => backtrack s m' end.
Proof. destruct m; reflexivity. Qed.

Lemma backtrack_shape (s : string) (m : nat) (tok : string) :
  (m <= az_run s)%nat -> backtrack s m = Some tok ->
  token_shape tok /\ (String.length tok <= m)%nat.
Proof.
  induction m as [|m IH]; intros Hm; rewrite backtrack_eq.
  - discriminate.
  - destruct (S m <? 3)%nat eqn:E; [discriminate|].
    apply Nat.ltb_ge in E.
    destruct (boundary _ _).
    + intros H. injection H as <-.
      destruct (take_az_run s (S m) Hm) as [H1 H2].
      split; [split; [exact H1|lia]|lia].
    + intros H. destruct (IH ltac:(lia) H) as [H1 H2]. split; [exact H1|lia].
Qed.

Lemma match_at_shape (prev : option ascii) (s tok : string) :
  match_at prev s = Some tok ->
  token_shape tok /\ (String.length tok <= az_run s)%nat.
Proof.
  unfold match_at. destruct (boundary _ _); [|discriminate].
  now apply backtrack_shape.
Qed.

Lemma findall_from_shape (s : string) :
  forall prev skip, Forall token_shape (findall_from prev skip s).
Proof.
  induction s as [|c s IH]; intros prev skip; [constructor|].
  cbn [findall_from]. destruct skip as [|k]; [|apply IH].
  destruct (match_at prev (String c s)) as [tok|] eqn:E; [|apply IH].
  constructor; [|apply IH]. exact (proj1 (match_at_shape _ _ _ E)).
Qed.

Lemma words_of_shape (text : string) : Forall token_shape (words_of text).
Proof. apply findall_from_shape. Qed.

(** *** Every delimited run of letters is found *)

Lemma is_az_word (c : ascii) : is_az c = true -> is_word c = true.
Proof.
  unfold is_az, is_word, isalnum. intros ->.
  now rewrite !orb_true_r.
Qed.

Lemma non_word_az_run (s : string) :
  is_word_opt (String.get 0 s) = false -> az_run s = O.
Proof.
  destruct s as [|c s]; [reflexivity|]. simpl. intros H.
  destruct (is_az c) eqn:E; [|reflexivity].
  apply is_az_word in E. congruence.
Qed.

Lemma az_run_app (tok post : string) :
  all_az tok = true ->
  az_run (String.append tok post) = (String.length tok + az_run post)%nat.
Proof.
  induction tok as [|c tok IH]; [reflexivity|]. simpl.
  intros H. apply andb_true_iff in H as [H1 H2].
  now rewrite H1, IH.
Qed.

Lemma all_az_get (tok : string) (k : nat) :
  all_az tok = true -> (k < String.length tok)%nat ->
  exists c, String.get k tok = Some c /\ is_az c = true.
Proof.
  revert k. induction tok as [|c tok IH]; intros k H Hk; [simpl in Hk; lia|].
  simpl in H. apply andb_true_iff in H as [H1 H2].
  destruct k as [|k]; [now exists c|].
  simpl. apply IH; [exact H2|simpl in Hk; lia].
Qed.

Lemma take_app (tok post : string) :
  take (String.length tok) (String.append tok post) = tok.
Proof.
  unfold take. induction tok as [|c tok IH]; simpl.
  - now destruct post.
  - now rewrite IH.
Qed.

Lemma last_char_tail (c : ascii) (pre : string) :
  is_word_opt (last_char (String c pre)) = false ->
  is_word_opt (last_char pre) = false /\
  (pre = EmptyString -> is_word c = false).
Proof.
  destruct pre as [|d pre]; [now split|].
  intros H. split; [exact H|discriminate].
Qed.

Lemma az_run_before_non_word (pre x : string) :
  pre <> EmptyString -> is_word_opt (last_char pre) = false ->
  (az_run (String.append pre x) < String.length pre)%nat.
Proof.
  induction pre as [|c pre IH]; [congruence|]. intros _ H.
  apply last_char_tail in H as [H1 H2]. simpl.
  destruct (is_az c) eqn:E; [|lia].
  destruct pre as [|d pre].
  - apply is_az_word in E. rewrite H2 in E; [discriminate|reflexivity].
  - specialize (IH ltac:(discriminate) H1). simpl in *. lia.
Qed.

(** A match at the first character of a delimited run of letters. *)
Lemma match_at_token (prev : option ascii) (tok post : string) :
  token_shape tok ->
  is_word_opt prev = false ->
  is_word_opt (String.get 0 post) = false ->
  match_at prev (String.append tok post) = Some tok.
Proof.
  intros [Haz Hlen] Hprev Hpost. unfold match_at.
  destruct (all_az_get tok 0 Haz ltac:(lia)) as (c & Hc & Hcz).
  rewrite <- (append_correct1 tok post 0) by lia.
  rewrite Hc. unfold boundary at 1. rewrite Hprev. cbn [is_word_opt].
  rewrite (is_az_word c Hcz). cbn [xorb].
  rewrite az_run_app by exact Haz.
  rewrite non_word_az_run by exact Hpost. rewrite Nat.add_0_r.
  rewrite backtrack_eq.
  destruct (String.length tok) as [|k] eqn:En; [lia|].
  replace (S k <? 3)%nat with false by (symmetry; apply Nat.ltb_ge; lia).
  destruct (all_az_get tok k Haz ltac:(lia)) as (d & Hd & Hdz).
  rewrite <- (append_correct1 tok post k) by lia. rewrite Hd.
  replace (String.get (S k) (String.append tok post))
    with (String.get 0 post)
    by (rewrite <- En; apply (append_correct2 tok post 0)).
  unfold boundary. cbn [is_word_opt]. rewrite (is_az_word d Hdz), Hpost.
  cbn [xorb]. rewrite <- En. now rewrite take_app.
Qed.

Lemma findall_from_complete (tok post : string) :
  token_shape tok ->
  is_word_opt (String.get 0 post) = false ->
  forall (pre : string) (prev : option ascii) (skip : nat),
    (skip <= String.length pre)%nat ->
    (pre = EmptyString -> is_word_opt prev = false) ->
    is_word_opt (last_char pre) = false ->
    In tok (findall_from prev skip
              (String.append pre (String.append tok post))).
Proof.
  intros Htok Hpost. induction pre as [|c pre IH]; intros prev skip Hs Hp Hl.
  - simpl in Hs. assert (skip = O) by lia. subst skip.
    cbn [String.append].
    pose proof (match_at_token prev tok post Htok (Hp eq_refl) Hpost) as M.
    destruct Htok as [_ Hlen].
    destruct tok as [|c tok]; [simpl in Hlen; lia|].
    cbn [String.append] in *. cbn [findall_from]. rewrite M. now left.
  - apply last_char_tail in Hl as [Hl Hc].
    cbn [String.append findall_from].
    destruct skip as [|k].
    + destruct (match_at prev _) as [tok'|] eqn:M.
      * right. apply match_at_shape in M as [_ M].
        pose proof (az_run_before_non_word (String c pre)
                      (String.append tok post) ltac:(discriminate)) as B.
        cbn [String.append] in B.
        assert (Hc' : is_word_opt (last_char (String c pre)) = false).
        { destruct pre; [cbn; now apply Hc|exact Hl]. }
        specialize (B Hc'). simpl String.length in B.
        apply IH; [lia| |exact Hl]. intros E. cbn. now apply Hc.
      * apply IH; [lia| |exact Hl]. intros E. cbn. now apply Hc.
    + apply IH; [simpl in Hs; lia| |exact Hl]. intros E. cbn. now apply Hc.
Qed.

(** A run of letters a-z of length three or more, delimited in the
    lower-cased text, is one of the words. *)
Lemma words_of_complete (text pre tok post : string) :
  lower text = String.append pre (String.append tok post) ->
  token_shape tok -> delimited pre post -> In tok (words_of text).
Proof.
  intros E Htok [Hpre Hpost]. unfold words_of, findall. rewrite E.
  apply findall_from_complete; [exact Htok|exact Hpost|lia|reflexivity|exact Hpre].
Qed.

(** *** First positions and counts *)

Lemma first_pos_In (l : list string) (w : string) :
  In w l -> (first_pos l w < List.length l)%nat.
Proof.
  induction l as [|x l IH]; [intros []|]. intros H. simpl.
  destruct (String.eqb x w) eqn:E; [lia|].
  apply String.eqb_neq in E. destruct H as [H|H]; [congruence|].
  specialize (IH H). lia.
Qed.

Lemma first_pos_app_In (l l' : list string) (w : string) :
  In w l -> first_pos (l ++ l') w = first_pos l w.
Proof.
  induction l as [|x l IH]; [intros []|]. intros H. simpl.
  destruct (String.eqb x w) eqn:E; [reflexivity|].
  apply String.eqb_neq in E. destruct H as [H|H]; [congruence|].
  now rewrite IH.
Qed.

Lemma first_pos_new (l : list string) (w : string) :
  ~ In w l -> first_pos (l ++ [w]) w = List.length l.
Proof.
  induction l as [|x l IH]; intros H; simpl.
  - now rewrite String.eqb_refl.
  - destruct (String.eqb x w) eqn:E.
    + apply String.eqb_eq in E. exfalso. apply H. now left.
    + rewrite IH; [reflexivity|]. intros Hw. apply H. now right.
Qed.

Lemma count_of_snoc (l : list string) (w x : string) :
  count_of (l ++ [w]) x = count_of l x + (if string_dec w x then 1 else 0).
Proof.
  unfold count_of. rewrite count_occ_app. simpl.
  destruct (string_dec w x); lia.
Qed.

Lemma count_of_absent (l : list string) (w : string) :
  ~ In w l -> count_of l w = 0.
Proof.
  intros H. unfold count_of.
  now rewrite (proj1 (count_occ_not_In string_dec l w) H).
Qed.

(** *** [Counter] *)

Lemma counter_incr_new (c : counter) (w : string) :
  ~ In w (map fst c) -> counter_incr w c = c ++ [(w, 1)].
Proof.
  induction c as [|[k n] c IH]; intros H; [reflexivity|]. simpl.
  destruct (String.eqb k w) eqn:E.
  - apply String.eqb_eq in E. exfalso. apply H. now left.
  - rewrite IH; [reflexivity|]. intros Hw. apply H. now right.
Qed.

Lemma counter_incr_keys (c : counter) (w : string) :
  In w (map fst c) -> map fst (counter_incr w c) = map fst c.
Proof.
  induction c as [|[k n] c IH]; [intros []|]. intros H. simpl.
  destruct (String.eqb k w) eqn:E; [reflexivity|].
  apply String.eqb_neq in E. destruct H as [H|H]; [simpl in H; congruence|].
  simpl. now rewrite IH.
Qed.

Lemma counter_incr_In (c : counter) (w x : string) (n : Z) :
  NoDup (map fst c) ->
  In (x, n) (counter_incr w c) ->
  (x <> w /\ In (x, n) c) \/
  (x = w /\ (In (w, n - 1) c \/ (n = 1 /\ ~ In w (map fst c)))).
Proof.
  induction c as [|[k m] c IH]; intros Hnd H.
  - destruct H as [H|[]]. injection H as <- <-. right. split; [reflexivity|].
    right. split; [reflexivity|]. intros [].
  - simpl in H. cbn [map fst] in Hnd. apply NoDup_cons_iff in Hnd as [Hk Hnd].
    destruct (String.eqb k w) eqn:E.
    + apply String.eqb_eq in E. subst k. destruct H as [H|H].
      * injection H as <- <-. right. split; [reflexivity|]. left. left.
        f_equal. lia.
      * left. split; [|now right]. intros Heq. apply Hk. rewrite <- Heq.
        change x with (fst (x, n)). now apply in_map.
    + apply String.eqb_neq in E. destruct H as [H|H].
      * injection H as <- <-. left. split; [exact E|now left].
      * destruct (IH Hnd H) as [[H1 H2]|[H1 [H2|[H2 H3]]]].
        -- left. split; [exact H1|now right].
        -- right. split; [exact H1|]. left. now right.
        -- right. split; [exact H1|]. right. split; [exact H2|].
           intros [Hw|Hw]; [simpl in Hw; congruence|contradiction].
Qed.

Lemma Counter_snoc (l : list string) (w : string) :
  Counter (l ++ [w]) = counter_incr w (Counter l).
Proof. unfold Counter. now rewrite fold_left_app. Qed.

(** The table [Counter l]: its keys are the words of [l] in order of first
    occurrence, each with its number of occurrences. *)
Lemma Counter_spec (l : list string) :
  (forall w, In w (map fst (Counter l)) <-> In w l) /\
  StronglySorted (fun a b => (first_pos l a < first_pos l b)%nat)
                 (map fst (Counter l)) /\
  (forall x n, In (x, n) (Counter l) -> n = count_of l x).
Proof.
  induction l as [|w l IH] using rev_ind.
  - split; [intros w; simpl; tauto|]. split; [constructor|intros x n []].
  - destruct IH as (K & S & V). rewrite Counter_snoc.
    assert (Hnd : NoDup (map fst (Counter l))).
    { eapply sorted_NoDup; [|exact S]. intros a. cbv beta. lia. }
    assert (Smono : StronglySorted
              (fun a b => (first_pos (l ++ [w]) a < first_pos (l ++ [w]) b)%nat)
              (map fst (Counter l))).
    { eapply sorted_weaken; [|exact S]. intros a b Ha Hb Hab.
      apply K in Ha, Hb. now rewrite !first_pos_app_In. }
    destruct (in_dec string_dec w (map fst (Counter l))) as [Hin|Hout].
    + rewrite counter_incr_keys by exact Hin. split; [|split].
      * intros x. rewrite K, in_app_iff. simpl. apply K in Hin.
        split; [tauto|]. intros [H|[<-|[]]]; assumption.
      * exact Smono.
      * intros x n H. rewrite count_of_snoc.
        apply (counter_incr_In _ _ _ _ Hnd) in H
          as [[H1 H2]|[-> [H2|[_ H3]]]].
        -- rewrite (V _ _ H2). destruct (string_dec w x); [congruence|lia].
        -- apply V in H2. destruct (string_dec w w); [lia|congruence].
        -- contradiction.
    + rewrite counter_incr_new by exact Hout. rewrite map_app. simpl.
      assert (Hwl : ~ In w l) by (intros H; apply Hout, K, H).
      split; [|split].
      * intros x. rewrite !in_app_iff, K. reflexivity.
      * apply sorted_snoc; [exact Smono|]. intros a Ha. apply K in Ha.
        rewrite first_pos_app_In by exact Ha. rewrite first_pos_new by exact Hwl.
        now apply first_pos_In.
      * intros x n H. rewrite count_of_snoc. apply in_app_or in H as [H|[H|[]]].
        -- rewrite (V _ _ H). destruct (string_dec w x) as [<-|]; [|lia].
           exfalso. apply Hout. change w with (fst (w, n)). now apply in_map.
        -- injection H as <- <-. rewrite count_of_absent by exact Hwl.
           destruct (string_dec w w); [lia|congruence].
Qed.

Lemma Counter_length (l : list string) :
  List.length (Counter l) = List.length (nodup string_dec l).
Proof.
  destruct (Counter_spec l) as (K & S & _).
  rewrite <- (length_map fst). apply Permutation_length.
  apply NoDup_Permutation.
  - eapply sorted_NoDup; [|exact S]. intros a. cbv beta. lia.
  - apply NoDup_nodup.
  - intros x. now rewrite K, nodup_In.
Qed.

(** *** The tokens are the alphabetic runs of the text *)

Lemma az_run_le_word_len (s : string) : (az_run s <= word_len s)%nat.
Proof.
  induction s as [|c s IH]; [reflexivity|]. cbn [az_run word_len].
  destruct (is_az c) eqn:E; [|lia]. rewrite (is_az_word c E). lia.
Qed.

Lemma get_az_run (s : string) (k : nat) :
  (k < az_run s)%nat -> is_word_opt (String.get k s) = true.
Proof.
  revert k. induction s as [|c s IH]; intros k H; [simpl in H; lia|].
  cbn [az_run] in H. destruct (is_az c) eqn:E; [|lia].
  destruct k as [|k]; [exact (is_az_word c E)|].
  cbn [String.get]. apply IH. lia.
Qed.

Lemma get_word_len_lt (s : string) (k : nat) :
  (k < word_len s)%nat -> is_word_opt (String.get k s) = true.
Proof.
  revert k. induction s as [|c s IH]; intros k H; [simpl in H; lia|].
  cbn [word_len] in H. destruct (is_word c) eqn:E; [|lia].
  destruct k as [|k]; [exact E|]. cbn [String.get]. apply IH. lia.
Qed.

Lemma get_word_len (s : string) :
  is_word_opt (String.get (word_len s) s) = false.
Proof.
  induction s as [|c s IH]; [reflexivity|]. cbn [word_len].
  destruct (is_word c) eqn:E; [exact IH|exact E].
Qed.

Lemma all_az_take_partial (s : string) :
  (az_run s < word_len s)%nat -> all_az (take (word_len s) s) = false.
Proof.
  unfold take. induction s as [|c s IH]; [simpl; lia|].
  cbn [az_run word_len]. destruct (is_word c) eqn:W; [|lia].
  cbn [String.substring all_az]. destruct (is_az c) eqn:E; [|reflexivity].
  intros H. cbn [andb]. apply IH. lia.
Qed.

Lemma backtrack_full (s : string) :
  az_run s = word_len s ->
  backtrack s (az_run s) =
  if (3 <=? az_run s)%nat then Some (take (az_run s) s) else None.
Proof.
  intros H. rewrite backtrack_eq.
  destruct (az_run s <? 3)%nat eqn:E.
  - apply Nat.ltb_lt in E.
    replace (3 <=? az_run s)%nat with false; [reflexivity|].
    symmetry. apply Nat.leb_gt. exact E.
  - apply Nat.ltb_ge in E.
    replace (3 <=? az_run s)%nat with true
      by (symmetry; now apply Nat.leb_le).
    destruct (az_run s) as [|m] eqn:Em; [lia|].
    assert (B : is_word_opt (String.get m s) = true)
      by (apply get_az_run; lia).
    assert (A : is_word_opt (String.get (S m) s) = false)
      by (rewrite H; apply get_word_len).
    unfold boundary. now rewrite A, B.
Qed.

Lemma backtrack_partial (s : string) :
  (az_run s < word_len s)%nat ->
  forall m, (m <= az_run s)%nat -> backtrack s m = None.
Proof.
  intros H m. induction m as [|m IH]; intros Hm; rewrite backtrack_eq.
  - reflexivity.
  - destruct (S m <? 3)%nat; [reflexivity|].
    assert (B : is_word_opt (String.get m s) = true)
      by (apply get_az_run; lia).
    assert (A : is_word_opt (String.get (S m) s) = true)
      by (apply get_word_len_lt; lia).
    unfold boundary. rewrite A, B. cbn [xorb]. apply IH. lia.
Qed.

(** A match that starts a run of word characters. *)
Lemma match_at_run (prev : option ascii) (s : string) :
  is_word_opt prev = false -> is_word_opt (String.get 0 s) = true ->
  match_at prev s =
  if is_token (take (word_len s) s) then Some (take (word_len s) s) else None.
Proof.
  intros Hp Hs. unfold match_at, boundary. rewrite Hp, Hs. cbn [xorb].
  unfold is_token.
  destruct (Nat.eq_dec (az_run s) (word_len s)) as [E|E].
  - rewrite (backtrack_full s E).
    destruct (take_az_run s (az_run s) (Nat.le_refl _)) as [A L].
    rewrite <- E, A, L. reflexivity.
  - assert (Hlt : (az_run s < word_len s)%nat)
      by (pose proof (az_run_le_word_len s); lia).
    rewrite (backtrack_partial s Hlt _ (Nat.le_refl _)).
    now rewrite (all_az_take_partial s Hlt).
Qed.

Lemma match_at_inside (prev : option ascii) (s : string) :
  is_word_opt prev = true -> is_word_opt (String.get 0 s) = true ->
  match_at prev s = None.
Proof.
  intros Hp Hs. unfold match_at, boundary. now rewrite Hp, Hs.
Qed.

Lemma match_at_non_word (prev : option ascii) (s : string) :
  is_word_opt (String.get 0 s) = false -> match_at prev s = None.
Proof.
  intros Hs. unfold match_at. rewrite (non_word_az_run s Hs).
  now destruct (boundary _ _).
Qed.

Lemma length_take_word_len (s : string) :
  String.length (take (word_len s) s) = word_len s.
Proof.
  unfold take. induction s as [|c s IH]; [reflexivity|]. cbn [word_len].
  destruct (is_word c); [|reflexivity].
  cbn [String.substring String.length]. now rewrite IH.
Qed.

(** The scan of [re.findall] finds the maximal runs of word characters that
    are tokens. *)
Lemma findall_from_runs (s : string) :
  forall (prev : option ascii) (skip : nat),
    (skip <= word_len s)%nat ->
    (skip <> O -> is_word_opt prev = true) ->
    findall_from prev skip s =
    filter is_token (word_runs (is_word_opt prev) s).
Proof.
  induction s as [|c s IH]; intros prev skip Hskip Hprev; [reflexivity|].
  cbn [findall_from word_runs]. destruct skip as [|k].
  - destruct (is_word c) eqn:Hc.
    + destruct (is_word_opt prev) eqn:Hp.
      * rewrite (match_at_inside prev (String c s) Hp Hc).
        rewrite (IH (Some c) O);
          [cbn [is_word_opt]; now rewrite Hc|lia|congruence].
      * rewrite (match_at_run prev (String c s) Hp Hc). cbn [filter].
        destruct (is_token (take (word_len (String c s)) (String c s))).
        -- rewrite length_take_word_len. f_equal.
           rewrite (IH (Some c) (word_len (String c s) - 1)%nat).
           ++ cbn [is_word_opt]. now rewrite Hc.
           ++ cbn [word_len]. rewrite Hc. lia.
           ++ intros _. exact Hc.
        -- rewrite (IH (Some c) O);
          [cbn [is_word_opt]; now rewrite Hc|lia|congruence].
    + rewrite (match_at_non_word prev (String c s) Hc).
      rewrite (IH (Some c) O); [cbn [is_word_opt]; now rewrite Hc|lia|congruence].
  - cbn [word_len] in Hskip. destruct (is_word c) eqn:Hc; [|lia].
    rewrite (Hprev ltac:(discriminate)).
    rewrite (IH (Some c) k); [cbn [is_word_opt]; now rewrite Hc|lia|].
    intros _. exact Hc.
Qed.

Lemma words_of_spec (text : string) :
  words_of text = spec_tokens (lower text).
Proof.
  unfold words_of, findall, spec_tokens.
  now rewrite findall_from_runs by (lia || congruence).
Qed.

Lemma is_az_iff (c : ascii) : is_az c = true <-> 97 <= ord c <= 122.
Proof. apply StringFacts.in_range_iff. Qed.

(** The word characters, by code point: the digits, the letters A-Z and
    a-z, the underscore, and the letters and digits of the upper half. *)
Lemma is_word_iff (c : ascii) :
  is_word c = true <->
  48 <= ord c <= 57 \/ 65 <= ord c <= 90 \/ 97 <= ord c <= 122 \/
  ord c = 95 \/ ord c = 170 \/ ord c = 178 \/ ord c = 179 \/
  ord c = 181 \/ ord c = 185 \/ ord c = 186 \/ 188 <= ord c <= 190 \/
  192 <= ord c <= 214 \/ 216 <= ord c <= 246 \/ 248 <= ord c <= 255.
Proof.
  unfold is_word, isalnum. cbv zeta.
  rewrite !orb_true_iff, !StringFacts.in_range_iff, !Z.eqb_eq. tauto.
Qed.

(** *** Dropping the stop words *)

Lemma is_stop_word_In (w : string) :
  is_stop_word w = true <-> In w stop_words.
Proof.
  unfold is_stop_word. rewrite existsb_exists. split.
  - intros (x & Hx & E). apply String.eqb_eq in E. now subst x.
  - intros H. exists w. split; [exact H|apply String.eqb_refl].
Qed.

Lemma count_of_filter (f : string -> bool) (l : list string) (w : string) :
  count_of (filter f l) w = if f w then count_of l w else 0.
Proof.
  unfold count_of. induction l as [|x l IH].
  - now destruct (f w).
  - cbn [filter]. destruct (f x) eqn:Ex.
    + cbn [count_occ]. destruct (string_dec x w) as [->|N].
      * rewrite Ex in *. lia.
      * exact IH.
    + cbn [count_occ]. destruct (string_dec x w) as [->|N].
      * rewrite Ex in *. exact IH.
      * exact IH.
Qed.

(** Filtering keeps the order of first occurrence. *)
Lemma first_pos_filter (f : string -> bool) (l : list string)
  (w w' : string) :
  f w = true -> f w' = true -> In w l -> In w' l ->
  ((first_pos (filter f l) w < first_pos (filter f l) w')%nat <->
   (first_pos l w < first_pos l w')%nat).
Proof.
  intros Hw Hw'. induction l as [|x l IH]; [intros []|].
  intros H H'. cbn [filter]. destruct (f x) eqn:Ex.
  - cbn [first_pos].
    destruct (String.eqb x w) eqn:E; destruct (String.eqb x w') eqn:E';
      try lia.
    apply String.eqb_neq in E, E'.
    destruct H as [H|H]; [congruence|].
    destruct H' as [H'|H']; [congruence|].
    specialize (IH H H'). lia.
  - cbn [first_pos].
    destruct (String.eqb x w) eqn:E;
      [apply String.eqb_eq in E; congruence|].
    destruct (String.eqb x w') eqn:E';
      [apply String.eqb_eq in E'; congruence|].
    apply String.eqb_neq in E, E'.
    destruct H as [H|H]; [congruence|].
    destruct H' as [H'|H']; [congruence|].
    specialize (IH H H'). lia.
Qed.

End KeywordFacts.

Module KeywordSpec.
Import Py PyFacts PyStr TopFacts Analyzer KeywordFacts.

Lemma extract_keywords_top (text : string) :
  extract_keywords text = top (Counter (filtered_words text)) 5.
Proof. reflexivity. Qed.

Lemma Counter_items_cnt (l : list string) (a : string * Z) :
  In a (Counter l) -> snd a = count_of l (fst a).
Proof. destruct a as [x n]. apply Counter_spec. Qed.

Lemma Counter_items_pos (l : list string) :
  StronglySorted
    (fun a b : string * Z => (first_pos l (fst a) < first_pos l (fst b))%nat)
    (Counter l).
Proof.
  apply (sorted_map_inv fst
           (fun a b => (first_pos l a < first_pos l b)%nat)).
  apply Counter_spec.
Qed.

End KeywordSpec.

Import PyStr.

(** C7. Keyword extraction works on the lower-cased text: each character
    of the text is replaced by its lower-case form, which for the capital
    letters (code points 65-90, and 192-222 without 215) is the letter 32
    code points higher and for every other character the character itself.
    Its tokens are, in the order of the text and with their repetitions, the
    maximal runs of word characters (letters, digits and the underscore) that
    consist of letters a-z only and are at least three long; every such run of letters that stands between
    non-word characters or the ends of the text is a token.  The tokens found
    in the stop-word set are dropped: every other token keeps its number of
    occurrences, and the remaining tokens keep their order of first
    occurrence.  The result lists distinct remaining tokens, as many as there
    are up to five, ordered by descending number of occurrences and, for
    equal numbers, by first occurrence; every remaining token left out of the
    result is outranked in that order by each keyword of the result.  With no
    remaining token the result is empty. *)
Theorem keywords_are_top_five (text : string) :
  let fw := filtered_words text in
  let kws := extract_keywords text in
  (forall i, String.get i (lower text)
             = option_map lower_char (String.get i text)) /\
  (forall c, 65 <= ord c <= 90 \/ (192 <= ord c <= 222 /\ ord c <> 215) ->
             ord (lower_char c) = ord c + 32) /\
  (forall c, ~ (65 <= ord c <= 90 \/ (192 <= ord c <= 222 /\ ord c <> 215)) ->
             lower_char c = c) /\
  words_of text = spec_tokens (lower text) /\
  (forall c, is_az c = true <-> 97 <= ord c <= 122) /\
  (forall c, is_word c = true <->
     48 <= ord c <= 57 \/ 65 <= ord c <= 90 \/ 97 <= ord c <= 122 \/
     ord c = 95 \/ ord c = 170 \/ ord c = 178 \/ ord c = 179 \/
     ord c = 181 \/ ord c = 185 \/ ord c = 186 \/ 188 <= ord c <= 190 \/
     192 <= ord c <= 214 \/ 216 <= ord c <= 246 \/ 248 <= ord c <= 255) /\
  Forall token_shape (words_of text) /\
  (forall pre tok post,
      lower text = String.append pre (String.append tok post) ->
      token_shape tok -> delimited pre post -> In tok (words_of text)) /\
  (forall w, is_stop_word w = true <-> In w stop_words) /\
  (forall w, In w fw <-> In w (words_of text) /\ is_stop_word w = false) /\
  (forall w, count_of fw w =
             if is_stop_word w then 0 else count_of (words_of text) w) /\
  (forall w w', In w fw -> In w' fw ->
      ((first_pos fw w < first_pos fw w')%nat <->
       (first_pos (words_of text) w < first_pos (words_of text) w')%nat)) /\
  (forall w, In w kws -> In w fw) /\
  NoDup kws /\
  List.length kws = Nat.min 5 (List.length (nodup string_dec fw)) /\
  StronglySorted (outranks (count_of fw) (first_pos fw)) kws /\
  (forall w w', In w kws -> In w' fw -> ~ In w' kws ->
                outranks (count_of fw) (first_pos fw) w w') /\
  (fw = [] -> kws = []).
Proof.
  intros fw kws. subst kws. rewrite KeywordSpec.extract_keywords_top.
  fold fw.
  pose proof (KeywordSpec.Counter_items_cnt fw) as Hcnt.
  pose proof (KeywordSpec.Counter_items_pos fw) as Hpos.
  destruct (KeywordFacts.Counter_spec fw) as (K & _ & _).
  assert (Hfw : forall w, In w fw <->
                          In w (words_of text) /\ is_stop_word w = false).
  { intros w. unfold fw, filtered_words. rewrite filter_In.
    now rewrite negb_true_iff. }
  split; [intros i; apply StringFacts.lower_get|].
  split; [apply StringFacts.lower_char_upper|].
  split; [apply StringFacts.lower_char_other|].
  split; [apply KeywordFacts.words_of_spec|].
  split; [apply KeywordFacts.is_az_iff|].
  split; [apply KeywordFacts.is_word_iff|].
  split; [apply KeywordFacts.words_of_shape|].
  split; [apply KeywordFacts.words_of_complete|].
  split; [apply KeywordFacts.is_stop_word_In|].
  split; [exact Hfw|].
  split.
  { intros w. unfold fw, filtered_words.
    rewrite KeywordFacts.count_of_filter. now destruct (is_stop_word w). }
  split.
  { intros w w' Hw Hw'. apply Hfw in Hw as [Hw Sw], Hw' as [Hw' Sw'].
    unfold fw, filtered_words.
    apply KeywordFacts.first_pos_filter; try assumption.
    - now rewrite Sw.
    - now rewrite Sw'. }
  split.
  { intros w Hw. apply K. exact (TopFacts.top_In _ _ _ Hw). }
  split; [exact (TopFacts.top_NoDup _ _ _ Hcnt Hpos 5)|].
  split.
  { rewrite TopFacts.top_length. now rewrite KeywordFacts.Counter_length. }
  split; [exact (TopFacts.top_sorted _ _ _ Hcnt Hpos 5)|].
  split.
  { intros w w' Hw Hw' Hn.
    apply (TopFacts.top_outranks_rest _ _ _ Hcnt Hpos 5); [exact Hw| |exact Hn].
    now apply K. }
  intros E. rewrite E. reflexivity.
Qed.

(** C7 on a short text, where the letter case and the number of occurrences
    decide the result: the tokens are "walk" and twice "garden", the second
    time from the capitals, and "garden" comes first with its two
    occurrences. *)
Lemma keywords_are_top_five_witness :
  let text := "A walk, the garden, the GARDEN"%string in
  words_of text = ["walk"; "the"; "garden"; "the"; "garden"]%string /\
  count_of (filtered_words text) "garden" = 2 /\
  count_of (filtered_words text) "the" = 0 /\
  In "garden"%string (filtered_words text) /\
  extract_keywords text = ["garden"; "walk"]%string.
Proof.
  cbv zeta.
  pose proof (keywords_are_top_five "A walk, the garden, the GARDEN")
    as (_ & _ & _ & Hw & _ & _ & _ & _ & _ & _ & Hc & _ & Hin & _).
  cbv zeta in Hw, Hc, Hin.
  split; [rewrite Hw; reflexivity|].
  split; [rewrite (Hc "garden"%string); reflexivity|].
  split; [rewrite (Hc "the"%string); reflexivity|].
  split; [|reflexivity].
  apply Hin. left. reflexivity.
Defined.

(** ** Emotion detection *)

Module EmotionFacts.
Import Py PyFacts PyStr TopFacts Analyzer.

Lemma sorted_filter {A : Type} (R : A -> A -> Prop) (f : A -> bool)
  (l : list A) :
  StronglySorted R l -> StronglySorted R (filter f l).
Proof.
  intros Hs. induction Hs as [|a l Hs IH Ha]; simpl; [constructor|].
  destruct (f a); [|exact IH]. constructor; [exact IH|].
  rewrite Forall_forall in *. intros b Hb. apply filter_In in Hb as [Hb _].
  now apply Ha.
Qed.

Lemma first_pos_cons_other (x : string) (l : list string) (a : string) :
  ~ In x l -> In a l -> first_pos (x :: l) a = S (first_pos l a).
Proof.
  intros Hx Ha. simpl. destruct (String.eqb x a) eqn:E; [|reflexivity].
  apply String.eqb_eq in E. subst a. contradiction.
Qed.

Lemma first_pos_sorted (l : list string) :
  NoDup l ->
  StronglySorted (fun a b => (first_pos l a < first_pos l b)%nat) l.
Proof.
  induction l as [|x l IH]; intros Hnd; [constructor|].
  apply NoDup_cons_iff in Hnd as [Hx Hnd]. constructor.
  - eapply sorted_weaken; [|exact (IH Hnd)].
    intros a b Ha Hb Hab. cbv beta in *.
    rewrite !first_pos_cons_other by assumption. lia.
  - apply Forall_forall. intros b Hb.
    rewrite (first_pos_cons_other x l b Hx Hb).
    simpl. rewrite String.eqb_refl. lia.
Qed.

Lemma emotion_hits_head (e : string) (kws : list string)
  (table : list (string * list string)) (text : string) :
  emotion_hits ((e, kws) :: table) text e = keyword_hits (lower text) kws.
Proof. unfold emotion_hits. simpl. now rewrite String.eqb_refl. Qed.

Lemma emotion_hits_tail (e : string) (kws : list string)
  (table : list (string * list string)) (text x : string) :
  x <> e ->
  emotion_hits ((e, kws) :: table) text x = emotion_hits table text x.
Proof.
  intros H. unfold emotion_hits. simpl.
  destruct (String.eqb e x) eqn:E; [|reflexivity].
  apply String.eqb_eq in E. congruence.
Qed.

Lemma matched_emotions_cons (e : string) (kws : list string)
  (table : list (string * list string)) (text : string) :
  ~ In e (map fst table) ->
  matched_emotions ((e, kws) :: table) text =
  if 0 <? keyword_hits (lower text) kws
  then e :: matched_emotions table text
  else matched_emotions table text.
Proof.
  intros He. unfold matched_emotions. cbn [map fst filter].
  rewrite emotion_hits_head.
  assert (E : filter (fun x => 0 <? emotion_hits ((e, kws) :: table) text x)
                (map fst table) =
              filter (fun x => 0 <? emotion_hits table text x)
                (map fst table)).
  { apply filter_ext_in. intros x Hx. rewrite emotion_hits_tail; [reflexivity|].
    intros ->. contradiction. }
  now rewrite E.
Qed.

(** The items of [emotion_scores]: the matched emotions, each with its
    count. *)
Lemma score_emotions_keys (table : list (string * list string))
  (text : string) :
  NoDup (map fst table) ->
  map fst (Lite.score_emotions (lower text) table) =
  matched_emotions table text.
Proof.
  induction table as [|[e kws] table IH]; intros Hnd; [reflexivity|].
  cbn [map fst] in Hnd. apply NoDup_cons_iff in Hnd as [He Hnd].
  rewrite matched_emotions_cons by exact He. cbn [Lite.score_emotions].
  destruct (0 <? keyword_hits (lower text) kws); cbn [map fst];
    now rewrite IH.
Qed.

Lemma score_emotions_cnt (table : list (string * list string))
  (text : string) (a : string * Z) :
  NoDup (map fst table) ->
  In a (Lite.score_emotions (lower text) table) ->
  In (fst a) (map fst table) /\ snd a = emotion_hits table text (fst a).
Proof.
  induction table as [|[e kws] table IH]; intros Hnd; [intros []|].
  cbn [map fst] in Hnd. apply NoDup_cons_iff in Hnd as [He Hnd].
  cbn [Lite.score_emotions].
  assert (Tail : In a (Lite.score_emotions (lower text) table) ->
                 In (fst a) (map fst ((e, kws) :: table)) /\
                 snd a = emotion_hits ((e, kws) :: table) text (fst a)).
  { intros H. destruct (IH Hnd H) as [H1 H2]. split; [now right|].
    rewrite emotion_hits_tail; [exact H2|]. intros E. rewrite E in H1.
    contradiction. }
  destruct (0 <? keyword_hits (lower text) kws); [|exact Tail].
  intros [<-|H]; [|now apply Tail]. split; [now left|].
  cbn [fst snd]. now rewrite emotion_hits_head.
Qed.

Lemma existsb_hits (f : string -> bool) (l : list string) :
  existsb f l = (0 <? Z.of_nat (List.length (filter f l))).
Proof.
  induction l as [|x l IH]; [reflexivity|]. simpl.
  destruct (f x); simpl; [|exact IH].
  symmetry. apply Z.ltb_lt. lia.
Qed.

Lemma detect_matched (table : list (string * list string)) (text : string) :
  NoDup (map fst table) ->
  Full.detect (lower text) table = matched_emotions table text.
Proof.
  induction table as [|[e kws] table IH]; intros Hnd; [reflexivity|].
  cbn [map fst] in Hnd. apply NoDup_cons_iff in Hnd as [He Hnd].
  rewrite matched_emotions_cons by exact He. cbn [Full.detect].
  unfold keyword_hits. rewrite <- existsb_hits.
  destruct (existsb _ kws); now rewrite IH.
Qed.

Lemma lite_tags_NoDup : NoDup (map fst Lite.emotion_keywords).
Proof.
  simpl. repeat constructor; simpl; intuition discriminate.
Qed.

Lemma full_tags_NoDup : NoDup (map fst Full.emotion_keywords).
Proof.
  simpl. repeat constructor; simpl; intuition discriminate.
Qed.

(** The lite detector, in terms of the matched emotions. *)
Lemma lite_detect_top (text lbl : string) :
  Lite._detect_emotions_from_keywords text lbl =
  match matched_emotions Lite.emotion_keywords text with
  | [] => [infer_from_sentiment lbl]
  | _ => top (Lite.emotion_scores text) 3
  end.
Proof.
  unfold Lite._detect_emotions_from_keywords.
  pose proof (score_emotions_keys Lite.emotion_keywords text lite_tags_NoDup)
    as K.
  fold (Lite.emotion_scores text) in K.
  assert (L : List.length (top (Lite.emotion_scores text) 3) =
              Nat.min 3 (List.length (Lite.emotion_scores text)))
    by apply top_length.
  destruct (Lite.emotion_scores text) as [|a scores] eqn:E.
  - now rewrite <- K.
  - rewrite <- K. cbn [map].
    change (map fst (list_take 3 (sorted_rev snd (a :: scores))))
      with (top (a :: scores) 3).
    destruct (top (a :: scores) 3); [simpl in L; lia|reflexivity].
Qed.

Lemma find_by_key (table : list (string * list string)) (e : string)
  (kws : list string) :
  NoDup (map fst table) -> In (e, kws) table ->
  find (fun p => String.eqb (fst p) e) table = Some (e, kws).
Proof.
  induction table as [|[e' kws'] table IH]; intros Hnd Hin; [destruct Hin|].
  cbn [map fst] in Hnd. apply NoDup_cons_iff in Hnd as [Hk Hnd].
  cbn [find fst]. destruct Hin as [Hin|Hin].
  - injection Hin as -> ->. now rewrite String.eqb_refl.
  - destruct (String.eqb e' e) eqn:E; [|now apply IH].
    apply String.eqb_eq in E. subst e'. exfalso. apply Hk.
    change e with (fst (e, kws)). now apply in_map.
Qed.

(** The count of an emotion: the keyword phrases of its entry that occur in
    the lower-cased text. *)
Lemma emotion_hits_by_key (table : list (string * list string))
  (text e : string) (kws : list string) :
  NoDup (map fst table) -> In (e, kws) table ->
  emotion_hits table text e =
  Z.of_nat (List.length (filter (fun kw => contains kw (lower text)) kws)).
Proof.
  intros Hnd He. unfold emotion_hits.
  now rewrite (find_by_key table e kws Hnd He).
Qed.

(** The matched emotions stand in declaration order. *)
Lemma matched_emotions_sorted (table : list (string * list string))
  (text : string) :
  NoDup (map fst table) ->
  StronglySorted
    (fun a b => (first_pos (map fst table) a < first_pos (map fst table) b)%nat)
    (matched_emotions table text).
Proof.
  intros Hnd. unfold matched_emotions. apply sorted_filter.
  now apply first_pos_sorted.
Qed.

(** The three cases of the fallback tag. *)
Lemma infer_from_sentiment_cases (lbl : string) :
  (lbl = "POSITIVE"%string -> infer_from_sentiment lbl = "joy"%string) /\
  (lbl = "NEGATIVE"%string -> infer_from_sentiment lbl = "sadness"%string) /\
  (lbl <> "POSITIVE"%string -> lbl <> "NEGATIVE"%string ->
   infer_from_sentiment lbl = "neutral"%string).
Proof.
  unfold infer_from_sentiment. split; [|split].
  - intros ->. reflexivity.
  - intros ->. reflexivity.
  - intros P N.
    destruct (String.eqb lbl "POSITIVE") eqn:E1;
      [apply String.eqb_eq in E1; contradiction|].
    destruct (String.eqb lbl "NEGATIVE") eqn:E2;
      [apply String.eqb_eq in E2; contradiction|].
    reflexivity.
Qed.

End EmotionFacts.

Import PyStr Analyzer.

(** C8, as stated, fails on the detector of the full analyzer: in this text
    stress has three keyword phrases and joy, sadness and fear one each, yet
    the result is joy, sadness, fear, without stress. *)
Lemma full_detector_ignores_counts :
  let text :=
    "happy at first, then sad and afraid; stressed, overwhelmed, tired"%string in
  emotion_hits Full.emotion_keywords text "stress" = 3 /\
  emotion_hits Full.emotion_keywords text "joy" = 1 /\
  Full._detect_emotions_from_keywords text "NEUTRAL"
    = ["joy"; "sadness"; "fear"]%string /\
  Lite._detect_emotions_from_keywords text "NEUTRAL"
    = ["stress"; "joy"; "sadness"]%string.
Proof. cbv zeta. repeat split; reflexivity. Qed.

(** C8, amended.  The text is lower-cased character by character, a
    capital letter going to the letter 32 code points higher.  Each detector
    counts, for the eight emotions of its table, the keyword phrases of the
    emotion that occur in the lower-cased text, a phrase occurring when it
    stands somewhere inside it; the matched emotions are those with a
    positive count, in declaration order.  The lite detector (the one the
    application uses) returns the matched emotions ranked by descending
    count, ties in declaration order, cut to three.  The detector of the full
    analyzer returns the first three matched emotions in declaration order.
    With no matched emotion both return the single tag joy for the label
    POSITIVE, sadness for NEGATIVE and neutral for any other, so both results
    have between one and three tags. *)
Theorem emotion_detection_results :
  ((forall text i, String.get i (lower text)
                   = option_map lower_char (String.get i text)) /\
   (forall c, 65 <= ord c <= 90 \/ (192 <= ord c <= 222 /\ ord c <> 215) ->
              ord (lower_char c) = ord c + 32) /\
   (forall c, ~ (65 <= ord c <= 90 \/ (192 <= ord c <= 222 /\ ord c <> 215)) ->
              lower_char c = c)) /\
  (forall text lbl : string,
      let hits := emotion_hits Lite.emotion_keywords text in
      let pos := first_pos (map fst Lite.emotion_keywords) in
      let matched := matched_emotions Lite.emotion_keywords text in
      let r := Lite._detect_emotions_from_keywords text lbl in
      map fst Lite.emotion_keywords
        = ["joy"; "sadness"; "anger"; "fear"; "surprise"; "gratitude";
           "hope"; "stress"]%string /\
      (forall e phrases, In (e, phrases) Lite.emotion_keywords ->
         hits e = Z.of_nat (List.length
                    (filter (fun p => contains p (lower text)) phrases))) /\
      (forall p, contains p (lower text) = true <->
                 exists pre post,
                   lower text = String.append pre (String.append p post)) /\
      (forall e, In e matched <->
                 In e (map fst Lite.emotion_keywords) /\ 0 < hits e) /\
      (matched = [] ->
       (lbl = "POSITIVE"%string -> r = ["joy"%string]) /\
       (lbl = "NEGATIVE"%string -> r = ["sadness"%string]) /\
       (lbl <> "POSITIVE"%string -> lbl <> "NEGATIVE"%string ->
        r = ["neutral"%string])) /\
      (matched <> [] ->
       (forall e, In e r -> In e matched) /\
       StronglySorted (outranks hits pos) r /\
       (forall e e', In e r -> In e' matched -> ~ In e' r ->
                     outranks hits pos e e') /\
       List.length r = Nat.min 3 (List.length matched)) /\
      (1 <= List.length r <= 3)%nat) /\
  (forall text lbl : string,
      let hits := emotion_hits Full.emotion_keywords text in
      let pos := first_pos (map fst Full.emotion_keywords) in
      let matched := matched_emotions Full.emotion_keywords text in
      let r := Full._detect_emotions_from_keywords text lbl in
      map fst Full.emotion_keywords
        = ["joy"; "sadness"; "anger"; "fear"; "surprise"; "gratitude";
           "hope"; "stress"]%string /\
      (forall e phrases, In (e, phrases) Full.emotion_keywords ->
         hits e = Z.of_nat (List.length
                    (filter (fun p => contains p (lower text)) phrases))) /\
      (forall p, contains p (lower text) = true <->
                 exists pre post,
                   lower text = String.append pre (String.append p post)) /\
      (forall e, In e matched <->
                 In e (map fst Full.emotion_keywords) /\ 0 < hits e) /\
      StronglySorted (fun a b => (pos a < pos b)%nat) matched /\
      (matched = [] ->
       (lbl = "POSITIVE"%string -> r = ["joy"%string]) /\
       (lbl = "NEGATIVE"%string -> r = ["sadness"%string]) /\
       (lbl <> "POSITIVE"%string -> lbl <> "NEGATIVE"%string ->
        r = ["neutral"%string])) /\
      (matched <> [] -> r = firstn 3 matched) /\
      (1 <= List.length r <= 3)%nat).
Proof.
  assert (Matched : forall table text e,
             In e (matched_emotions table text) <->
             In e (map fst table) /\ 0 < emotion_hits table text e).
  { intros table text e. unfold matched_emotions.
    now rewrite filter_In, Z.ltb_lt. }
  assert (Fallback : forall lbl r,
             r = [infer_from_sentiment lbl] ->
             (lbl = "POSITIVE"%string -> r = ["joy"%string]) /\
             (lbl = "NEGATIVE"%string -> r = ["sadness"%string]) /\
             (lbl <> "POSITIVE"%string -> lbl <> "NEGATIVE"%string ->
              r = ["neutral"%string])).
  { intros lbl r ->.
    destruct (EmotionFacts.infer_from_sentiment_cases lbl) as (A & B & C).
    split; [intros H; now rewrite (A H)|].
    split; [intros H; now rewrite (B H)|].
    intros P N. now rewrite (C P N). }
  split; [|split].
  - split; [intros text i; apply StringFacts.lower_get|].
    split; [apply StringFacts.lower_char_upper
           |apply StringFacts.lower_char_other].
  - intros text lbl hits pos matched r.
    split; [reflexivity|].
    split.
    { intros e phrases He.
      apply (EmotionFacts.emotion_hits_by_key Lite.emotion_keywords text e
               phrases EmotionFacts.lite_tags_NoDup He). }
    split; [intros p; apply StringFacts.contains_iff|].
    split; [apply Matched|].
    subst r. rewrite EmotionFacts.lite_detect_top. fold matched.
    pose proof (EmotionFacts.score_emotions_keys Lite.emotion_keywords text
                  EmotionFacts.lite_tags_NoDup) as K.
    fold (Lite.emotion_scores text) in K. fold matched in K.
    assert (Hcnt : forall a, In a (Lite.emotion_scores text) ->
                             snd a = hits (fst a)).
    { intros a Ha.
      now apply (EmotionFacts.score_emotions_cnt Lite.emotion_keywords text a
                   EmotionFacts.lite_tags_NoDup). }
    assert (Hpos : StronglySorted
                     (fun a b : string * Z => (pos (fst a) < pos (fst b))%nat)
                     (Lite.emotion_scores text)).
    { apply (TopFacts.sorted_map_inv fst
               (fun a b => (pos a < pos b)%nat)).
      rewrite K. apply EmotionFacts.sorted_filter.
      apply EmotionFacts.first_pos_sorted, EmotionFacts.lite_tags_NoDup. }
    assert (Hlen : List.length (top (Lite.emotion_scores text) 3) =
                   Nat.min 3 (List.length matched)).
    { rewrite TopFacts.top_length, <- K, length_map. reflexivity. }
    destruct matched as [|m ms] eqn:E.
    + split; [intros _; now apply Fallback|]. split; [congruence|].
      simpl. lia.
    + split; [discriminate|]. split.
      * intros _. split.
        { intros e He. rewrite <- K. exact (TopFacts.top_In _ _ _ He). }
        split; [exact (TopFacts.top_sorted _ _ _ Hcnt Hpos 3)|].
        split; [|exact Hlen].
        intros e e' He He' Hn.
        apply (TopFacts.top_outranks_rest _ _ _ Hcnt Hpos 3);
          [exact He| |exact Hn].
        now rewrite K.
      * rewrite Hlen. simpl List.length. lia.
  - intros text lbl hits pos matched r.
    split; [reflexivity|].
    split.
    { intros e phrases He.
      apply (EmotionFacts.emotion_hits_by_key Full.emotion_keywords text e
               phrases EmotionFacts.full_tags_NoDup He). }
    split; [intros p; apply StringFacts.contains_iff|].
    split; [apply Matched|].
    split.
    { apply (EmotionFacts.matched_emotions_sorted Full.emotion_keywords text
               EmotionFacts.full_tags_NoDup). }
    subst r. unfold Full._detect_emotions_from_keywords.
    rewrite (EmotionFacts.detect_matched Full.emotion_keywords text
               EmotionFacts.full_tags_NoDup).
    fold matched. destruct matched as [|m ms].
    + split; [intros _; now apply Fallback|]. split; [congruence|].
      simpl. lia.
    + split; [discriminate|]. split; [reflexivity|].
      unfold list_take. rewrite length_firstn. simpl List.length. lia.
Qed.

(** C8 on a text without any keyword phrase, where the tag follows the
    label, and on a text with four matched emotions, where every tag of the
    lite result is a matched emotion and the full result is the first three
    matched emotions. *)
Lemma emotion_detection_results_witness :
  let quiet := "a quiet walk by the river"%string in
  let text :=
    "happy at first, then sad and afraid; stressed, overwhelmed, tired"%string in
  Lite._detect_emotions_from_keywords quiet "POSITIVE" = ["joy"%string] /\
  Lite._detect_emotions_from_keywords quiet "NEGATIVE" = ["sadness"%string] /\
  Lite._detect_emotions_from_keywords quiet "NEUTRAL" = ["neutral"%string] /\
  Full._detect_emotions_from_keywords quiet "POSITIVE" = ["joy"%string] /\
  Full._detect_emotions_from_keywords quiet "NEGATIVE" = ["sadness"%string] /\
  Full._detect_emotions_from_keywords quiet "MIXED" = ["neutral"%string] /\
  In "stress"%string (matched_emotions Lite.emotion_keywords text) /\
  Full._detect_emotions_from_keywords text "NEUTRAL"
    = firstn 3 (matched_emotions Full.emotion_keywords text).
Proof.
  cbv zeta.
  pose proof (fun lbl =>
    proj1 (proj2 (proj2 (proj2 (proj2
      (proj1 (proj2 emotion_detection_results)
         "a quiet walk by the river"%string lbl)))))) as L.
  pose proof (fun lbl =>
    proj1 (proj2 (proj2 (proj2 (proj2 (proj2
      (proj2 (proj2 emotion_detection_results)
         "a quiet walk by the river"%string lbl))))))) as F.
  cbv zeta in L, F.
  split; [apply (L "POSITIVE"%string); reflexivity|].
  split; [apply (L "NEGATIVE"%string); reflexivity|].
  split; [apply (L "NEUTRAL"%string); [reflexivity|discriminate|discriminate]|].
  split; [apply (F "POSITIVE"%string); reflexivity|].
  split; [apply (F "NEGATIVE"%string); reflexivity|].
  split; [apply (F "MIXED"%string); [reflexivity|discriminate|discriminate]|].
  split.
  - apply (proj1 (proj1 (proj2 (proj2 (proj2 (proj2 (proj2
             (proj1 (proj2 emotion_detection_results)
                "happy at first, then sad and afraid; stressed, overwhelmed, tired"%string
                "NEUTRAL"%string)))))) ltac:(discriminate))).
    left. reflexivity.
  - apply (proj1 (proj2 (proj2 (proj2 (proj2 (proj2 (proj2
             (proj2 (proj2 emotion_detection_results)
                "happy at first, then sad and afraid; stressed, overwhelmed, tired"%string
                "NEUTRAL"%string)))))))).
    discriminate.
Defined.

(** * Further properties of the code *)

(** ** The entry store *)

Module StoreMoreFacts.
Import Exn PyStr Store StoreQueries.

Lemma find_filter_other (rows : list row) (deleted wanted : Z) :
  find (fun r => id r =? wanted)
       (filter (fun r => negb (id r =? deleted)) rows) =
  if wanted =? deleted then None else find (fun r => id r =? wanted) rows.
Proof.
  induction rows as [|r rows IH]; simpl; [now destruct (wanted =? deleted)|].
  destruct (id r =? deleted) eqn:Ed; simpl.
  - rewrite IH. destruct (wanted =? deleted) eqn:Ew; [reflexivity|].
    apply Z.eqb_eq in Ed. apply Z.eqb_neq in Ew.
    replace (id r =? wanted) with false; [reflexivity|].
    symmetry. apply Z.eqb_neq. lia.
  - destruct (id r =? wanted) eqn:E; [|exact IH].
    apply Z.eqb_eq in E. apply Z.eqb_neq in Ed.
    replace (wanted =? deleted) with false; [reflexivity|].
    symmetry. apply Z.eqb_neq. lia.
Qed.



(** What a successful [save_entry] returns. *)
Lemma save_entry_ok (db_ok : bool) (now : Z) (s s' : db) (text : string)
  (mood lbl : option string) (sc conf : option Q)
  (emos kws : option (list string)) (entry_id : Z) :
  save_entry db_ok now s text mood lbl sc conf emos kws = Ok (entry_id, s') ->
  entry_id = next_rowid s /\
  sqlite_sequence s' = entry_id /\
  exists r, journal_entries s' = journal_entries s ++ [r] /\ id r = entry_id.
Proof.
  unfold save_entry, connect. destruct db_ok; simpl; [|discriminate].
  intros H. injection H as <- <-. split; [reflexivity|].
  split; [reflexivity|]. eexists. split; reflexivity.
Qed.

(** What [delete_entry] leaves. *)
Lemma delete_entry_ok (db_ok : bool) (s s' : db) (entry_id : Z) (b : bool) :
  delete_entry db_ok s entry_id = Ok (b, s') ->
  sqlite_sequence s' = sqlite_sequence s.
Proof.
  unfold delete_entry, connect. destruct db_ok; simpl; intros H;
    injection H as _ <-; reflexivity.
Qed.

Lemma step_sequence (s : db) (o : op) :
  sqlite_sequence s <= sqlite_sequence (fst (step s o)) /\
  forall i, snd (step s o) = Some i ->
            sqlite_sequence s < i /\ sqlite_sequence (fst (step s o)) = i.
Proof.
  destruct o as [db_ok now text mood lbl sc conf emos kws|db_ok entry_id];
    cbn [step].
  - destruct (save_entry db_ok now s text mood lbl sc conf emos kws)
      as [[i s']|e] eqn:E; cbn [fst snd].
    + apply save_entry_ok in E as (Hi & Hs & _).
      assert (sqlite_sequence s < i) by (subst i; unfold next_rowid; lia).
      split; [lia|]. intros j Hj. injection Hj as <-. split; assumption.
    + split; [lia|discriminate].
  - destruct (delete_entry db_ok s entry_id) as [[b s']|e] eqn:E;
      cbn [fst snd].
    + apply delete_entry_ok in E. split; [lia|discriminate].
    + split; [lia|discriminate].
Qed.

Lemma run_ids (ops : list op) :
  forall s,
    StronglySorted Z.lt (snd (run s ops)) /\
    Forall (fun i => sqlite_sequence s < i) (snd (run s ops)).
Proof.
  induction ops as [|o ops IH]; intros s; [split; constructor|].
  cbn [run]. destruct (step s o) as [s1 r] eqn:E.
  destruct (run s1 ops) as [s2 ids] eqn:E2. cbn [snd].
  destruct (IH s1) as [Hs Hf]. rewrite E2 in Hs, Hf. cbn [snd] in Hs, Hf.
  destruct (step_sequence s o) as [Hle Hid]. rewrite E in Hle, Hid.
  cbn [fst snd] in Hle, Hid.
  assert (Hf' : Forall (fun i => sqlite_sequence s < i) ids).
  { eapply Forall_impl; [|exact Hf]. cbv beta. intros i Hi. lia. }
  destruct r as [i|]; [|split; assumption].
  destruct (Hid i eq_refl) as [Hlt Heq]. split.
  - constructor; [exact Hs|]. eapply Forall_impl; [|exact Hf].
    cbv beta. intros j Hj. lia.
  - constructor; assumption.
Qed.

(** The rows [parse_rows] reads keep their columns. *)
Lemma parse_rows_columns (rows : list row) (es : list entry) :
  parse_rows rows = Ok es ->
  map id es = map id rows /\
  map timestamp es = map timestamp rows /\
  map entry_text es = map entry_text rows.
Proof.
  revert es. induction rows as [|r rows IH]; intros es H.
  - injection H as <-. repeat split.
  - cbn [parse_rows] in H. unfold bind in H.
    destruct (parse_row r) as [e|] eqn:Er; [|discriminate].
    destruct (parse_rows rows) as [es'|] eqn:Ers; [|discriminate].
    injection H as <-. destruct (IH es' eq_refl) as (H1 & H2 & H3).
    unfold parse_row, bind in Er.
    destruct (from_json (detected_emotions r)); [|discriminate].
    destruct (from_json (keywords r)); [|discriminate].
    injection Er as <-. cbn [map id timestamp entry_text].
    now rewrite H1, H2, H3.
Qed.


Lemma by_timestamp_desc_perm (rows : list row) :
  Permutation (by_timestamp_desc rows) rows.
Proof.
  unfold by_timestamp_desc.
  etransitivity; apply PyFacts.sorted_rev_perm.
Qed.

Lemma by_timestamp_desc_In (rows : list row) (r : row) :
  In r (by_timestamp_desc rows) <-> In r rows.
Proof.
  split; apply Permutation_in; [|symmetry]; apply by_timestamp_desc_perm.
Qed.

Lemma by_timestamp_desc_length (rows : list row) :
  List.length (by_timestamp_desc rows) = List.length rows.
Proof. apply Permutation_length, by_timestamp_desc_perm. Qed.

Lemma by_timestamp_desc_sorted (rows : list row) :
  StronglySorted (fun a b : row => timestamp a >= timestamp b)
                 (by_timestamp_desc rows).
Proof.
  unfold by_timestamp_desc.
  eapply TopFacts.sorted_weaken; [|apply PyFacts.sorted_rev_sorted].
  intros a b _ _ [Hab|[Hab _]]; lia.
Qed.

End StoreMoreFacts.

Import Store StoreQueries.

(** X1. Deleting an entry makes its id unknown to [get_entry_by_id] and
    leaves the lookup of every other id as it was. *)
Theorem delete_then_lookup (s : db) (entry_id : Z) :
  exists s',
    delete_entry true s entry_id = Ok (true, s') /\
    get_entry_by_id true s' entry_id = Ok None /\
    forall (db_ok : bool) (other : Z),
      other <> entry_id ->
      get_entry_by_id db_ok s' other = get_entry_by_id db_ok s other.
Proof.
  eexists. split; [reflexivity|]. split.
  - unfold get_entry_by_id, connect. cbn [bind journal_entries].
    now rewrite StoreMoreFacts.find_filter_other, Z.eqb_refl.
  - intros db_ok other H. unfold get_entry_by_id.
    destruct (connect db_ok); [|reflexivity]. cbn [bind journal_entries].
    rewrite StoreMoreFacts.find_filter_other.
    replace (other =? entry_id) with false; [reflexivity|].
    symmetry. now apply Z.eqb_neq.
Qed.

(** X2. Along any sequence of [save_entry] and [delete_entry] calls, failed
    ones included, the ids that [save_entry] returns are strictly increasing
    and all above the AUTOINCREMENT counter of the starting store: an id is
    never given twice, also after its entry was deleted. *)
Theorem saved_ids_increase (s : db) (ops : list op) :
  StronglySorted Z.lt (snd (run s ops)) /\
  Forall (fun i => sqlite_sequence s < i) (snd (run s ops)).
Proof. apply StoreMoreFacts.run_ids. Qed.


(** X4. What [get_all_entries] returns holds every stored row exactly once
    and is ordered from the newest timestamp to the oldest. *)
Theorem all_entries_newest_first (db_ok : bool) (s : db) (es : list entry) :
  get_all_entries db_ok s = Ok es ->
  Permutation (map id es) (map id (journal_entries s)) /\
  StronglySorted Z.ge (map timestamp es).
Proof.
  unfold get_all_entries, connect. destruct db_ok; [|discriminate].
  cbn [bind]. intros H.
  apply StoreMoreFacts.parse_rows_columns in H as (Hid & Hts & _).
  rewrite Hid, Hts. split.
  - apply Permutation_map, StoreMoreFacts.by_timestamp_desc_perm.
  - apply TopFacts.sorted_map, StoreMoreFacts.by_timestamp_desc_sorted.
Qed.


(** ** Search by keyword *)

Module SearchFacts.
Import Exn PyStr Store StoreQueries StringFacts.

Lemma sql_lower_char_idem (c : ascii) :
  sql_lower_char (sql_lower_char c) = sql_lower_char c.
Proof. destruct c as [[] [] [] [] [] [] [] []]; reflexivity. Qed.

Lemma sql_lower_char_wild (c : ascii) :
  (ord (sql_lower_char c) =? 37) = (ord c =? 37) /\
  (ord (sql_lower_char c) =? 95) = (ord c =? 95) /\
  (ord (sql_lower_char c) =? 0) = (ord c =? 0) /\
  (ord (sql_lower_char c) <? 128) = (ord c <? 128).
Proof. destruct c as [[] [] [] [] [] [] [] []]; repeat split; reflexivity. Qed.

Lemma c_str_sql_lower (t : string) :
  c_str (sql_lower t) = sql_lower (c_str t).
Proof.
  induction t as [|c t IH]; [reflexivity|]. cbn [sql_lower c_str].
  destruct (sql_lower_char_wild c) as (_ & _ & W0 & _). rewrite W0.
  destruct (ord c =? 0); [reflexivity|]. cbn [sql_lower]. now rewrite IH.
Qed.

Lemma utf8_len_sql_lower (t : string) :
  utf8_len (sql_lower t) = utf8_len t.
Proof.
  induction t as [|c t IH]; [reflexivity|]. cbn [sql_lower utf8_len].
  destruct (sql_lower_char_wild c) as (_ & _ & _ & W). now rewrite W, IH.
Qed.

Lemma utf8_len_append (a b : string) :
  utf8_len (String.append a b) = utf8_len a + utf8_len b.
Proof.
  induction a as [|c a IH]; [reflexivity|]. cbn [String.append utf8_len].
  rewrite IH. lia.
Qed.

Lemma c_str_plain_append (k b : string) :
  plain k = true ->
  c_str (String.append k b) = String.append k (c_str b).
Proof.
  induction k as [|c k IH]; intros Hk; [reflexivity|].
  cbn [plain] in Hk. apply andb_true_iff in Hk as [Hc Hk].
  apply andb_true_iff in Hc as [_ H0]. apply negb_true_iff in H0.
  cbn [String.append c_str]. now rewrite H0, IH.
Qed.

Lemma sql_lower_append (a b : string) :
  sql_lower (String.append a b) = String.append (sql_lower a) (sql_lower b).
Proof. induction a as [|c a IH]; simpl; [reflexivity|now rewrite IH]. Qed.

Lemma like_percent_eq (p t : string) :
  like (String "%" p) t =
  like p t || match t with
              | EmptyString => false
              | String _ t' => like (String "%" p) t'
              end.
Proof. destruct t; reflexivity. Qed.

Lemma like_char_eq (c : ascii) (p t : string) :
  (ord c =? 37) = false ->
  like (String c p) t =
  match t with
  | EmptyString => false
  | String d t' =>
      ((ord c =? 95) || Ascii.eqb (sql_lower_char c) (sql_lower_char d))
      && like p t'
  end.
Proof. intros H. cbn [like]. now rewrite H. Qed.

Lemma like_percent_all (t : string) : like (String "%" EmptyString) t = true.
Proof.
  induction t as [|c t IH]; [reflexivity|].
  rewrite like_percent_eq. rewrite IH. apply orb_true_r.
Qed.

(** A plain keyword followed by the percent sign matches the texts that
    start with the keyword. *)
Lemma like_plain_prefix (k : string) :
  plain k = true ->
  forall t,
    like (String.append (sql_lower k) (String "%" EmptyString)) (sql_lower t) =
    String.prefix (sql_lower k) (sql_lower t).
Proof.
  induction k as [|c k IH]; intros Hk t.
  - cbn [sql_lower String.append]. now rewrite like_percent_all, prefix_nil.
  - cbn [plain] in Hk. apply andb_true_iff in Hk as [Hc Hk].
    apply andb_true_iff in Hc as [Hc _].
    apply andb_true_iff in Hc as [H37 H95].
    apply negb_true_iff in H37, H95.
    cbn [sql_lower String.append].
    destruct (sql_lower_char_wild c) as (W37 & W95 & _).
    rewrite like_char_eq by (now rewrite W37).
    destruct t as [|d t]; [reflexivity|]. cbn [sql_lower String.prefix].
    rewrite W95, H95, !sql_lower_char_idem, (IH Hk). cbn [orb].
    destruct (ascii_dec (sql_lower_char c) (sql_lower_char d)) as [E|E].
    + rewrite E, Ascii.eqb_refl. reflexivity.
    + apply Ascii.eqb_neq in E. now rewrite E.
Qed.

(** The pattern LIKE reads for a plain keyword. *)
Lemma plain_pattern (k : string) :
  plain k = true ->
  c_str (sql_lower (search_pattern k)) =
  String "%" (String.append (sql_lower k) (String "%" EmptyString)).
Proof.
  intros Hk. unfold search_pattern. rewrite c_str_sql_lower.
  cbn [c_str]. change (ord "%" =? 0) with false. cbv iota.
  rewrite (c_str_plain_append k _ Hk). cbn [c_str].
  change (ord "%" =? 0) with false. cbv iota.
  cbn [sql_lower]. rewrite sql_lower_append. reflexivity.
Qed.

(** The WHERE clause of [search_entries] for a plain keyword. *)
Lemma search_hit_plain (k : string) (r : row) :
  plain k = true ->
  search_hit k r = contains (sql_lower k) (c_str (sql_lower (entry_text r))).
Proof.
  intros Hk. unfold search_hit. rewrite (plain_pattern k Hk).
  rewrite c_str_sql_lower.
  generalize (c_str (entry_text r)) as t. induction t as [|d t IH].
  - rewrite like_percent_eq, contains_eq.
    rewrite (like_plain_prefix k Hk EmptyString).
    cbn [sql_lower]. now destruct (String.prefix (sql_lower k) EmptyString).
  - rewrite like_percent_eq, contains_eq.
    rewrite (like_plain_prefix k Hk (String d t)).
    cbn [sql_lower]. cbn [sql_lower] in IH. rewrite IH.
    now destruct (String.prefix (sql_lower k) _).
Qed.

End SearchFacts.

(** X6. For a keyword without the wildcard characters of LIKE and without
    the NUL character, [search_entries] returns entries whose text, read up
    to its first NUL character, contains the keyword, letters A-Z compared
    without regard to case, and it returns every stored entry whose text
    does; with the empty keyword it returns what [get_all_entries] returns;
    and with a keyword whose pattern is longer than 50000 bytes it raises as
    soon as the store has an entry. *)
Theorem search_finds_substring :
  (forall (db_ok : bool) (s : db) (keyword : string) (es : list entry),
      plain keyword = true ->
      search_entries db_ok s keyword = Exn.Ok es ->
      (forall e, In e es ->
         PyStr.contains (sql_lower keyword)
           (c_str (sql_lower (entry_text e))) = true) /\
      (forall r, In r (journal_entries s) ->
         PyStr.contains (sql_lower keyword)
           (c_str (sql_lower (entry_text r))) = true ->
         In (id r) (map id es))) /\
  (forall (db_ok : bool) (s : db),
      search_entries db_ok s EmptyString = get_all_entries db_ok s) /\
  (forall (s : db) (keyword : string),
      journal_entries s <> [] ->
      like_pattern_limit < utf8_len keyword + 2 ->
      search_entries true s keyword = Exn.Raise Exn.DatabaseError).
Proof.
  split; [|split].
  - intros db_ok s keyword es Hk. unfold search_entries.
    destruct (connect db_ok); [|discriminate]. cbn [Exn.bind].
    destruct (by_timestamp_desc (journal_entries s)) as [|r0 rows] eqn:Er.
    + intros H. injection H as <-. split; [intros e []|].
      intros r Hr _. apply StoreMoreFacts.by_timestamp_desc_In in Hr.
      rewrite Er in Hr. destruct Hr.
    + destruct (like_pattern_limit <? _); [discriminate|]. intros H.
      apply StoreMoreFacts.parse_rows_columns in H as (Hid & _ & Htx). split.
      * intros e He. apply (in_map entry_text) in He. rewrite Htx in He.
        apply in_map_iff in He as (r & <- & Hr).
        apply filter_In in Hr as [_ Hr].
        now rewrite <- SearchFacts.search_hit_plain.
      * intros r Hr Hc. rewrite Hid. apply in_map. apply filter_In. split.
        -- rewrite <- Er. now apply StoreMoreFacts.by_timestamp_desc_In.
        -- now rewrite SearchFacts.search_hit_plain.
  - intros db_ok s. unfold search_entries, get_all_entries.
    destruct (connect db_ok); [|reflexivity]. cbn [Exn.bind].
    destruct (by_timestamp_desc (journal_entries s)) as [|r0 rows];
      [reflexivity|].
    change (like_pattern_limit <?
            utf8_len (sql_lower (search_pattern EmptyString))) with false.
    cbv iota. f_equal.
    generalize (r0 :: rows) as l. induction l as [|r l IH]; [reflexivity|].
    cbn [filter]. rewrite SearchFacts.search_hit_plain by reflexivity.
    cbn [sql_lower]. rewrite StringFacts.contains_eq, StringFacts.prefix_nil.
    now rewrite IH.
  - intros s keyword Hne Hlen. unfold search_entries, connect.
    cbn [Exn.bind].
    destruct (by_timestamp_desc (journal_entries s)) as [|r0 rows] eqn:Er.
    + exfalso. apply Hne.
      pose proof (StoreMoreFacts.by_timestamp_desc_length (journal_entries s))
        as L. rewrite Er in L.
      destruct (journal_entries s); [reflexivity|discriminate L].
    + replace (like_pattern_limit <?
               utf8_len (sql_lower (search_pattern keyword))) with true;
        [reflexivity|].
      symmetry. apply Z.ltb_lt.
      rewrite SearchFacts.utf8_len_sql_lower. unfold search_pattern.
      cbn [utf8_len]. rewrite SearchFacts.utf8_len_append. cbn [utf8_len].
      change (ord "%" <? 128) with true. cbv iota. lia.
Qed.

(** ** Results of the lite analyzer *)

Module AnalysisFacts.
Import Exn PyStr Analyzer Blank FloatFacts.

(** The three cases of [threshold_label]. *)
Lemma threshold_label_cases (t s : Q) :
  (threshold_label t s = "POSITIVE"%string /\ (t < s)%Q) \/
  (threshold_label t s = "NEGATIVE"%string /\ (s <= t)%Q /\ (s < fneg t)%Q) \/
  (threshold_label t s = "NEUTRAL"%string /\ (s <= t)%Q /\ (fneg t <= s)%Q).
Proof.
  unfold threshold_label.
  destruct (Qgtb s t) eqn:E1.
  - left. split; [reflexivity|now apply Qgtb_lt].
  - apply Qgtb_le in E1. destruct (Qltb s (fneg t)) eqn:E2.
    + right. left. split; [reflexivity|]. split; [exact E1|now apply Qltb_lt].
    + right. right. split; [reflexivity|]. split; [exact E1|now apply Qltb_le].
Qed.

Lemma lite_emotions_bounds (text lbl : string) :
  (1 <= List.length (Lite._detect_emotions_from_keywords text lbl) <= 3)%nat /\
  Forall (fun e => In e (map fst Lite.emotion_keywords) \/
                   e = infer_from_sentiment lbl)
         (Lite._detect_emotions_from_keywords text lbl).
Proof.
  rewrite EmotionFacts.lite_detect_top.
  pose proof (EmotionFacts.score_emotions_keys Lite.emotion_keywords text
                EmotionFacts.lite_tags_NoDup) as K.
  fold (Lite.emotion_scores text) in K.
  destruct (matched_emotions Lite.emotion_keywords text) as [|m ms] eqn:E.
  - split; [simpl; lia|]. constructor; [now right|constructor].
  - split.
    + rewrite TopFacts.top_length, <- (length_map fst), K.
      simpl List.length. lia.
    + apply Forall_forall. intros e He. left.
      apply TopFacts.top_In in He. rewrite K in He. rewrite <- E in He.
      unfold matched_emotions in He. now apply filter_In in He.
Qed.

Lemma keywords_at_most_five (text : string) :
  (List.length (extract_keywords text) <= 5)%nat.
Proof.
  rewrite KeywordSpec.extract_keywords_top, TopFacts.top_length.
  change (Z.to_nat 5) with 5%nat. lia.
Qed.

(** *** Blank texts and the word count *)

Lemma rstrip_keeps_head (c : ascii) (s : string) :
  isspace c = false -> rstrip (String c s) <> EmptyString.
Proof.
  intros H. cbn [rstrip]. destruct (rstrip s); [now rewrite H|discriminate].
Qed.

Lemma strip_blank (s : string) :
  strip s = EmptyString <-> all_space s = true.
Proof.
  unfold strip. induction s as [|c s IH]; [now split|].
  cbn [lstrip all_space]. destruct (isspace c) eqn:E.
  - exact IH.
  - split; [|discriminate]. intros H. now apply rstrip_keeps_head in H.
Qed.

Lemma count_words_nonneg (b : bool) (s : string) : 0 <= count_words b s.
Proof.
  revert b. induction s as [|c s IH]; intros b; simpl; [lia|].
  destruct (isspace c); [apply IH|].
  specialize (IH true). destruct b; lia.
Qed.

Lemma split_len_blank (s : string) :
  split_len s = 0 <-> all_space s = true.
Proof.
  unfold split_len. induction s as [|c s IH]; [now split|].
  cbn [count_words all_space]. destruct (isspace c) eqn:E; [exact IH|].
  split; [|discriminate]. pose proof (count_words_nonneg true s). lia.
Qed.

Lemma split_len_positive (s : string) :
  len (strip s) <> 0 -> 1 <= split_len s.
Proof.
  intros H. pose proof (count_words_nonneg false s) as Hn.
  fold (split_len s) in Hn.
  destruct (Z.eq_dec (split_len s) 0) as [E|E]; [|lia].
  exfalso. apply H. apply split_len_blank, strip_blank in E.
  now rewrite E.
Qed.

End AnalysisFacts.

Import Analyzer.

(** X7. Every result of the lite [analyze_sentiment] is well formed: the
    label is POSITIVE, NEGATIVE or NEUTRAL, a POSITIVE label comes with a
    score above 0 and a NEGATIVE one with a score below 0, the confidence is
    the absolute value of the score, there are one to three emotions, each
    one of the eight tags of the table or the fallback tag neutral, and at
    most five keywords. *)
Theorem lite_analysis_well_formed (tb : textblob) (text : string)
  (r : analysis) :
  Lite.analyze_sentiment tb text = Exn.Ok r ->
  In (label r) ["POSITIVE"; "NEGATIVE"; "NEUTRAL"]%string /\
  (label r = "POSITIVE"%string -> (0 < score r)%Q) /\
  (label r = "NEGATIVE"%string -> (score r < 0)%Q) /\
  confidence r = Qabs (score r) /\
  (0 <= confidence r)%Q /\
  (1 <= List.length (emotions r) <= 3)%nat /\
  Forall (fun e => In e (map fst Lite.emotion_keywords) \/
                   e = "neutral"%string) (emotions r) /\
  (List.length (keywords r) <= 5)%nat.
Proof.
  rewrite LiteFacts.analyze_sentiment_cases.
  destruct (polarity_of tb text) as [p|e]; intros H; injection H as <-.
  - cbn [label score confidence emotions keywords Lite.scored_analysis].
    assert (T1 : (0 < f_0_1)%Q) by reflexivity.
    assert (T2 : (fneg f_0_1 < 0)%Q) by reflexivity.
    destruct (AnalysisFacts.lite_emotions_bounds text
                (threshold_label f_0_1 p)) as [Hlen Htags].
    split; [|split; [|split; [|split; [reflexivity|split;
      [apply Qabs_nonneg|split; [exact Hlen|split;
        [|apply AnalysisFacts.keywords_at_most_five]]]]]]].
    + destruct (AnalysisFacts.threshold_label_cases f_0_1 p)
        as [[-> _]|[[-> _]|[-> _]]]; simpl; tauto.
    + destruct (AnalysisFacts.threshold_label_cases f_0_1 p)
        as [[-> H]|[[-> _]|[-> _]]]; intros E; try discriminate E.
      eapply Qlt_trans; eassumption.
    + destruct (AnalysisFacts.threshold_label_cases f_0_1 p)
        as [[-> _]|[[-> [_ H]]|[-> _]]]; intros E; try discriminate E.
      eapply Qlt_trans; eassumption.
    + eapply Forall_impl; [|exact Htags]. cbv beta.
      intros e [He|He]; [now left|].
      unfold infer_from_sentiment in He.
      destruct (String.eqb _ "POSITIVE"); [left; subst e; simpl; tauto|].
      destruct (String.eqb _ "NEGATIVE"); [left; subst e; simpl; tauto|].
      now right.
  - cbn [label score confidence emotions keywords Lite.default_analysis].
    split; [simpl; tauto|]. split; [discriminate|]. split; [discriminate|].
    split; [reflexivity|]. split; [discriminate|]. split; [simpl; lia|].
    split; [repeat constructor; now right|].
    apply AnalysisFacts.keywords_at_most_five.
Qed.

(** X7 on a text scored 0.6. *)
Lemma lite_analysis_well_formed_witness :
  let r := Lite.scored_analysis "what a wonderful, happy day"%string (3 # 5) in
  label r = "POSITIVE"%string /\ (0 < score r)%Q /\
  (1 <= List.length (emotions r) <= 3)%nat.
Proof.
  cbv zeta.
  destruct (lite_analysis_well_formed (Some (fun _ => Exn.Ok (3 # 5)))
              "what a wonderful, happy day"%string
              (Lite.scored_analysis "what a wonderful, happy day"%string (3 # 5))
              eq_refl)
    as (_ & H1 & _ & _ & _ & H2 & _).
  split; [reflexivity|]. split; [now apply H1|exact H2].
Defined.

(** ** Submission, end to end *)

Import Store App.

(** X8. A text that is not blank and has 20 to 5000 characters is analyzed
    and saved when the database works: the handler reports the new id with
    the analysis of the lite analyzer, and reading that id back gives the
    submitted text and mood, the label, score, confidence, emotions and
    keywords of the analysis, the time of the submission and a word count of
    at least 1.  When the database raises, nothing is saved. *)
Theorem accepted_text_is_stored :
  (forall (tb : textblob) (now : Z) (mood : option string) (s : db)
          (text : string),
      PyStr.len (PyStr.strip text) <> 0 ->
      20 <= PyStr.len text <= 5000 ->
      exists (a : analysis) (entry_id : Z) (s' : db) (e : entry),
        Lite.analyze_sentiment tb text = Exn.Ok a /\
        submit tb true now mood s text = (Saved entry_id a, s') /\
        get_entry_by_id true s' entry_id = Exn.Ok (Some e) /\
        entry_text e = text /\
        user_selected_mood e = mood /\
        timestamp e = now /\
        ai_sentiment_label e = Some (label a) /\
        ai_sentiment_score e = Some (score a) /\
        ai_confidence e = Some (confidence a) /\
        detected_emotions e = emotions a /\
        Store.keywords e = Analyzer.keywords a /\
        1 <= word_count e) /\
  (forall (tb : textblob) (now : Z) (mood : option string) (s : db)
          (text : string),
      exists r, submit tb false now mood s text = (r, s) /\
                forall entry_id a, r <> Saved entry_id a).
Proof.
  split.
  - intros tb now mood s text Hblank Hlen.
    assert (Hne : String.eqb text EmptyString = false).
    { apply String.eqb_neq. intros ->. now apply Hblank. }
    unfold submit. rewrite Hne.
    replace (PyStr.len (PyStr.strip text) =? 0) with false
      by (symmetry; now apply Z.eqb_neq).
    replace (PyStr.len text <? 20) with false
      by (symmetry; apply Z.ltb_ge; lia).
    replace (PyStr.len text >? 5000) with false
      by (symmetry; rewrite Z.gtb_ltb; apply Z.ltb_ge; lia).
    cbn [orb].
    rewrite LiteFacts.analyze_sentiment_cases.
    set (a := match polarity_of tb text with
              | Exn.Ok p => Lite.scored_analysis text p
              | Exn.Raise _ => Lite.default_analysis text
              end).
    replace (match polarity_of tb text with
             | Exn.Ok p => Exn.Ok (Lite.scored_analysis text p)
             | Exn.Raise _ => Exn.Ok (Lite.default_analysis text)
             end) with (Exn.Ok a)
      by (unfold a; now destruct (polarity_of tb text)).
    cbn [Exn.bind save_entry connect].
    eexists a, _, _, _. split; [reflexivity|]. split; [reflexivity|].
    unfold get_entry_by_id, connect. cbn [Exn.bind journal_entries].
    match goal with
    | |- context [find _ (_ ++ [?r])] =>
        change (next_rowid s) with (id r) at 1;
        rewrite (StoreFacts.find_fresh (journal_entries s) r)
    end.
    + unfold parse_row. cbn [detected_emotions Store.keywords].
      rewrite !StoreFacts.from_json_to_json. cbn [Exn.bind].
      split; [reflexivity|]. cbn.
      split; [reflexivity|]. split; [reflexivity|]. split; [reflexivity|].
      split; [reflexivity|]. split; [reflexivity|]. split; [reflexivity|].
      split; [reflexivity|]. split; [reflexivity|].
      now apply AnalysisFacts.split_len_positive.
    + intros r' Hr'. cbn [id]. now apply StoreFacts.next_rowid_fresh.
  - intros tb now mood s text. unfold submit.
    destruct (String.eqb text EmptyString || (PyStr.len (PyStr.strip text) =? 0));
      [eexists; split; [reflexivity|discriminate]|].
    destruct (PyStr.len text <? 20);
      [eexists; split; [reflexivity|discriminate]|].
    destruct (PyStr.len text >? 5000);
      [eexists; split; [reflexivity|discriminate]|].
    rewrite LiteFacts.analyze_sentiment_cases.
    destruct (polarity_of tb text); cbn; eexists;
      (split; [reflexivity|discriminate]).
Qed.

(** X8 on a text of 26 characters. *)
Lemma accepted_text_is_stored_witness :
  exists (a : analysis) (entry_id : Z) (s' : db) (e : entry),
    Lite.analyze_sentiment None "I walked home in the rain."%string
      = Exn.Ok a /\
    submit None true 50 None empty_db "I walked home in the rain."%string
      = (Saved entry_id a, s') /\
    get_entry_by_id true s' entry_id = Exn.Ok (Some e) /\
    entry_text e = "I walked home in the rain."%string /\
    user_selected_mood e = None /\
    timestamp e = 50 /\
    ai_sentiment_label e = Some (label a) /\
    ai_sentiment_score e = Some (score a) /\
    ai_confidence e = Some (confidence a) /\
    detected_emotions e = emotions a /\
    Store.keywords e = Analyzer.keywords a /\
    1 <= word_count e.
Proof.
  apply (proj1 accepted_text_is_stored None 50 None empty_db
           "I walked home in the rain."%string).
  - discriminate.
  - split; discriminate.
Defined.

(** ** Mood emoji and mood colour *)

Import Mood.

(** X9. The colour and the emoji of a score agree: the colour is green
    exactly when the emoji is one of the two smiling faces, a red colour comes
    with one of the two crying faces, and the neutral face comes with yellow.
    A crying face on yellow happens for the score -0.3 and for no other. *)
Theorem mood_color_matches_emoji (sentiment_score : Q) :
  (get_mood_color sentiment_score = "#4CAF50"%string <->
   get_mood_emoji sentiment_score = grinning_face \/
   get_mood_emoji sentiment_score = smiling_face) /\
  (get_mood_color sentiment_score = "#F44336"%string ->
   get_mood_emoji sentiment_score = crying_face \/
   get_mood_emoji sentiment_score = sobbing_face) /\
  (get_mood_emoji sentiment_score = neutral_face ->
   get_mood_color sentiment_score = "#FFC107"%string) /\
  ((get_mood_emoji sentiment_score = crying_face \/
    get_mood_emoji sentiment_score = sobbing_face) /\
   get_mood_color sentiment_score = "#FFC107"%string <->
   (sentiment_score == f_minus_0_3)%Q).
Proof.
  unfold get_mood_color, get_mood_emoji.
  assert (C1 : (f_0_3 < f_0_5)%Q) by reflexivity.
  assert (C2 : (f_minus_0_3 < f_0_3)%Q) by reflexivity.
  assert (C3 : (f_minus_0_5 < f_minus_0_3)%Q) by reflexivity.
  destruct (Qgtb sentiment_score f_0_5) eqn:E5;
    [apply FloatFacts.Qgtb_lt in E5|apply FloatFacts.Qgtb_le in E5];
  (destruct (Qgtb sentiment_score f_0_3) eqn:E3;
    [apply FloatFacts.Qgtb_lt in E3|apply FloatFacts.Qgtb_le in E3]);
  (destruct (Qgtb sentiment_score f_minus_0_3) eqn:M3;
    [apply FloatFacts.Qgtb_lt in M3|apply FloatFacts.Qgtb_le in M3]);
  (destruct (Qgtb sentiment_score f_minus_0_5) eqn:M5;
    [apply FloatFacts.Qgtb_lt in M5|apply FloatFacts.Qgtb_le in M5]);
  (destruct (Qltb sentiment_score f_minus_0_3) eqn:L3;
    [apply FloatFacts.Qltb_lt in L3|apply FloatFacts.Qltb_le in L3]);
  try (exfalso; lra);
  (split; [split; [intros H; try discriminate H; tauto
                  |intros [H|H]; try discriminate H; reflexivity]|]);
  (split; [intros H; try discriminate H; tauto|]);
  (split; [intros H; try discriminate H; reflexivity|]);
  (split; [intros [[H|H] H']; try discriminate H; try discriminate H'; lra
          |intros H; try (exfalso; lra);
           (split; [tauto|reflexivity])]).
Qed.

(** X10. On every result of the lite analyzer the emoji follows the label: a
    smiling face is shown only for a POSITIVE label, a crying face only for a
    NEGATIVE one, and a NEUTRAL label always gets the neutral face. *)
Theorem mood_emoji_follows_label (tb : textblob) (text : string)
  (r : analysis) :
  Lite.analyze_sentiment tb text = Exn.Ok r ->
  (get_mood_emoji (score r) = grinning_face \/
   get_mood_emoji (score r) = smiling_face ->
   label r = "POSITIVE"%string) /\
  (get_mood_emoji (score r) = crying_face \/
   get_mood_emoji (score r) = sobbing_face ->
   label r = "NEGATIVE"%string) /\
  (label r = "NEUTRAL"%string -> get_mood_emoji (score r) = neutral_face).
Proof.
  rewrite LiteFacts.analyze_sentiment_cases.
  destruct (polarity_of tb text) as [p|e]; intros H; injection H as <-;
    [|repeat split; intros [H|H]; discriminate H].
  cbn [label score Lite.scored_analysis]. unfold get_mood_emoji.
  assert (C0 : (f_0_1 < f_0_3)%Q) by reflexivity.
  assert (C1 : (f_0_3 < f_0_5)%Q) by reflexivity.
  assert (C2 : (f_minus_0_3 < fneg f_0_1)%Q) by reflexivity.
  assert (C3 : (f_minus_0_5 < f_minus_0_3)%Q) by reflexivity.
  assert (C4 : (fneg f_0_1 < f_0_1)%Q) by reflexivity.
  destruct (AnalysisFacts.threshold_label_cases f_0_1 p)
    as [[-> T]|[[-> [T T']]|[-> [T T']]]];
  (destruct (Qgtb p f_0_5) eqn:E5;
    [apply FloatFacts.Qgtb_lt in E5|apply FloatFacts.Qgtb_le in E5]);
  (destruct (Qgtb p f_0_3) eqn:E3;
    [apply FloatFacts.Qgtb_lt in E3|apply FloatFacts.Qgtb_le in E3]);
  (destruct (Qgtb p f_minus_0_3) eqn:M3;
    [apply FloatFacts.Qgtb_lt in M3|apply FloatFacts.Qgtb_le in M3]);
  (destruct (Qgtb p f_minus_0_5) eqn:M5;
    [apply FloatFacts.Qgtb_lt in M5|apply FloatFacts.Qgtb_le in M5]);
  try (exfalso; lra);
  (split; [intros [H|H]; try discriminate H; reflexivity|]);
  (split; [intros [H|H]; try discriminate H; reflexivity|]);
  intros H; try discriminate H; reflexivity.
Qed.

(** X10 on a text scored -0.6. *)
Lemma mood_emoji_follows_label_witness :
  get_mood_emoji (score (Lite.scored_analysis "a sad, lonely evening"%string
                           (-3 # 5))) = sobbing_face /\
  label (Lite.scored_analysis "a sad, lonely evening"%string (-3 # 5))
    = "NEGATIVE"%string.
Proof.
  split; [reflexivity|].
  apply (proj1 (proj2 (mood_emoji_follows_label
                         (Some (fun _ => Exn.Ok (-3 # 5)))
                         "a sad, lonely evening"%string _ eq_refl))).
  right. reflexivity.
Defined.

(** ** More on streaks *)

Module StreakMoreFacts.
Import Py PyFacts Streaks StreakFacts StreakSpec.

(** A strictly descending list is determined by its elements. *)
Lemma desc_unique (l1 : list Z) :
  forall l2,
    StronglySorted Z.gt l1 -> StronglySorted Z.gt l2 ->
    (forall x, In x l1 <-> In x l2) -> l1 = l2.
Proof.
  induction l1 as [|a l1 IH]; intros l2 H1 H2 Hin.
  - destruct l2 as [|b l2]; [reflexivity|].
    exfalso. apply (proj2 (Hin b)). now left.
  - destruct l2 as [|b l2]; [exfalso; apply (proj1 (Hin a)); now left|].
    assert (a = b).
    { destruct (proj1 (Hin a) (or_introl eq_refl)) as [E|Ha]; [now symmetry|].
      destruct (proj2 (Hin b) (or_introl eq_refl)) as [E|Hb]; [exact E|].
      pose proof (desc_head_gt _ _ _ H2 Ha).
      pose proof (desc_head_gt _ _ _ H1 Hb). lia. }
    subst b. f_equal. apply IH; [now apply desc_tail in H1
                                |now apply desc_tail in H2|].
    intros x. split; intros Hx.
    + pose proof (desc_head_gt _ _ _ H1 Hx).
      destruct (proj1 (Hin x) (or_intror Hx)) as [E|Hx']; [lia|exact Hx'].
    + pose proof (desc_head_gt _ _ _ H2 Hx).
      destruct (proj2 (Hin x) (or_intror Hx)) as [E|Hx']; [lia|exact Hx'].
Qed.

Lemma dates_of_same (df df' : list timestamp) :
  (forall d, In d (entry_dates df) <-> In d (entry_dates df')) ->
  dates_of df = dates_of df'.
Proof.
  intros H. apply desc_unique; [apply dates_of_desc|apply dates_of_desc|].
  intros x. rewrite !dates_of_In. apply H.
Qed.

Lemma current_loop_le_length (l : list Z) :
  l <> [] -> current_loop l 1 <= Z.of_nat (List.length l).
Proof.
  induction l as [|d l IH]; [congruence|]. intros _.
  destruct l as [|d' l]; [simpl; lia|].
  rewrite current_loop_step. specialize (IH ltac:(discriminate)).
  destruct (d - d' =? 1); cbn [List.length] in *; lia.
Qed.

Lemma best_run_le_length (l : list Z) : best_run l <= Z.of_nat (List.length l).
Proof.
  induction l as [|d l IH]; [simpl; lia|]. cbn [best_run].
  pose proof (current_loop_le_length (d :: l) ltac:(discriminate)).
  cbn [List.length] in *. lia.
Qed.

Lemma unique_from_length (seen l : list Z) :
  (List.length (unique_from seen l) <= List.length l)%nat.
Proof.
  revert seen. induction l as [|x l IH]; intros seen; simpl; [lia|].
  destruct (existsb (Z.eqb x) seen); [specialize (IH seen)|
                                      specialize (IH (x :: seen))]; simpl; lia.
Qed.

Lemma dates_of_length (df : list timestamp) :
  (List.length (dates_of df) <= List.length df)%nat.
Proof.
  unfold dates_of. rewrite sorted_rev_length.
  etransitivity; [apply unique_from_length|]. now rewrite length_map.
Qed.

Lemma dates_of_NoDup (df : list timestamp) : NoDup (dates_of df).
Proof.
  eapply TopFacts.sorted_NoDup; [|apply dates_of_desc]. intros a. lia.
Qed.

Lemma longest_streak_best (now : timestamp) (df : list timestamp) :
  longest_streak now df = best_run (dates_of df).
Proof.
  destruct df as [|ts df]; [reflexivity|].
  destruct (calculate_streaks_unfold now (ts :: df)) as (d0 & rest & E & H);
    [discriminate|].
  unfold longest_streak. rewrite H, E. reflexivity.
Qed.

Lemma best_run_nonneg (l : list Z) : 0 <= best_run l.
Proof.
  destruct l as [|d l]; [simpl; lia|]. cbn [best_run].
  pose proof (current_loop_pos (d :: l)). lia.
Qed.

End StreakMoreFacts.

Import Streaks.

(** X11. The current streak the dashboard computes with
    [calculate_current_streak] is the one [_calculate_streaks] returns, for
    every history and every day. *)
Theorem dashboard_streak_agrees (now : timestamp) (df : list timestamp) :
  Dashboard.calculate_current_streak now df = current_streak now df.
Proof.
  unfold Dashboard.calculate_current_streak, current_streak,
    _calculate_streaks.
  destruct df as [|ts df]; [reflexivity|].
  destruct (dates_of (ts :: df)) as [|d0 rest]; [reflexivity|].
  cbn [fst].
  destruct (d0 =? date_of now); destruct (d0 =? date_of now - 1); reflexivity.
Qed.

(** X12. The streaks depend on the set of entry dates only: two histories
    with entries on the same calendar dates, however many per date and in
    whatever order, have the same current and longest streak. *)
Theorem streaks_depend_on_dates (now : timestamp) (df df' : list timestamp) :
  (forall d, In d (entry_dates df) <-> In d (entry_dates df')) ->
  _calculate_streaks now df = _calculate_streaks now df'.
Proof.
  intros H. pose proof (StreakMoreFacts.dates_of_same df df' H) as E.
  unfold _calculate_streaks.
  destruct df as [|a df]; destruct df' as [|b df'].
  - reflexivity.
  - exfalso. apply (proj2 (H (date_of b))). now left.
  - exfalso. apply (proj1 (H (date_of a))). now left.
  - now rewrite E.
Qed.

(** X12 on two entries of one day against one. *)
Lemma streaks_depend_on_dates_witness :
  _calculate_streaks 8640000 [8640000; 8640050; 8553600] =
  _calculate_streaks 8640000 [8553600; 8640000].
Proof.
  apply streaks_depend_on_dates. intros d. simpl.
  change (date_of 8640000) with 100. change (date_of 8640050) with 100.
  change (date_of 8553600) with 99. tauto.
Defined.

(** X13. The longest streak is at most the number of distinct entry dates,
    which is at most the number of entries; neither streak is negative. *)
Theorem longest_streak_bounded (now : timestamp) (df : list timestamp)
  (distinct : list Z) :
  NoDup distinct ->
  (forall d, In d distinct <-> In d (entry_dates df)) ->
  0 <= current_streak now df /\
  longest_streak now df <= Z.of_nat (List.length distinct) /\
  (List.length distinct <= List.length df)%nat.
Proof.
  intros Hnd Hin.
  assert (P : Permutation distinct (dates_of df)).
  { apply NoDup_Permutation;
      [exact Hnd|apply StreakMoreFacts.dates_of_NoDup|].
    intros x. now rewrite Hin, StreakFacts.dates_of_In. }
  rewrite (Permutation_length P). split; [|split].
  - unfold current_streak, _calculate_streaks.
    destruct df as [|ts df]; [simpl; lia|].
    destruct (dates_of (ts :: df)) as [|d0 rest]; [simpl; lia|]. cbn [fst].
    pose proof (StreakFacts.current_loop_pos (d0 :: rest)).
    destruct ((d0 =? date_of now) || (d0 =? date_of now - 1)); lia.
  - rewrite StreakMoreFacts.longest_streak_best.
    apply StreakMoreFacts.best_run_le_length.
  - apply StreakMoreFacts.dates_of_length.
Qed.

(** X13 on three entries over two days. *)
Lemma longest_streak_bounded_witness :
  0 <= current_streak 8640000 [8640000; 8640050; 8553600] /\
  longest_streak 8640000 [8640000; 8640050; 8553600] <= 2 /\
  (2 <= 3)%nat.
Proof.
  apply (longest_streak_bounded 8640000 [8640000; 8640050; 8553600] [100; 99]).
  - repeat constructor; simpl; intuition discriminate.
  - intros d. simpl.
    change (date_of 8640000) with 100. change (date_of 8640050) with 100.
    change (date_of 8553600) with 99. tauto.
Defined.

(** X14. More entries never lower the longest streak: when every entry date
    of one history is an entry date of another, the longest streak of the
    first is at most that of the second, whatever the day of reading. *)
Theorem longest_streak_monotone (now now' : timestamp)
  (df df' : list timestamp) :
  (forall d, In d (entry_dates df) -> In d (entry_dates df')) ->
  longest_streak now df <= longest_streak now' df'.
Proof.
  intros H. rewrite !StreakMoreFacts.longest_streak_best.
  destruct (dates_of df) as [|d0 rest] eqn:E.
  - apply StreakMoreFacts.best_run_nonneg.
  - pose proof (StreakFacts.dates_of_desc df) as Hs. rewrite E in Hs.
    destruct (StreakFacts.best_run_attained (d0 :: rest) Hs
                ltac:(discriminate)) as (d & Hd & Hr).
    apply (StreakFacts.best_run_bound _ d);
      [apply StreakFacts.dates_of_desc| |].
    + pose proof (StreakFacts.best_run_ge_head (d0 :: rest)
                    ltac:(discriminate)).
      pose proof (StreakFacts.current_loop_pos (d0 :: rest)). lia.
    + intros i Hi. apply StreakFacts.dates_of_In, H.
      apply StreakFacts.dates_of_In. rewrite E. now apply Hr.
Qed.

(** X14 on a history and the same history with one more entry. *)
Lemma longest_streak_monotone_witness :
  longest_streak 8640000 [8640000; 8467200] <=
  longest_streak 8640000 [8553600; 8640000; 8467200].
Proof.
  apply longest_streak_monotone. intros d. simpl. tauto.
Defined.

(** ** Pagination of the entry list *)

Module PagesFacts.
Import Pages.

Lemma firstn_plus {A : Type} (a b : nat) (l : list A) :
  firstn (a + b) l = firstn a l ++ firstn b (skipn a l).
Proof.
  revert l. induction a as [|a IH]; intros l; [reflexivity|].
  destruct l as [|x l]; simpl; [now rewrite firstn_nil|now rewrite IH].
Qed.

Lemma concat_chunks {A : Type} (l : list A) (m : nat) :
  concat (map (fun i => firstn 20 (skipn (i * 20) l)) (seq 0 m)) =
  firstn (m * 20) l.
Proof.
  induction m as [|m IH]; [reflexivity|].
  rewrite seq_S, map_app, concat_app, IH. cbn [map concat Nat.add].
  rewrite app_nil_r. replace (S m * 20)%nat with (m * 20 + 20)%nat by lia.
  now rewrite firstn_plus.
Qed.

Lemma page_df_chunk {A : Type} (i : nat) (l : list A) :
  page_df (Z.of_nat (S i)) l = firstn 20 (skipn (i * 20) l).
Proof.
  unfold page_df, iloc, entries_per_page.
  replace (Z.to_nat ((Z.of_nat (S i) - 1) * 20 + 20
                     - (Z.of_nat (S i) - 1) * 20)) with 20%nat by lia.
  replace (Z.to_nat ((Z.of_nat (S i) - 1) * 20)) with (i * 20)%nat by lia.
  reflexivity.
Qed.

Lemma total_pages_bounds (n : Z) :
  1 <= n ->
  1 <= total_pages n /\
  20 * (total_pages n - 1) < n <= 20 * total_pages n.
Proof.
  intros H. unfold total_pages, entries_per_page.
  pose proof (Z.div_mod (n - 1) 20 ltac:(lia)).
  pose proof (Z.mod_pos_bound (n - 1) 20 ltac:(lia)).
  pose proof (Z.div_pos (n - 1) 20 ltac:(lia) ltac:(lia)). lia.
Qed.

End PagesFacts.

Import Pages.

(** X15. The pages of a non-empty list of entries, put one after the other
    from page 1 to the last page, give back the list: every entry is on
    exactly one page.  Each of these pages shows at least one entry and at
    most 20. *)
Theorem pages_cover_the_list {A : Type} (filtered_df : list A) :
  filtered_df <> [] ->
  let n := Z.of_nat (List.length filtered_df) in
  concat (map (fun page => page_df page filtered_df) (pages n)) = filtered_df /\
  (forall page, In page (pages n) <-> 1 <= page <= total_pages n) /\
  (forall page, In page (pages n) ->
     (1 <= List.length (page_df page filtered_df) <= 20)%nat).
Proof.
  intros Hne n.
  assert (Hn : 1 <= n).
  { subst n. destruct filtered_df; [congruence|]. cbn [List.length]. lia. }
  destruct (PagesFacts.total_pages_bounds n Hn) as (Hk & Hlo & Hhi).
  unfold pages. set (k := Z.to_nat (total_pages n)).
  assert (Hkz : Z.of_nat k = total_pages n) by (subst k; lia).
  split; [|split].
  - rewrite map_map, <- seq_shift, map_map.
    erewrite map_ext; [|intros i; apply PagesFacts.page_df_chunk].
    rewrite PagesFacts.concat_chunks. apply firstn_all2. subst n. lia.
  - intros page. rewrite in_map_iff. split.
    + intros (i & <- & Hi). apply in_seq in Hi. lia.
    + intros Hp. exists (Z.to_nat page). split; [lia|]. apply in_seq. lia.
  - intros page Hp. apply in_map_iff in Hp as (i & <- & Hi).
    apply in_seq in Hi. destruct i as [|i]; [lia|].
    rewrite PagesFacts.page_df_chunk, length_firstn, length_skipn.
    subst n. lia.
Qed.

(** X15 on a list of 45 entries: three pages. *)
Lemma pages_cover_the_list_witness :
  concat (map (fun page => page_df page (seq 0 45)) (pages 45)) = seq 0 45 /\
  (forall page, In page (pages 45) <-> 1 <= page <= total_pages 45) /\
  (forall page, In page (pages 45) ->
     (1 <= List.length (page_df page (seq 0 45)) <= 20)%nat).
Proof.
  apply (pages_cover_the_list (seq 0 45)). discriminate.
Defined.

(** ** The model cache *)

Module CacheFacts.
Import Exn ModelCache.

Lemma load_when_set {P : Type} (import_ : res unit) (construct : res P)
  (n : nat) (s : state P) :
  global s <> NotLoaded ->
  load_times import_ construct n s = (repeat (global s) n, s).
Proof.
  intros H. induction n as [|n IH]; [reflexivity|].
  cbn [load_times]. unfold _load_sentiment_model.
  destruct (global s) eqn:E; [congruence| |]; rewrite IH; reflexivity.
Qed.

Lemma cached_set {P : Type} (import_ : res unit) (construct : res P) :
  cached import_ construct <> NotLoaded.
Proof. destruct import_, construct; discriminate. Qed.

(** The state after one call or more from the unloaded state. *)
Lemma load_times_initial {P : Type} (import_ : res unit) (construct : res P)
  (n : nat) :
  load_times import_ construct n initial =
  (repeat (cached import_ construct) n,
   match n with
   | O => initial
   | S _ => {| global := cached import_ construct;
               imports := 1%nat;
               constructions := match import_ with
                                | Ok _ => 1%nat
                                | Raise _ => 0%nat
                                end |}
   end).
Proof.
  destruct n as [|n]; [reflexivity|].
  cbn [load_times]. unfold _load_sentiment_model. cbn [global initial].
  destruct import_ as [u|e].
  - replace (match construct with Ok p => Loaded p | Raise _ => Failed end)
      with (cached (Ok u) construct) by (now destruct construct).
    rewrite load_when_set by (cbn [global]; apply cached_set).
    reflexivity.
  - change (@Failed P) with (cached (Raise e) construct).
    rewrite load_when_set by (cbn [global]; apply cached_set).
    reflexivity.
Qed.

End CacheFacts.

Import ModelCache.

(** X16. Starting from the unloaded state, any number of calls of
    [_load_sentiment_model] runs the import statement at most once and calls
    the constructor [pipeline(...)] at most once: for one call or more the
    import is run once, and the constructor is called once when the import
    succeeded and never when it raised.  Every call returns the same value:
    the pipeline when import and constructor succeeded, the failure value
    when either raised, which is kept and never tried again. *)
Theorem model_constructed_once {P : Type} (import_ : Exn.res unit)
  (construct : Exn.res P) (n : nat) :
  fst (load_times import_ construct n initial)
    = repeat (cached import_ construct) n /\
  imports (snd (load_times import_ construct n initial)) = Nat.min n 1%nat /\
  constructions (snd (load_times import_ construct n initial))
    = match import_ with
      | Exn.Ok _ => Nat.min n 1%nat
      | Exn.Raise _ => 0%nat
      end /\
  (forall u p, import_ = Exn.Ok u -> construct = Exn.Ok p ->
     fst (load_times import_ construct n initial) = repeat (Loaded p) n) /\
  (forall e, import_ = Exn.Raise e ->
     fst (load_times import_ construct n initial) = repeat Failed n) /\
  (forall e, construct = Exn.Raise e ->
     fst (load_times import_ construct n initial) = repeat Failed n).
Proof.
  rewrite CacheFacts.load_times_initial. cbn [fst snd].
  split; [reflexivity|]. split; [|split; [|split; [|split]]].
  - destruct n as [|[|n]]; reflexivity.
  - destruct import_; destruct n as [|[|n]]; reflexivity.
  - intros u p -> ->. reflexivity.
  - intros e ->. reflexivity.
  - intros e ->. now destruct import_.
Qed.

(** X16 on three calls when the import raises: the constructor is never
    called and every call returns the failure value. *)
Lemma model_constructed_once_witness :
  fst (load_times (Exn.Raise Exn.ImportError) (Exn.Ok tt) 3%nat initial)
    = repeat Failed 3%nat /\
  constructions
    (snd (load_times (Exn.Raise Exn.ImportError) (Exn.Ok tt) 3%nat initial)) = 0%nat.
Proof.
  pose proof (model_constructed_once
                (Exn.Raise Exn.ImportError) (Exn.Ok tt) 3%nat)
    as (_ & _ & Hc & _ & Hi & _).
  split; [apply (Hi Exn.ImportError); reflexivity | exact Hc].
Defined.

(** ** The full analyzer at a confident pipeline answer *)

Import Analyzer.

(** X17. When the transformer pipeline answers with a score of at least 0.5,
    the label of the full analyzer is never NEUTRAL: it is POSITIVE for the
    pipeline label POSITIVE and NEGATIVE for any other, the confidence is the
    pipeline score, and the thresholds 0.1 and -0.1 would give the same
    label. *)
Theorem confident_answer_label
  (run : string -> Exn.res (list (string * Q)))
  (ep : Full.emotion_pipeline) (tb : textblob) (text : string)
  (result_label : string) (result_score : Q) (rest : list (string * Q)) :
  run (PyStr.take 512 text) = Exn.Ok ((result_label, result_score) :: rest) ->
  (f_0_5 <= result_score)%Q ->
  let r := Full.analyze_sentiment (Some run) ep tb text in
  label r = (if String.eqb result_label "POSITIVE"
             then "POSITIVE" else "NEGATIVE")%string /\
  confidence r = result_score /\
  label r = threshold_label f_0_1 (score r).
Proof.
  intros Hrun Hs. cbv zeta. unfold Full.analyze_sentiment,
    Full.transformer_sentiment. rewrite Hrun. cbn [Exn.bind label score confidence].
  assert (C1 : (f_0_3 < f_0_5)%Q) by reflexivity.
  assert (C2 : (f_0_1 < f_0_3)%Q) by reflexivity.
  assert (C3 : (fneg f_0_3 < fneg f_0_1)%Q) by reflexivity.
  assert (C4 : (fneg f_0_1 < f_0_1)%Q) by reflexivity.
  assert (C5 : (fneg f_0_5 < fneg f_0_3)%Q) by reflexivity.
  destruct (String.eqb result_label "POSITIVE").
  - unfold threshold_label.
    replace (Qgtb result_score f_0_3) with true
      by (symmetry; apply FloatFacts.Qgtb_lt; lra).
    replace (Qgtb result_score f_0_1) with true
      by (symmetry; apply FloatFacts.Qgtb_lt; lra).
    repeat split.
  - unfold threshold_label.
    assert (N : (fneg result_score <= fneg f_0_5)%Q).
    { unfold fneg. now apply Qopp_le_compat. }
    replace (Qgtb (fneg result_score) f_0_3) with false
      by (symmetry; apply FloatFacts.Qgtb_le; lra).
    replace (Qgtb (fneg result_score) f_0_1) with false
      by (symmetry; apply FloatFacts.Qgtb_le; lra).
    replace (Qltb (fneg result_score) (fneg f_0_3)) with true
      by (symmetry; apply FloatFacts.Qltb_lt; lra).
    replace (Qltb (fneg result_score) (fneg f_0_1)) with true
      by (symmetry; apply FloatFacts.Qltb_lt; lra).
    repeat split.
Qed.

(** X17 on the answer NEGATIVE with score 0.98. *)
Lemma confident_answer_label_witness :
  let r := Full.analyze_sentiment
             (Some (fun _ => Exn.Ok [("NEGATIVE"%string, 49 # 50)]))
             None None "nothing went right today"%string in
  label r = "NEGATIVE"%string /\
  confidence r = 49 # 50 /\
  label r = threshold_label f_0_1 (score r).
Proof.
  apply (confident_answer_label
           (fun _ => Exn.Ok [("NEGATIVE"%string, 49 # 50)]) None None
           "nothing went right today"%string "NEGATIVE"%string (49 # 50) []).
  - reflexivity.
  - discriminate.
Defined.

(** ** Keyword phrases inside the text *)

Module PhraseFacts.
Import PyStr Analyzer.

Lemma phrase_matches (table : list (string * list string)) (e : string)
  (kws : list string) (kw text : string) :
  NoDup (map fst table) -> In (e, kws) table -> In kw kws ->
  contains kw (lower text) = true ->
  0 < emotion_hits table text e /\ In e (matched_emotions table text).
Proof.
  intros Hnd He Hkw Hc.
  assert (Hpos : 0 < emotion_hits table text e).
  { unfold emotion_hits. rewrite (EmotionFacts.find_by_key table e kws Hnd He).
    cbn [snd]. unfold keyword_hits.
    assert (Hin : In kw (filter (fun k => contains k (lower text)) kws))
      by (apply filter_In; now split).
    destruct (filter _ kws); [destruct Hin|cbn [List.length]; lia]. }
  split; [exact Hpos|]. unfold matched_emotions. apply filter_In. split.
  - change e with (fst (e, kws)). now apply in_map.
  - now apply Z.ltb_lt.
Qed.

End PhraseFacts.

(** X18. In both analyzers a keyword phrase is looked for anywhere in the
    text and in any letter case, also inside a longer word: when some part of
    the text lower-cases to a keyword phrase of an emotion, that emotion has a
    positive count and is among the matched emotions. *)
Theorem phrase_anywhere_matches (table : list (string * list string))
  (emotion : string) (phrases : list string) (pre part post : string) :
  table = Lite.emotion_keywords \/ table = Full.emotion_keywords ->
  In (emotion, phrases) table ->
  In (PyStr.lower part) phrases ->
  let text := String.append pre (String.append part post) in
  0 < emotion_hits table text emotion /\
  In emotion (matched_emotions table text).
Proof.
  intros Ht He Hp text.
  apply (PhraseFacts.phrase_matches table emotion phrases (PyStr.lower part)).
  - destruct Ht as [-> | ->];
      [apply EmotionFacts.lite_tags_NoDup|apply EmotionFacts.full_tags_NoDup].
  - exact He.
  - exact Hp.
  - subst text. rewrite !StringFacts.lower_append.
    apply StringFacts.contains_inside.
Qed.

(** X18 on a phrase in capitals inside a word. *)
Lemma phrase_anywhere_matches_witness :
  0 < emotion_hits Lite.emotion_keywords "My SADdle broke" "sadness" /\
  In "sadness"%string (matched_emotions Lite.emotion_keywords "My SADdle broke").
Proof.
  apply (phrase_anywhere_matches Lite.emotion_keywords "sadness"
           ["sad"; "depressed"; "unhappy"; "down"; "crying"; "tears";
            "lonely"; "miss"; "disappointed"; "heartbroken"]%string
           "My " "SAD" "dle broke").
  - now left.
  - right. left. reflexivity.
  - left. reflexivity.
Defined.

(** ** The top emotion of the dashboard *)

Module TopEmotionFacts.
Import PyStr.

Lemma Counter_nonempty (l : list string) : l <> [] -> Counter l <> [].
Proof.
  intros H E. destruct l as [|w l]; [congruence|].
  destruct (KeywordFacts.Counter_spec (w :: l)) as (K & _ & _).
  specialize (proj2 (K w) (or_introl eq_refl)). now rewrite E.
Qed.

(** The single item [most_common(1)] returns for a non-empty list. *)
Lemma most_common_one (all : list string) :
  all <> [] ->
  exists e n,
    most_common 1 (Counter all) = [(e, n)] /\
    In e all /\
    forall e', In e' all -> e' <> e ->
               outranks (count_of all) (first_pos all) e e'.
Proof.
  intros Hne.
  pose proof (KeywordSpec.Counter_items_cnt all) as Hcnt.
  pose proof (KeywordSpec.Counter_items_pos all) as Hpos.
  destruct (KeywordFacts.Counter_spec all) as (K & _ & _).
  pose proof (TopFacts.top_length (Counter all) 1) as Hlen.
  pose proof (TopFacts.top_In (Counter all) 1) as Hin.
  pose proof (TopFacts.top_outranks_rest (Counter all) _ _ Hcnt Hpos 1) as Hout.
  assert (Etop : top (Counter all) 1 = map fst (most_common 1 (Counter all)))
    by reflexivity.
  rewrite Etop in Hlen, Hin, Hout.
  assert (Hc : (1 <= List.length (Counter all))%nat).
  { pose proof (Counter_nonempty all Hne).
    destruct (Counter all); [congruence|cbn [List.length]; lia]. }
  change (Z.to_nat 1) with 1%nat in Hlen.
  destruct (most_common 1 (Counter all)) as [|[e n] [|x tl]];
    cbn [map List.length] in Hlen; try lia.
  exists e, n. split; [reflexivity|]. split.
  - apply K. apply Hin. now left.
  - intros e' He' Hd. apply Hout; [now left|now apply K|].
    intros [H|[]]. cbn [fst] in H. congruence.
Qed.

End TopEmotionFacts.

Import PyStr.

(** X19. The top emotion of [get_summary_stats] is the text None when no
    entry has an emotion.  Otherwise it is, without raising, an emotion that
    occurs at least as often over all entries as any other; among emotions
    that occur equally often it is the one met first. *)
Theorem top_emotion_is_most_frequent (df : list (list string)) :
  (Dashboard.all_emotions df = [] ->
   Dashboard.top_emotion df = Exn.Ok "None"%string) /\
  (Dashboard.all_emotions df <> [] ->
   exists e,
     Dashboard.top_emotion df = Exn.Ok e /\
     In e (Dashboard.all_emotions df) /\
     forall e', In e' (Dashboard.all_emotions df) -> e' <> e ->
       outranks (count_of (Dashboard.all_emotions df))
                (first_pos (Dashboard.all_emotions df)) e e').
Proof.
  unfold Dashboard.top_emotion. split; [intros ->; reflexivity|]. intros Hne.
  destruct (TopEmotionFacts.most_common_one _ Hne) as (e & n & E & He & Hout).
  rewrite E. exists e.
  destruct (Dashboard.all_emotions df); [congruence|].
  split; [reflexivity|]. split; assumption.
Qed.

(** X19 on three entries. *)
Lemma top_emotion_is_most_frequent_witness :
  exists e,
    Dashboard.top_emotion [["joy"; "hope"]; []; ["hope"; "stress"]]%string
      = Exn.Ok e /\
    In e (Dashboard.all_emotions
            [["joy"; "hope"]; []; ["hope"; "stress"]]%string) /\
    forall e',
      In e' (Dashboard.all_emotions
               [["joy"; "hope"]; []; ["hope"; "stress"]]%string) ->
      e' <> e ->
      outranks
        (count_of (Dashboard.all_emotions
                     [["joy"; "hope"]; []; ["hope"; "stress"]]%string))
        (first_pos (Dashboard.all_emotions
                      [["joy"; "hope"]; []; ["hope"; "stress"]]%string))
        e e'.
Proof.
  apply (proj2 (top_emotion_is_most_frequent
                  [["joy"; "hope"]; []; ["hope"; "stress"]]%string)).
  discriminate.
Defined.

(** ** The store properties on a store of three entries *)

Import Samples.

(** X1 on the sample store: entry 2 is deleted. *)
Lemma delete_then_lookup_witness :
  exists s',
    delete_entry true sample_db 2 = Exn.Ok (true, s') /\
    get_entry_by_id true s' 2 = Exn.Ok None /\
    forall (db_ok : bool) (other : Z),
      other <> 2 ->
      get_entry_by_id db_ok s' other = get_entry_by_id db_ok sample_db other.
Proof. exact (delete_then_lookup sample_db 2). Defined.


(** X4 on the sample store. *)
Lemma all_entries_newest_first_witness :
  Permutation (map id sample_entries) (map id (journal_entries sample_db)) /\
  StronglySorted Z.ge (map Store.timestamp sample_entries).
Proof.
  apply (all_entries_newest_first true sample_db sample_entries).
  reflexivity.
Defined.


(** X6 on the sample store, with the keyword rain, and on a store whose
    first text has a NUL character before the word rain: that entry is not
    found. *)
Lemma search_finds_substring_witness :
  ((forall e, In e sample_hits ->
      PyStr.contains (sql_lower "rain")
        (c_str (sql_lower (entry_text e))) = true) /\
   (forall r, In r (journal_entries sample_db) ->
      PyStr.contains (sql_lower "rain")
        (c_str (sql_lower (entry_text r))) = true ->
      In (id r) (map id sample_hits))) /\
  map id sample_hits = [4; 1] /\
  ((forall e, In e nul_hits ->
      PyStr.contains (sql_lower "rain")
        (c_str (sql_lower (entry_text e))) = true) /\
   (forall r, In r (journal_entries nul_db) ->
      PyStr.contains (sql_lower "rain")
        (c_str (sql_lower (entry_text r))) = true ->
      In (id r) (map id nul_hits))) /\
  nul_hits = [].
Proof.
  split; [|split; [reflexivity|split; [|reflexivity]]].
  - apply (proj1 search_finds_substring true sample_db "rain"%string
             sample_hits).
    + reflexivity.
    + reflexivity.
  - apply (proj1 search_finds_substring true nul_db "rain"%string nul_hits).
    + reflexivity.
    + reflexivity.
Defined.

(** X9 at the score -0.3. *)
Lemma mood_color_matches_emoji_witness :
  (Mood.get_mood_emoji Mood.f_minus_0_3 = Mood.crying_face \/
   Mood.get_mood_emoji Mood.f_minus_0_3 = Mood.sobbing_face) /\
  Mood.get_mood_color Mood.f_minus_0_3 = "#FFC107"%string.
Proof.
  apply (proj2 (proj2 (proj2 (proj2
           (mood_color_matches_emoji Mood.f_minus_0_3))))).
  reflexivity.
Defined.

(** ** Statistics of the store *)

Module StatsFacts.
Import Exn Store.

Lemma entry_dates_perm (l l' : list Z) :
  Permutation l l' ->
  forall d, In d (Streaks.entry_dates l) <-> In d (Streaks.entry_dates l').
Proof.
  intros P d. unfold Streaks.entry_dates.
  split; apply Permutation_in; [|symmetry]; now apply Permutation_map.
Qed.

Lemma calculate_streaks_perm (now : Z) (l l' : list Z) :
  Permutation l l' ->
  Streaks._calculate_streaks now l = Streaks._calculate_streaks now l'.
Proof.
  intros P.
  pose proof (StreakMoreFacts.dates_of_same l l' (entry_dates_perm l l' P)) as E.
  unfold Streaks._calculate_streaks.
  destruct l as [|a l]; destruct l' as [|b l'].
  - reflexivity.
  - apply Permutation_nil in P. discriminate.
  - symmetry in P. apply Permutation_nil in P. discriminate.
  - now rewrite E.
Qed.

End StatsFacts.

(** X20. The figures of [get_stats] are those of the stored rows: the number
    of entries is the number of rows, and the two streaks are the streaks of
    the stored timestamps, in whatever order the rows are read. *)
Theorem stats_reflect_the_store (db_ok : bool) (now : Z) (s : db)
  (st : stats) :
  get_stats db_ok now s = Exn.Ok st ->
  total_entries st = Z.of_nat (List.length (journal_entries s)) /\
  Store.current_streak st =
    Streaks.current_streak now (map Store.timestamp (journal_entries s)) /\
  Store.longest_streak st =
    Streaks.longest_streak now (map Store.timestamp (journal_entries s)).
Proof.
  unfold get_stats, get_all_entries, connect.
  destruct db_ok; [|discriminate]. cbn [Exn.bind].
  destruct (parse_rows (by_timestamp_desc (journal_entries s)))
    as [df|e] eqn:E; [|discriminate].
  apply StoreMoreFacts.parse_rows_columns in E as (Hid & Hts & _).
  assert (Hlen : List.length df = List.length (journal_entries s)).
  { pose proof (f_equal (@List.length Z) Hid) as Hl.
    rewrite !length_map in Hl.
    etransitivity; [exact Hl|]. apply StoreMoreFacts.by_timestamp_desc_length. }
  assert (P : Permutation (map Store.timestamp df)
                          (map Store.timestamp (journal_entries s))).
  { rewrite Hts. apply Permutation_map, StoreMoreFacts.by_timestamp_desc_perm. }
  unfold Streaks.current_streak, Streaks.longest_streak.
  rewrite <- (StatsFacts.calculate_streaks_perm now _ _ P).
  destruct df as [|e df].
  - cbn [Exn.bind]. intros H. injection H as <-.
    destruct (journal_entries s); [|discriminate Hlen].
    repeat split.
  - unfold entry in *. cbn [Exn.bind].
    destruct (Streaks._calculate_streaks now
                (map Store.timestamp (e :: df))) as [c l].
    intros H. injection H as <-. cbn [total_entries Store.current_streak
      Store.longest_streak fst snd].
    split; [exact (f_equal Z.of_nat Hlen)|split; reflexivity].
Qed.

(** X20 on the sample store, read on day 100. *)
Lemma stats_reflect_the_store_witness :
  3 = Z.of_nat (List.length (journal_entries Samples.sample_db)) /\
  3 = Streaks.current_streak 8640000
        (map Store.timestamp (journal_entries Samples.sample_db)) /\
  3 = Streaks.longest_streak 8640000
        (map Store.timestamp (journal_entries Samples.sample_db)).
Proof.
  apply (stats_reflect_the_store true 8640000 Samples.sample_db
           {| total_entries := 3; Store.current_streak := 3;
              Store.longest_streak := 3 |}).
  reflexivity.
Defined.

(** ** The fallbacks of the full analyzer *)

Module FullFacts.
Import Exn PyStr Analyzer.

Lemma insert_score_length (x : string * Q) (l : list (string * Q)) :
  List.length (Full.insert_score x l) = S (List.length l).
Proof.
  induction l as [|y l IH]; [reflexivity|]. simpl.
  destruct (Qltb (snd x) (snd y)); simpl; [now rewrite IH|reflexivity].
Qed.

Lemma model_emotions_length (ep : Full.emotion_pipeline) (text : string) :
  (List.length (Full._detect_emotions_with_model ep text) <= 3)%nat.
Proof.
  unfold Full._detect_emotions_with_model.
  destruct ep as [run|]; [|simpl; lia].
  destruct (run (take 512 text)) as [[|first rest]|]; try (simpl; lia).
  unfold list_take. rewrite length_map, length_firstn.
  change (Z.to_nat 3) with 3%nat. lia.
Qed.

Lemma keyword_emotions_length (text lbl : string) :
  (1 <= List.length (Full._detect_emotions_from_keywords text lbl) <= 3)%nat.
Proof.
  unfold Full._detect_emotions_from_keywords, list_take.
  rewrite length_firstn. change (Z.to_nat 3) with 3%nat.
  destruct (Full.detect (lower text) Full.emotion_keywords);
    cbn [List.length]; lia.
Qed.

End FullFacts.

(** X21. The full analyzer falls back in two steps.  Without a loaded
    sentiment pipeline, or when the pipeline call fails, the TextBlob
    polarity becomes the score, labelled with the thresholds 0.1 and -0.1 and
    given the fixed confidence 0.5; when TextBlob fails too, the result is
    NEUTRAL with score 0.0 and confidence 0.0. *)
Theorem full_analyzer_fallbacks (sp : Full.sentiment_pipeline)
  (ep : Full.emotion_pipeline) (tb : textblob) (text : string) :
  sp = None \/
  (exists run e, sp = Some run /\
                 Full.transformer_sentiment run text = Exn.Raise e) ->
  let r := Full.analyze_sentiment sp ep tb text in
  match polarity_of tb text with
  | Exn.Ok polarity =>
      label r = threshold_label f_0_1 polarity /\
      score r = polarity /\ confidence r = f_0_5
  | Exn.Raise _ =>
      label r = "NEUTRAL"%string /\ score r = f_0_0 /\ confidence r = f_0_0
  end.
Proof.
  intros H. cbv zeta. unfold Full.analyze_sentiment.
  assert (E : match sp with
              | Some run =>
                  match Full.transformer_sentiment run text with
                  | Exn.Ok data => data
                  | Exn.Raise _ => Full._fallback_sentiment_textblob tb text
                  end
              | None => Full._fallback_sentiment_textblob tb text
              end = Full._fallback_sentiment_textblob tb text).
  { destruct H as [->|(run & e & -> & ->)]; reflexivity. }
  rewrite E. unfold Full._fallback_sentiment_textblob.
  destruct (polarity_of tb text); repeat split.
Qed.

(** X21 with no pipeline and no TextBlob. *)
Lemma full_analyzer_fallbacks_witness :
  let r := Full.analyze_sentiment None None None "an ordinary day"%string in
  label r = "NEUTRAL"%string /\ score r = f_0_0 /\ confidence r = f_0_0.
Proof.
  apply (full_analyzer_fallbacks None None None "an ordinary day"%string).
  now left.
Defined.

(** X22. Every result of the full analyzer has a label among POSITIVE,
    NEGATIVE and NEUTRAL, one to three emotions and at most five keywords,
    whatever the three external models do. *)
Theorem full_analysis_well_formed (sp : Full.sentiment_pipeline)
  (ep : Full.emotion_pipeline) (tb : textblob) (text : string) :
  let r := Full.analyze_sentiment sp ep tb text in
  In (label r) ["POSITIVE"; "NEGATIVE"; "NEUTRAL"]%string /\
  (1 <= List.length (emotions r) <= 3)%nat /\
  (List.length (keywords r) <= 5)%nat.
Proof.
  cbv zeta. unfold Full.analyze_sentiment.
  set (data := match sp with
               | Some run =>
                   match Full.transformer_sentiment run text with
                   | Exn.Ok data => data
                   | Exn.Raise _ => Full._fallback_sentiment_textblob tb text
                   end
               | None => Full._fallback_sentiment_textblob tb text
               end).
  assert (Hfb : In (fst (fst (Full._fallback_sentiment_textblob tb text)))
                   ["POSITIVE"; "NEGATIVE"; "NEUTRAL"]%string).
  { unfold Full._fallback_sentiment_textblob.
    destruct (polarity_of tb text) as [p|]; cbn [fst]; [|simpl; tauto].
    destruct (Qgtb p f_0_1); [simpl; tauto|].
    destruct (Qltb p (fneg f_0_1)); simpl; tauto. }
  assert (Hl : In (fst (fst data)) ["POSITIVE"; "NEGATIVE"; "NEUTRAL"]%string).
  { subst data. destruct sp as [run|]; [|exact Hfb].
    destruct (Full.transformer_sentiment run text) as [d|] eqn:E; [|exact Hfb].
    unfold Full.transformer_sentiment, Exn.bind in E.
    destruct (run (PyStr.take 512 text)) as [[|[rl rs] rest]|];
      try discriminate E.
    injection E as <-. cbn [fst].
    destruct (Qgtb _ f_0_3); [simpl; tauto|].
    destruct (Qltb _ (fneg f_0_3)); simpl; tauto. }
  destruct data as [[l sc] c]. cbn [label emotions keywords fst] in *.
  split; [exact Hl|]. split; [|apply AnalysisFacts.keywords_at_most_five].
  pose proof (FullFacts.model_emotions_length ep text) as Hm.
  destruct (Full._detect_emotions_with_model ep text) as [|e es].
  - apply FullFacts.keyword_emotions_length.
  - cbn [List.length] in *. lia.
Qed.

(** ** The two keyword tables *)

Module TableFacts.
Import PyStr Analyzer.

(** A matched emotion has a keyword phrase in the lower-cased text. *)
Lemma matched_has_phrase (table : list (string * list string))
  (text e : string) :
  In e (matched_emotions table text) ->
  exists kws kw,
    In (e, kws) table /\ In kw kws /\ contains kw (lower text) = true.
Proof.
  unfold matched_emotions, emotion_hits. intros H.
  apply filter_In in H as [_ H]. apply Z.ltb_lt in H.
  destruct (find (fun p => String.eqb (fst p) e) table) as [[e' kws]|] eqn:E;
    [|lia].
  apply find_some in E as [Hin He]. cbn [fst] in He.
  apply String.eqb_eq in He. subst e'. cbn [snd] in H.
  unfold keyword_hits in H.
  destruct (filter (fun kw => contains kw (lower text)) kws) as [|kw l] eqn:F;
    [simpl in H; lia|].
  assert (Hkw : In kw (filter (fun kw => contains kw (lower text)) kws))
    by (rewrite F; now left).
  apply filter_In in Hkw as [Hkw Hc]. now exists kws, kw.
Qed.

End TableFacts.

(** X23. The keyword table of the lite analyzer extends that of the full
    analyzer: every emotion the full table matches in a text is matched by
    the lite table too. *)
Theorem lite_table_matches_more (text emotion : string) :
  In emotion (matched_emotions Full.emotion_keywords text) ->
  In emotion (matched_emotions Lite.emotion_keywords text).
Proof.
  intros H.
  destruct (TableFacts.matched_has_phrase _ _ _ H) as (kws & kw & Hp & Hkw & Hc).
  assert (L : exists kws', In (emotion, kws') Lite.emotion_keywords /\
                           In kw kws').
  { simpl in Hp.
    repeat match goal with
           | Hd : _ \/ _ |- _ => destruct Hd as [Hd|Hd]
           end;
      try contradiction; injection Hp as <- <-;
      (eexists; split; [simpl; eauto 12|]);
      simpl in Hkw |- *; tauto. }
  destruct L as (kws' & Hp' & Hkw').
  exact (proj2 (PhraseFacts.phrase_matches Lite.emotion_keywords emotion kws'
                  kw text EmotionFacts.lite_tags_NoDup Hp' Hkw' Hc)).
Qed.

(** X23 on a text with one keyword phrase of joy. *)
Lemma lite_table_matches_more_witness :
  In "joy"%string
     (matched_emotions Lite.emotion_keywords "what a great morning").
Proof.
  apply lite_table_matches_more. left. reflexivity.
Defined.

(** ** Validation of a submission *)

Import Store App.

(** X24. The handler turns a submission down exactly when the text is blank,
    shorter than 20 characters or longer than 5000, whatever the scorer and
    the database do; a submission turned down leaves the store unchanged. *)
Theorem rejected_iff_invalid (tb : textblob) (db_ok : bool) (now : Z)
  (mood : option string) (s : db) (text : string) :
  (rejected (fst (submit tb db_ok now mood s text)) = true <->
   PyStr.len (PyStr.strip text) = 0 \/ PyStr.len text < 20 \/
   5000 < PyStr.len text) /\
  (rejected (fst (submit tb db_ok now mood s text)) = true ->
   snd (submit tb db_ok now mood s text) = s).
Proof.
  unfold submit.
  destruct (String.eqb text EmptyString) eqn:E0.
  { apply String.eqb_eq in E0. subst text. cbn. split; [|reflexivity].
    split; [now left|reflexivity]. }
  cbn [orb].
  destruct (PyStr.len (PyStr.strip text) =? 0) eqn:E1.
  { apply Z.eqb_eq in E1. cbn. split; [|reflexivity].
    split; [now left|reflexivity]. }
  apply Z.eqb_neq in E1.
  destruct (PyStr.len text <? 20) eqn:E2.
  { apply Z.ltb_lt in E2. cbn. split; [|reflexivity].
    split; [now right; left|reflexivity]. }
  apply Z.ltb_ge in E2.
  destruct (PyStr.len text >? 5000) eqn:E3.
  { rewrite Z.gtb_ltb in E3. apply Z.ltb_lt in E3. cbn.
    split; [|reflexivity]. split; [now right; right|reflexivity]. }
  rewrite Z.gtb_ltb in E3. apply Z.ltb_ge in E3.
  rewrite LiteFacts.analyze_sentiment_cases.
  assert (R : forall a,
             rejected (fst (match
                 (saved <- save_entry db_ok now s text mood
                             (Some (label a)) (Some (score a))
                             (Some (confidence a)) (Some (emotions a))
                             (Some (Analyzer.keywords a)) ;;
                  Exn.Ok (saved, a))
               with
               | Exn.Ok (entry_id, s', analysis_result) =>
                   (Saved entry_id analysis_result, s')
               | Exn.Raise e => (NotSaved e, s)
               end)) = false).
  { intros a. unfold save_entry, connect. destruct db_ok; reflexivity. }
  destruct (polarity_of tb text) as [p|e]; cbn [Exn.bind]; rewrite R;
    (split; [split; [discriminate|lia]|discriminate]).
Qed.

(** X24 on a text of 5010 characters. *)
Lemma rejected_iff_invalid_witness :
  rejected (fst (submit None true 0 None empty_db
                   (String.concat EmptyString
                      (repeat "abcdefghij"%string 501))))
    = true.
Proof.
  apply (proj1 (rejected_iff_invalid None true 0 None empty_db _)).
  right. right. vm_compute. reflexivity.
Defined.
